(** * Otterdog: model objects, pull-request bookkeeping and the REST requester

  A shallow embedding of the parts of otterdog that decide the properties
  stated below:

  - [otterdog/models/repository.py]              (module [Repository])
  - [otterdog/models/repo_workflow_settings.py]  (module [RepositoryWorkflowSettings])
  - [otterdog/webapp/webhook/github_models.py]   (module [github_models])
  - [otterdog/webapp/db/service.py]              (module [service])
  - [otterdog/providers/github/rest.py]          (module [rest])

  Python attributes are dynamically typed: a dataclass field annotated
  [bool] may hold [UNSET] or [None].  Attributes are therefore values of
  the type [Py.Value]; [x is True] and [x == "lit"] are the functions
  [Py.is_True] and [Py.eq_str]. *)

From Stdlib Require Import ZArith Lia.
From stdpp Require Import base option strings pretty list gmap fin_maps.

(** ** Python values, exceptions and results *)

Module Py.
Local Open Scope string_scope.
Local Open Scope list_scope.

(** The values an attribute of a model object can hold. *)
Inductive Value : Type :=
| UNSET                       (* the sentinel otterdog.utils.UNSET *)
| PyNone
| PyBool (b : bool)
| PyInt (z : Z)
| PyStr (s : string)
| PyList (l : list string).

(** [v is True] *)
Definition is_True (v : Value) : bool :=
  match v with PyBool true => true | _ => false end.

(** [v is False] *)
Definition is_False (v : Value) : bool :=
  match v with PyBool false => true | _ => false end.

(** [v == "lit"] for a string literal. *)
Definition eq_str (v : Value) (lit : string) : bool :=
  match v with PyStr s => String.eqb s lit | _ => false end.

(** [f"{v}"] for the values that end up in messages. *)
Definition format (v : Value) : string :=
  match v with
  | UNSET => "UNSET"
  | PyNone => "None"
  | PyBool true => "True"
  | PyBool false => "False"
  | PyStr s => s
  | PyInt _ | PyList _ => "..."
  end.

(** [s.upper()] on ASCII text. *)
Definition upper_ascii (c : Ascii.ascii) : Ascii.ascii :=
  let n := Ascii.nat_of_ascii c in
  if (97 <=? n)%nat && (n <=? 122)%nat then Ascii.ascii_of_nat (n - 32) else c.

Fixpoint upper (s : string) : string :=
  match s with
  | EmptyString => EmptyString
  | String c s' => String (upper_ascii c) (upper s')
  end.

(** The line feed written [\n] in Python string literals. *)
Definition newline : string := String (Ascii.ascii_of_nat 10) EmptyString.

(** The exceptions raised by the modelled code.  [GitHubException] and
    [BadCredentialsException] carry (url, status, data, headers) as built in
    [Requester._create_exception]; [JSONDecodeError] is what
    [Response.json()] raises on a body that is not JSON; [ValueError] covers
    [binascii.Error] and [UnicodeDecodeError], which derive from it;
    [AttributeError] is raised by the read of an attribute an object does
    not have, [OSError] by the operating system. *)
Inductive Exception : Type :=
| RuntimeError (msg : string)
| KeyError (key : string)
| TypeError (msg : string)
| ValueError (msg : string)
| AttributeError (msg : string)
| OSError (msg : string)
| AssertionError
| JSONDecodeError
| GitHubException (url : string) (status : Z) (data : string)
    (headers : list (string * string))
| BadCredentialsException (url : string) (status : Z) (data : string)
    (headers : list (string * string)).

(** The outcome of a call: a returned value or a raised exception. *)
Inductive Result (A : Type) : Type :=
| Ok (a : A)
| Raise (e : Exception).
Arguments Ok {A} a.
Arguments Raise {A} e.

Definition bind {A B : Type} (r : Result A) (k : A -> Result B) : Result B :=
  match r with
  | Ok a => k a
  | Raise e => Raise e
  end.

(** Modelled from the spec: [otterdog.utils.is_set_and_valid] is not among
    the sources; an attribute is "set" when it is neither the unset sentinel
    nor null. *)
Definition is_set_and_valid (v : Value) : bool :=
  match v with UNSET | PyNone => false | _ => true end.

#[global] Instance Value_eq_dec : EqDecision Value.
Proof. solve_decision. Defined.

Lemma is_True_spec v : is_True v = true <-> v = PyBool true.
Proof. destruct v as [| |[]| | |]; simpl; split; congruence. Qed.

Lemma is_False_spec v : is_False v = true <-> v = PyBool false.
Proof. destruct v as [| |[]| | |]; simpl; split; congruence. Qed.

Lemma eq_str_spec v lit : eq_str v lit = true <-> v = PyStr lit.
Proof.
  destruct v; simpl; split; try congruence.
  - intros H%String.eqb_eq. by subst.
  - intros [= ->]. apply String.eqb_refl.
Qed.

End Py.

(** [dataclasses.Field]: only the name of a field is ever read. *)
Module dataclasses.
Record Field : Type := { name : string }.
End dataclasses.

(** ** otterdog/models/repository.py *)

Module Repository.
Import Py.

(** The dataclass [Repository].  The child collection
    [branch_protection_rules] is not read by the method modelled here and
    is left out. *)
Record Repository : Type := {
  name : string;
  description : Value;
  homepage : Value;
  private : Value;
  has_issues : Value;
  has_projects : Value;
  has_wiki : Value;
  default_branch : Value;
  allow_rebase_merge : Value;
  allow_merge_commit : Value;
  allow_squash_merge : Value;
  allow_auto_merge : Value;
  delete_branch_on_merge : Value;
  allow_update_branch : Value;
  squash_merge_commit_title : Value;
  squash_merge_commit_message : Value;
  merge_commit_title : Value;
  merge_commit_message : Value;
  archived : Value;
  allow_forking : Value;
  web_commit_signoff_required : Value;
  secret_scanning : Value;
  secret_scanning_push_protection : Value;
  dependabot_alerts_enabled : Value
}.

Definition _unavailable_fields_in_archived_repos : gset string :=
  {[ "allow_auto_merge";
     "allow_merge_commit";
     "allow_rebase_merge";
     "allow_squash_merge";
     "allow_update_branch";
     "delete_branch_on_merge";
     "merge_commit_message";
     "merge_commit_title";
     "squash_merge_commit_message";
     "squash_merge_commit_title";
     "dependabot_alerts_enabled" ]}.

(** [Repository.include_field_for_diff_computation]: the first test returns
    [False] only for the field named "secret_scanning" of a private
    repository and otherwise falls through to the archive test. *)
Definition include_field_for_diff_computation
    (self : Repository) (field : dataclasses.Field) : bool :=
  if String.eqb (dataclasses.name field) "secret_scanning" && is_True (private self)
  then false
  else
    if is_True (archived self) then
      if decide (dataclasses.name field ∈ _unavailable_fields_in_archived_repos)
      then false
      else true
    else true.

(** A repository with every attribute unset but [private] and [archived]. *)
Definition repo (is_private is_archived : Value) : Repository :=
  {| name := "example"; description := UNSET; homepage := UNSET;
     private := is_private; has_issues := UNSET; has_projects := UNSET;
     has_wiki := UNSET; default_branch := UNSET; allow_rebase_merge := UNSET;
     allow_merge_commit := UNSET; allow_squash_merge := UNSET;
     allow_auto_merge := UNSET; delete_branch_on_merge := UNSET;
     allow_update_branch := UNSET; squash_merge_commit_title := UNSET;
     squash_merge_commit_message := UNSET; merge_commit_title := UNSET;
     merge_commit_message := UNSET; archived := is_archived;
     allow_forking := UNSET; web_commit_signoff_required := UNSET;
     secret_scanning := UNSET; secret_scanning_push_protection := UNSET;
     dependabot_alerts_enabled := UNSET |}.

(** *** Properties of [include_field_for_diff_computation] *)

Lemma frozen_field_excluded (self : Repository) (field : dataclasses.Field) :
  archived self = PyBool true ->
  dataclasses.name field ∈ _unavailable_fields_in_archived_repos ->
  include_field_for_diff_computation self field = false.
Proof.
  intros Ha Hin. unfold include_field_for_diff_computation.
  rewrite Ha. simpl. rewrite decide_True by done.
  by destruct (_ && _).
Qed.

(** C1, as stated: on an archived repository the excluded fields are exactly
    the archive-frozen ones. *)
Definition archive_masking_as_claimed : Prop :=
  forall (self : Repository) (field : dataclasses.Field),
    archived self = PyBool true ->
    (include_field_for_diff_computation self field = false <->
     dataclasses.name field ∈ _unavailable_fields_in_archived_repos).

(** C1 (counterexample): an archived repository that is also private
    excludes "secret_scanning", a field outside the archive-frozen set. *)
Lemma archived_private_repo_excludes_secret_scanning :
  archived (repo (PyBool true) (PyBool true)) = PyBool true /\
  ("secret_scanning" ∉ _unavailable_fields_in_archived_repos) /\
  include_field_for_diff_computation
    (repo (PyBool true) (PyBool true)) {| dataclasses.name := "secret_scanning" |} = false /\
  ~ archive_masking_as_claimed.
Proof.
  assert (Hout : "secret_scanning" ∉ _unavailable_fields_in_archived_repos).
  { apply (proj1 (bool_decide_eq_false _)). vm_compute. reflexivity. }
  repeat split; try done.
  intros H.
  apply Hout.
  apply (H (repo (PyBool true) (PyBool true)) {| dataclasses.name := "secret_scanning" |});
    reflexivity.
Qed.

(** C1 (amended): on an archived repository
    [include_field_for_diff_computation] returns [False] for every field of
    the archive-frozen set, and [True] for every field outside it except
    "secret_scanning" on a repository that is also private; hence a change
    map whose keys all passed the filter on the archived repository holds no
    attribute of the archive-frozen set. *)
Theorem archive_masking (self : Repository) (field : dataclasses.Field) :
  archived self = PyBool true ->
  (include_field_for_diff_computation self field = false <->
     dataclasses.name field ∈ _unavailable_fields_in_archived_repos \/
     (dataclasses.name field = "secret_scanning" /\ private self = PyBool true)) /\
  (forall (V : Type) (changes : gmap string V),
     (forall k, is_Some (changes !! k) ->
        include_field_for_diff_computation self {| dataclasses.name := k |} = true) ->
     forall k, k ∈ _unavailable_fields_in_archived_repos -> changes !! k = None).
Proof.
  intros Ha. split.
  - unfold include_field_for_diff_computation. rewrite Ha. simpl.
    destruct (String.eqb _ _) eqn:Hn; simpl.
    + apply String.eqb_eq in Hn.
      destruct (is_True (private self)) eqn:Hp.
      * apply is_True_spec in Hp. split; auto.
      * case_decide; split; auto; try discriminate.
        intros [? | [_ Hp']]; [contradiction |].
        apply is_True_spec in Hp'. congruence.
    + apply String.eqb_neq in Hn.
      case_decide; split; auto; try discriminate.
      intros [? | [? _]]; contradiction.
  - intros V changes Hpass k Hk.
    destruct (changes !! k) eqn:Hl; [| done].
    assert (Hk' : dataclasses.name {| dataclasses.name := k |}
                  ∈ _unavailable_fields_in_archived_repos) by done.
    pose proof (frozen_field_excluded self _ Ha Hk') as Hf.
    rewrite Hpass in Hf; [discriminate | by eexists].
Qed.

Lemma archive_masking_witness :
  include_field_for_diff_computation (repo UNSET (PyBool true))
    {| dataclasses.name := "delete_branch_on_merge" |} = false /\
  include_field_for_diff_computation (repo UNSET (PyBool true))
    {| dataclasses.name := "description" |} <> false /\
  ({["description" := tt]} : gmap string unit) !! "delete_branch_on_merge" = None.
Proof.
  destruct (archive_masking (repo UNSET (PyBool true))
              {| dataclasses.name := "delete_branch_on_merge" |} eq_refl) as [Hfrozen _].
  destruct (archive_masking (repo UNSET (PyBool true))
              {| dataclasses.name := "description" |} eq_refl) as [Hfree Hchanges].
  split; [| split].
  - apply Hfrozen. left.
    apply (bool_decide_unpack _). vm_compute. exact I.
  - intros Hfalse. apply Hfree in Hfalse as [Hin | [Hname _]]; [| discriminate].
    revert Hin. apply (proj1 (bool_decide_eq_false _)). vm_compute. reflexivity.
  - apply Hchanges.
    + intros k [v Hk]. apply lookup_singleton_Some in Hk as [<- _]. reflexivity.
    + apply (bool_decide_unpack _). vm_compute. exact I.
Defined.

(** C2 (the code at the failing input): on a private repository that is not
    archived "secret_scanning" is excluded from the diff, but
    "secret_scanning_push_protection" is included. *)
Theorem private_repo_secret_scanning_fields :
  include_field_for_diff_computation (repo (PyBool true) (PyBool false))
    {| dataclasses.name := "secret_scanning" |} = false /\
  include_field_for_diff_computation (repo (PyBool true) (PyBool false))
    {| dataclasses.name := "secret_scanning_push_protection" |} = true.
Proof. split; reflexivity. Qed.

(** The same for any private repository, archived or not: "secret_scanning"
    is excluded, "secret_scanning_push_protection" is included. *)
Lemma private_repo_secret_scanning (self : Repository) :
  private self = PyBool true ->
  include_field_for_diff_computation self {| dataclasses.name := "secret_scanning" |} = false /\
  include_field_for_diff_computation self
    {| dataclasses.name := "secret_scanning_push_protection" |} = true.
Proof.
  intros Hp. unfold include_field_for_diff_computation. rewrite Hp. simpl.
  split; [done |].
  destruct (is_True (archived self)); [| done].
  rewrite decide_False; [done |].
  apply (proj1 (bool_decide_eq_false _)). vm_compute. reflexivity.
Qed.

End Repository.

(** ** otterdog/webapp/webhook/github_models.py *)

Module github_models.
Import Py.
Local Open Scope string_scope.
Local Open Scope list_scope.

(** The pydantic model [PullRequest].  The nested objects [user],
    [author_association], [head] and [base] are not read by the code modelled
    here and are left out. *)
Record PullRequest : Type := {
  id : Z;
  node_id : string;
  number : Z;
  state : string;
  locked : bool;
  title : string;
  body : option string;
  draft : bool;
  merged : option bool;
  merge_commit_sha : option string
}.

(** The read of an attribute that the class does not declare: a pydantic
    model keeps the declared fields only, so the read raises. *)
Definition undeclared {A : Type} (attribute : string) : Result A :=
  Raise (AttributeError ("'PullRequest' object has no attribute '" +:+ attribute +:+ "'")).

(** [pull_request.created_at], [.updated_at], [.closed_at] and
    [.merged_at], which [update_or_create_pull_request] reads: none of them
    is declared by the class. *)
Definition created_at (self : PullRequest) : Result string := undeclared "created_at".

Definition updated_at (self : PullRequest) : Result string := undeclared "updated_at".

Definition closed_at (self : PullRequest) : Result (option string) :=
  undeclared "closed_at".

Definition merged_at (self : PullRequest) : Result (option string) :=
  undeclared "merged_at".

(** [PullRequest.get_pr_status] *)
Definition get_pr_status (self : PullRequest) : Result string :=
  if String.eqb (state self) "open" then Ok (state self)
  else if String.eqb (state self) "closed" then
    match merged self with
    | Some true => Ok "merged"
    | _ => Ok "closed"
    end
  else Raise (RuntimeError ("unexpected state '" +:+ state self +:+ "'")).

(** Modelled from the spec: the enumeration [PullRequestStatus] is declared
    in otterdog/webapp/db/models.py, which is not among the sources.  Its
    members are the three statuses of the spec's "PR state mapping"; the
    sources refer to [PullRequestStatus.OPEN] and [PullRequestStatus.MERGED]. *)
Inductive PullRequestStatus : Type := OPEN | CLOSED | MERGED.

(** [PullRequestStatus[name]]: Python looks an enumeration member up by its
    name and raises [KeyError] for any other string. *)
Definition PullRequestStatus_getitem (name : string) : Result PullRequestStatus :=
  if String.eqb name "OPEN" then Ok OPEN
  else if String.eqb name "CLOSED" then Ok CLOSED
  else if String.eqb name "MERGED" then Ok MERGED
  else Raise (KeyError name).

(** [PullRequestStatus[pr.get_pr_status().upper()]], the conversion made by
    [ValidatePullRequestTask._update_final_status] and
    [FetchAllPullRequestsTask._execute]. *)
Definition pull_request_status (pr : PullRequest) : Result PullRequestStatus :=
  bind (get_pr_status pr) (fun s => PullRequestStatus_getitem (upper s)).

(** A pull request with the given state and merge flag. *)
Definition pull_request (st : string) (m : option bool) : PullRequest :=
  {| id := 1; node_id := "PR_1"; number := 7; state := st; locked := false;
     title := "Update configuration"; body := None; draft := false;
     merged := m; merge_commit_sha := None |}.

(** C3: [get_pr_status] returns a result for every pull request, and the
    result is fixed by [state] and [merged]: state "open" gives the name of
    the OPEN status, state "closed" gives MERGED when [merged] is [True] and
    CLOSED otherwise, and every other state raises [RuntimeError]. *)
Theorem get_pr_status_mapping (pr : PullRequest) :
  (state pr = "open" ->
     get_pr_status pr = Ok "open" /\ pull_request_status pr = Ok OPEN) /\
  (state pr = "closed" -> merged pr = Some true ->
     get_pr_status pr = Ok "merged" /\ pull_request_status pr = Ok MERGED) /\
  (state pr = "closed" -> merged pr <> Some true ->
     get_pr_status pr = Ok "closed" /\ pull_request_status pr = Ok CLOSED) /\
  (state pr <> "open" -> state pr <> "closed" ->
     get_pr_status pr = Raise (RuntimeError ("unexpected state '" +:+ state pr +:+ "'")) /\
     pull_request_status pr = Raise (RuntimeError ("unexpected state '" +:+ state pr +:+ "'"))) /\
  (forall pr', state pr' = state pr -> merged pr' = merged pr ->
     get_pr_status pr' = get_pr_status pr).
Proof.
  unfold pull_request_status, get_pr_status.
  split; [| split; [| split; [| split]]].
  - by intros ->.
  - by intros -> ->.
  - intros -> Hm. by destruct (merged pr) as [[]|].
  - intros Ho Hc. apply String.eqb_neq in Ho, Hc. by rewrite Ho, Hc.
  - by intros pr' -> ->.
Qed.

Lemma get_pr_status_mapping_witness :
  (get_pr_status (pull_request "open" None) = Ok "open" /\
   pull_request_status (pull_request "open" None) = Ok OPEN) /\
  (get_pr_status (pull_request "closed" (Some true)) = Ok "merged" /\
   pull_request_status (pull_request "closed" (Some true)) = Ok MERGED) /\
  (get_pr_status (pull_request "closed" (Some false)) = Ok "closed" /\
   pull_request_status (pull_request "closed" (Some false)) = Ok CLOSED) /\
  (get_pr_status (pull_request "closed" None) = Ok "closed" /\
   pull_request_status (pull_request "closed" None) = Ok CLOSED) /\
  get_pr_status (pull_request "draft" None) = Raise (RuntimeError "unexpected state 'draft'").
Proof.
  destruct (get_pr_status_mapping (pull_request "open" None)) as (Hopen & _).
  destruct (get_pr_status_mapping (pull_request "closed" (Some true))) as (_ & Hmerged & _).
  destruct (get_pr_status_mapping (pull_request "closed" (Some false))) as (_ & _ & Hclosed & _).
  destruct (get_pr_status_mapping (pull_request "closed" None)) as (_ & _ & Hclosed' & _).
  destruct (get_pr_status_mapping (pull_request "draft" None)) as (_ & _ & _ & Hother & _).
  split; [exact (Hopen eq_refl) |].
  split; [exact (Hmerged eq_refl eq_refl) |].
  split; [apply Hclosed; [reflexivity | discriminate] |].
  split; [apply Hclosed'; [reflexivity | discriminate] |].
  apply Hother; discriminate.
Defined.

End github_models.

(** ** otterdog/models/repo_workflow_settings.py *)

(** The organization object reached through [context.root_object]: only the
    path [settings.workflows] and the two attributes compared by
    [RepositoryWorkflowSettings.validate] are read. *)
Module github_organization.
Import Py.

Record OrganizationWorkflowSettings : Type := {
  enabled_repositories : Value;
  default_workflow_permissions : Value
}.

Record OrganizationSettings : Type := { workflows : OrganizationWorkflowSettings }.

Record GitHubOrganization : Type := { settings : OrganizationSettings }.

End github_organization.

Module RepositoryWorkflowSettings.
Import Py.
Local Open Scope string_scope.
Local Open Scope list_scope.

(** The dataclass [RepositoryWorkflowSettings]: [enabled] is declared here,
    the other attributes are inherited from [WorkflowSettings]; of those the
    code names [default_workflow_permissions] and the key "allowed_actions". *)
Record RepositoryWorkflowSettings : Type := {
  enabled : Value;
  allowed_actions : Value;
  default_workflow_permissions : Value
}.

Inductive FailureType : Type := INFO | WARNING | ERROR.

(** [ValidationContext]: the root object and the failures added so far, in
    the order of the calls of [add_failure]. *)
Record ValidationContext : Type := {
  root_object : github_organization.GitHubOrganization;
  validation_failures : list (FailureType * string)
}.

Definition add_failure (context : ValidationContext) (failure_type : FailureType)
    (message : string) : ValidationContext :=
  {| root_object := root_object context;
     validation_failures := validation_failures context ++ [(failure_type, message)] |}.

(** Modelled from the spec: a failure of kind ERROR blocks apply ("Halts
    before execution if Validator emitted any ERROR"); the planner itself is
    not among the sources. *)
Definition blocks_apply (context : ValidationContext) : bool :=
  existsb (fun f => match fst f with ERROR => true | _ => false end)
    (validation_failures context).

Inductive LivePatchType : Type := ADD | REMOVE | CHANGE.

(** [Change(a, b)] as constructed positionally by the code. *)
Inductive Change : Type := mkChange (a b : Value).

(** [LivePatch] as built by [LivePatch.of_addition] and
    [LivePatch.of_changes]; the bound [apply] function is left out. *)
Record LivePatch : Type := {
  patch_type : LivePatchType;
  expected_object : option RepositoryWorkflowSettings;
  current_object : option RepositoryWorkflowSettings;
  changes : option (gmap string Change);
  parent_object : option Repository.Repository;
  forced_update : bool
}.

Definition of_addition (expected : RepositoryWorkflowSettings)
    (parent : option Repository.Repository) : LivePatch :=
  {| patch_type := ADD; expected_object := Some expected; current_object := None;
     changes := None; parent_object := parent; forced_update := false |}.

Definition of_changes (expected current : RepositoryWorkflowSettings)
    (modified : gmap string Change) (parent : option Repository.Repository)
    (forced : bool) : LivePatch :=
  {| patch_type := CHANGE; expected_object := Some expected;
     current_object := Some current; changes := Some modified;
     parent_object := parent; forced_update := forced |}.

Section ModelObject.

(** The inherited methods, defined in files that are not among the sources.
    [WorkflowSettings_validate] is [super().validate]: it yields the failures
    the base class adds.  [get_difference_from] is
    [ModelObject.get_difference_from]. *)
Variable WorkflowSettings_validate :
  RepositoryWorkflowSettings -> github_organization.GitHubOrganization ->
  option Repository.Repository -> list (FailureType * string).
Variable get_model_header :
  RepositoryWorkflowSettings -> option Repository.Repository -> string.
Variable get_difference_from :
  RepositoryWorkflowSettings -> RepositoryWorkflowSettings -> gmap string Change.

Definition enabled_while_disabled_message (self : RepositoryWorkflowSettings)
    (parent_object : option Repository.Repository) : string :=
  get_model_header self parent_object +:+ " has enabled workflows, " +:+
  "while on organization level it disabled for all repositories.".

Definition permissions_message (self : RepositoryWorkflowSettings)
    (org : github_organization.OrganizationWorkflowSettings)
    (parent_object : option Repository.Repository) : string :=
  get_model_header self parent_object +:+
  " has 'default_workflow_permissions' of value " +:+
  "'" +:+ format (default_workflow_permissions self) +:+ "', " +:+
  "while on organization level it is restricted to " +:+
  "'" +:+ format (github_organization.default_workflow_permissions org) +:+ "'.".

(** [RepositoryWorkflowSettings.validate] *)
Definition validate (self : RepositoryWorkflowSettings) (context : ValidationContext)
    (parent_object : option Repository.Repository) : ValidationContext :=
  let context :=
    fold_left (fun c f => add_failure c (fst f) (snd f))
      (WorkflowSettings_validate self (root_object context) parent_object) context in
  if is_set_and_valid (enabled self) && is_True (enabled self) then
    let org_workflow_settings :=
      github_organization.workflows (github_organization.settings (root_object context)) in
    let context :=
      if eq_str (github_organization.enabled_repositories org_workflow_settings) "none"
         && is_True (enabled self)
      then add_failure context ERROR (enabled_while_disabled_message self parent_object)
      else context in
    if eq_str (github_organization.default_workflow_permissions org_workflow_settings) "read"
       && eq_str (default_workflow_permissions self) "write"
    then add_failure context ERROR
           (permissions_message self org_workflow_settings parent_object)
    else context
  else context.

(** [RepositoryWorkflowSettings.generate_live_patch]: the result lists the
    patches handed to [handler], in order. *)
Definition generate_live_patch (expected_object current_object : option RepositoryWorkflowSettings)
    (parent_object : option Repository.Repository) : Result (list LivePatch) :=
  match expected_object with
  | None => Raise AssertionError
  | Some expected =>
    match current_object with
    | None => Ok [of_addition expected parent_object]
    | Some current =>
      let modified_workflow_settings := get_difference_from expected current in
      let modified_workflow_settings :=
        if decide (is_Some (modified_workflow_settings !! "allowed_actions"))
        then <["enabled" := mkChange (enabled expected) (enabled expected)]>
               modified_workflow_settings
        else modified_workflow_settings in
      if (0 <? size modified_workflow_settings)%nat
      then Ok [of_changes expected current modified_workflow_settings parent_object false]
      else Ok []
    end
  end.

(** *** Validation *)

Lemma add_failures_fold (l : list (FailureType * string)) (context : ValidationContext) :
  fold_left (fun c f => add_failure c (fst f) (snd f)) l context =
  {| root_object := root_object context;
     validation_failures := validation_failures context ++ l |}.
Proof.
  revert context. induction l as [|[t m] l IH]; intros [root fs]; simpl.
  - by rewrite app_nil_r.
  - rewrite IH. simpl. by rewrite <- app_assoc.
Qed.

(** The failures after [validate]: those present before, those of the base
    class, then at most the two errors of the repository level, in that
    order. *)
Lemma validate_failures (self : RepositoryWorkflowSettings) (context : ValidationContext)
    (parent_object : option Repository.Repository) :
  let org := github_organization.workflows
               (github_organization.settings (root_object context)) in
  validation_failures (validate self context parent_object) =
  validation_failures context ++
  WorkflowSettings_validate self (root_object context) parent_object ++
  (if is_True (enabled self) then
     (if eq_str (github_organization.enabled_repositories org) "none"
      then [(ERROR, enabled_while_disabled_message self parent_object)] else []) ++
     (if eq_str (github_organization.default_workflow_permissions org) "read"
         && eq_str (default_workflow_permissions self) "write"
      then [(ERROR, permissions_message self org parent_object)] else [])
   else []).
Proof.
  intros org. unfold validate. rewrite add_failures_fold. simpl. fold org.
  destruct (is_True (enabled self)) eqn:He.
  - apply is_True_spec in He. rewrite He. simpl.
    destruct (eq_str _ "none"); destruct (eq_str _ "read" && _); simpl;
      rewrite <- ?app_assoc, ?app_nil_r; reflexivity.
  - rewrite andb_false_r. simpl. by rewrite app_nil_r.
Qed.

Lemma error_blocks_apply (context : ValidationContext) (message : string) :
  In (ERROR, message) (validation_failures context) -> blocks_apply context = true.
Proof.
  intros Hin. unfold blocks_apply. apply existsb_exists. by exists (ERROR, message).
Qed.

(** C8: for repository workflow settings whose [enabled] is set and [True],
    [validate] adds an ERROR when the organization has [enabled_repositories]
    equal to "none", and adds an ERROR when the repository asks for
    [default_workflow_permissions] "write" while the organization restricts
    it to "read"; either failure blocks apply. *)
Theorem validate_rejects_more_permissive (self : RepositoryWorkflowSettings)
    (context : ValidationContext) (parent_object : option Repository.Repository) :
  is_set_and_valid (enabled self) = true ->
  enabled self = PyBool true ->
  let org := github_organization.workflows
               (github_organization.settings (root_object context)) in
  let context' := validate self context parent_object in
  (github_organization.enabled_repositories org = PyStr "none" ->
     In (ERROR, enabled_while_disabled_message self parent_object)
        (validation_failures context') /\
     blocks_apply context' = true) /\
  (default_workflow_permissions self = PyStr "write" ->
   github_organization.default_workflow_permissions org = PyStr "read" ->
     In (ERROR, permissions_message self org parent_object)
        (validation_failures context') /\
     blocks_apply context' = true).
Proof.
  intros _ He org context'.
  assert (Hf := validate_failures self context parent_object).
  simpl in Hf. fold org context' in Hf. rewrite He in Hf. simpl in Hf.
  split.
  - intros Hnone.
    assert (Hin : In (ERROR, enabled_while_disabled_message self parent_object)
                     (validation_failures context')).
    { rewrite Hf, Hnone. simpl. rewrite !in_app_iff. right. right. by left. }
    split; [done | by eapply error_blocks_apply].
  - intros Hw Hr.
    assert (Hin : In (ERROR, permissions_message self org parent_object)
                     (validation_failures context')).
    { rewrite Hf, Hw, Hr. simpl. rewrite !in_app_iff. right. right. right. by left. }
    split; [done | by eapply error_blocks_apply].
Qed.

(** *** Live patches *)

(** C4: when "allowed_actions" is a key of the difference between expected
    and current, the one patch handed to the handler is a CHANGE whose change
    map is the difference with "enabled" set to
    [Change(expected.enabled, expected.enabled)], whether or not "enabled"
    was part of the difference; when the difference is empty no patch is
    handed to the handler. *)
Theorem generate_live_patch_injects_enabled
    (expected current : RepositoryWorkflowSettings)
    (parent_object : option Repository.Repository) :
  (is_Some (get_difference_from expected current !! "allowed_actions") ->
     exists patch modified,
       generate_live_patch (Some expected) (Some current) parent_object = Ok [patch] /\
       patch = of_changes expected current modified parent_object false /\
       patch_type patch = CHANGE /\
       changes patch = Some modified /\
       modified = <["enabled" := mkChange (enabled expected) (enabled expected)]>
                    (get_difference_from expected current) /\
       modified !! "enabled" = Some (mkChange (enabled expected) (enabled expected)) /\
       (forall k, k <> "enabled" ->
          modified !! k = get_difference_from expected current !! k)) /\
  (get_difference_from expected current = ∅ ->
     generate_live_patch (Some expected) (Some current) parent_object = Ok []).
Proof.
  unfold generate_live_patch. split.
  - intros Hin. rewrite decide_True by done.
    set (modified := <["enabled" := _]> _).
    assert (Hsize : (0 <? size modified)%nat = true).
    { apply Nat.ltb_lt.
      assert (size modified <> 0%nat); [| lia].
      intros Hz. apply map_size_empty_iff in Hz.
      by apply insert_non_empty in Hz. }
    rewrite Hsize.
    exists (of_changes expected current modified parent_object false), modified.
    repeat split.
    + apply lookup_insert_eq.
    + intros k Hk. by apply lookup_insert_ne.
  - intros ->. rewrite decide_False.
    + by rewrite map_size_empty.
    + rewrite lookup_empty. by intros [? ?].
Qed.

End ModelObject.

(** *** Concrete instances *)

Definition attributes (self : RepositoryWorkflowSettings) : list (string * Value) :=
  [ ("enabled", enabled self);
    ("allowed_actions", allowed_actions self);
    ("default_workflow_permissions", default_workflow_permissions self) ].

(** A difference function to instantiate [get_difference_from]: the
    attributes that are set on both sides and differ. *)
Definition difference_of_attributes (expected current : RepositoryWorkflowSettings) :
    gmap string Change :=
  list_to_map
    (omap (fun '((k, e), (_, c)) =>
             if is_set_and_valid e && is_set_and_valid c && negb (bool_decide (e = c))
             then Some (k, mkChange e c) else None)
          (zip (attributes expected) (attributes current))).

Definition no_base_failures (self : RepositoryWorkflowSettings)
    (root : github_organization.GitHubOrganization)
    (parent : option Repository.Repository) : list (FailureType * string) := [].

Definition model_header (self : RepositoryWorkflowSettings)
    (parent : option Repository.Repository) : string :=
  "repo_workflow_settings".

Definition organization (enabled_repos permissions : string) :
    github_organization.GitHubOrganization :=
  {| github_organization.settings :=
       {| github_organization.workflows :=
            {| github_organization.enabled_repositories := PyStr enabled_repos;
               github_organization.default_workflow_permissions := PyStr permissions |} |} |}.

Lemma validate_rejects_more_permissive_witness :
  let self := {| enabled := PyBool true; allowed_actions := PyStr "all";
                 default_workflow_permissions := PyStr "write" |} in
  let context := {| root_object := organization "none" "read";
                    validation_failures := [] |} in
  validation_failures (validate no_base_failures model_header self context None) =
    [ (ERROR, "repo_workflow_settings has enabled workflows, while on organization level it disabled for all repositories.");
      (ERROR, "repo_workflow_settings has 'default_workflow_permissions' of value 'write', while on organization level it is restricted to 'read'.") ] /\
  blocks_apply (validate no_base_failures model_header self context None) = true.
Proof.
  intros self context.
  destruct (validate_rejects_more_permissive no_base_failures model_header
              self context None eq_refl eq_refl) as [H1 H2].
  split; [reflexivity |].
  exact (proj2 (H1 eq_refl)).
Defined.

(** The spec's scenario "workflow-settings promotion": [allowed_actions]
    goes from "selected" to "all" with [enabled] true on both sides. *)
Lemma generate_live_patch_injects_enabled_witness :
  let expected := {| enabled := PyBool true; allowed_actions := PyStr "all";
                     default_workflow_permissions := PyStr "read" |} in
  let current := {| enabled := PyBool true; allowed_actions := PyStr "selected";
                    default_workflow_permissions := PyStr "read" |} in
  (difference_of_attributes expected current !! "enabled" = None) /\
  (exists patch modified,
     generate_live_patch difference_of_attributes (Some expected) (Some current) None
       = Ok [patch] /\
     changes patch = Some modified /\
     modified !! "enabled" = Some (mkChange (PyBool true) (PyBool true)) /\
     modified !! "allowed_actions" = Some (mkChange (PyStr "all") (PyStr "selected"))) /\
  generate_live_patch difference_of_attributes (Some expected) (Some expected) None = Ok [].
Proof.
  intros expected current.
  destruct (generate_live_patch_injects_enabled difference_of_attributes
              expected current None) as [Hinject _].
  destruct (generate_live_patch_injects_enabled difference_of_attributes
              expected expected None) as [_ Hempty].
  split; [reflexivity |].
  split.
  - destruct Hinject as (patch & modified & Hrun & _ & _ & Hch & _ & Hen & Hother).
    { by eexists. }
    exists patch, modified.
    split; [exact Hrun |]. split; [exact Hch |]. split; [exact Hen |].
    rewrite Hother by discriminate. reflexivity.
  - apply Hempty. reflexivity.
Defined.

End RepositoryWorkflowSettings.

(** ** otterdog/webapp/db/service.py *)

Module service.
Import Py github_models.
Local Open Scope string_scope.
Local Open Scope list_scope.

Section Persistence.

(** [ApplyStatus] and the document class [PullRequestModel] are declared in
    otterdog/webapp/db/models.py, which is not among the sources.  The
    enumeration is a parameter; the document has the attributes that
    [update_or_create_pull_request] and [find_pull_request] name.  The four
    attributes that the function assigns only on request are optional here,
    whatever their declared defaults are. *)
Variable ApplyStatus : Type.

Record PullRequestModel : Type := {
  org_id : string;
  repo_name : string;
  pull_request : Z;
  draft : bool;
  status : PullRequestStatus;
  created_at : string;
  updated_at : string;
  closed_at : option string;
  merged_at : option string;
  valid : option bool;
  in_sync : option bool;
  requires_manual_apply : option bool;
  apply_status : option ApplyStatus
}.

(** The values the constructor gives to the attributes it is not passed. *)
Variable default_valid : option bool.
Variable default_in_sync : option bool.
Variable default_requires_manual_apply : option bool.
Variable default_apply_status : option ApplyStatus.

(** The document store behind [mongo.odm]: [find_one] with the query of
    [find_pull_request], and [save]. *)
Variable Database : Type.
Variable find_one : Database -> string -> string -> Z -> option PullRequestModel.
Variable save : PullRequestModel -> Database -> Database.

(** [find_pull_request] *)
Definition find_pull_request (db : Database) (owner repo : string) (pull_request : Z) :
    option PullRequestModel :=
  find_one db owner repo pull_request.

(** [update_pull_request] *)
Definition update_pull_request (pull_request : PullRequestModel) (db : Database) :
    Database :=
  save pull_request db.

(** The constructor call of the [pr_model is None] branch: its arguments
    are evaluated in order, the reads of the pull request's time stamps
    among them. *)
Definition new_pr_model (owner repo : string) (pr : github_models.PullRequest)
    (pull_request_status : PullRequestStatus) : Result PullRequestModel :=
  bind (github_models.created_at pr) (fun created =>
  bind (github_models.updated_at pr) (fun updated =>
  bind (github_models.closed_at pr) (fun closed =>
  bind (github_models.merged_at pr) (fun merged =>
  Ok {| org_id := owner;
        repo_name := repo;
        pull_request := github_models.number pr;
        draft := github_models.draft pr;
        status := pull_request_status;
        created_at := created;
        updated_at := updated;
        closed_at := closed;
        merged_at := merged;
        valid := default_valid;
        in_sync := default_in_sync;
        requires_manual_apply := default_requires_manual_apply;
        apply_status := default_apply_status |})))).

(** The six assignments of the [else] branch; the document is an object in
    memory, so an assignment made before a read raises is not stored. *)
Definition refreshed (pr_model : PullRequestModel) (pr : github_models.PullRequest)
    (pull_request_status : PullRequestStatus) : Result PullRequestModel :=
  bind (github_models.created_at pr) (fun created =>
  bind (github_models.updated_at pr) (fun updated =>
  bind (github_models.closed_at pr) (fun closed =>
  bind (github_models.merged_at pr) (fun merged =>
  Ok {| org_id := org_id pr_model;
        repo_name := repo_name pr_model;
        pull_request := pull_request pr_model;
        draft := github_models.draft pr;
        status := pull_request_status;
        created_at := created;
        updated_at := updated;
        closed_at := closed;
        merged_at := merged;
        valid := valid pr_model;
        in_sync := in_sync pr_model;
        requires_manual_apply := requires_manual_apply pr_model;
        apply_status := apply_status pr_model |})))).

(** [pr_model.apply_status = apply_status] *)
Definition set_apply_status (pr_model : PullRequestModel) (a : ApplyStatus) :
    PullRequestModel :=
  {| org_id := org_id pr_model; repo_name := repo_name pr_model;
     pull_request := pull_request pr_model; draft := draft pr_model;
     status := status pr_model; created_at := created_at pr_model;
     updated_at := updated_at pr_model; closed_at := closed_at pr_model;
     merged_at := merged_at pr_model; valid := valid pr_model;
     in_sync := in_sync pr_model;
     requires_manual_apply := requires_manual_apply pr_model;
     apply_status := Some a |}.

(** [pr_model.valid = valid] *)
Definition set_valid (pr_model : PullRequestModel) (v : bool) : PullRequestModel :=
  {| org_id := org_id pr_model; repo_name := repo_name pr_model;
     pull_request := pull_request pr_model; draft := draft pr_model;
     status := status pr_model; created_at := created_at pr_model;
     updated_at := updated_at pr_model; closed_at := closed_at pr_model;
     merged_at := merged_at pr_model; valid := Some v;
     in_sync := in_sync pr_model;
     requires_manual_apply := requires_manual_apply pr_model;
     apply_status := apply_status pr_model |}.

(** [pr_model.in_sync = in_sync] *)
Definition set_in_sync (pr_model : PullRequestModel) (v : bool) : PullRequestModel :=
  {| org_id := org_id pr_model; repo_name := repo_name pr_model;
     pull_request := pull_request pr_model; draft := draft pr_model;
     status := status pr_model; created_at := created_at pr_model;
     updated_at := updated_at pr_model; closed_at := closed_at pr_model;
     merged_at := merged_at pr_model; valid := valid pr_model;
     in_sync := Some v;
     requires_manual_apply := requires_manual_apply pr_model;
     apply_status := apply_status pr_model |}.

(** [pr_model.requires_manual_apply = requires_manual_apply] *)
Definition set_requires_manual_apply (pr_model : PullRequestModel) (v : bool) :
    PullRequestModel :=
  {| org_id := org_id pr_model; repo_name := repo_name pr_model;
     pull_request := pull_request pr_model; draft := draft pr_model;
     status := status pr_model; created_at := created_at pr_model;
     updated_at := updated_at pr_model; closed_at := closed_at pr_model;
     merged_at := merged_at pr_model; valid := valid pr_model;
     in_sync := in_sync pr_model;
     requires_manual_apply := Some v;
     apply_status := apply_status pr_model |}.

(** [if x is not None: assign] *)
Definition when_given {A B : Type} (x : option A) (assign : B -> A -> B) (b : B) : B :=
  match x with
  | Some a => assign b a
  | None => b
  end.

(** [update_or_create_pull_request]: the outcome and the database after the
    call.  [PullRequestStatus[...]] is the lookup of a member by its name;
    the sources name the members [OPEN] and [MERGED]. *)
Definition update_or_create_pull_request (owner repo : string)
    (pr : github_models.PullRequest)
    (valid in_sync requires_manual_apply : option bool)
    (apply_status : option ApplyStatus) (db : Database) : Result unit * Database :=
  match bind (get_pr_status pr) PullRequestStatus_getitem with
  | Raise ex => (Raise ex, db)
  | Ok pull_request_status =>
    match
      match find_pull_request db owner repo (github_models.number pr) with
      | None => new_pr_model owner repo pr pull_request_status
      | Some pr_model => refreshed pr_model pr pull_request_status
      end
    with
    | Raise ex => (Raise ex, db)
    | Ok pr_model =>
      let pr_model := when_given apply_status set_apply_status pr_model in
      let pr_model := when_given valid set_valid pr_model in
      let pr_model := when_given in_sync set_in_sync pr_model in
      let pr_model := when_given requires_manual_apply set_requires_manual_apply pr_model in
      (Ok tt, update_pull_request pr_model db)
    end
  end.

(** What the call raises: the error of [get_pr_status], or the [KeyError] of
    the lookup of the name it returns. *)
Definition raised_by_status (pr : github_models.PullRequest) : Exception :=
  match get_pr_status pr with
  | Ok name => KeyError name
  | Raise ex => ex
  end.

Lemma lower_case_name_is_no_member (pr : github_models.PullRequest) :
  bind (get_pr_status pr) PullRequestStatus_getitem = Raise (raised_by_status pr).
Proof.
  unfold raised_by_status, get_pr_status.
  destruct (String.eqb (state pr) "open") eqn:Hopen.
  - apply String.eqb_eq in Hopen. by rewrite Hopen.
  - destruct (String.eqb (state pr) "closed"); [| done].
    by destruct (merged pr) as [[]|].
Qed.

(** Past the lookup, both branches read the time stamps of the pull
    request, which the class does not declare. *)
Lemma time_stamps_are_undeclared (owner repo : string) (pr : github_models.PullRequest)
    (pr_model : PullRequestModel) (pull_request_status : PullRequestStatus) :
  new_pr_model owner repo pr pull_request_status = github_models.undeclared "created_at" /\
  refreshed pr_model pr pull_request_status = github_models.undeclared "created_at".
Proof. split; reflexivity. Qed.

(** C9 (the code, at every input): the call raises before the document is
    looked up, and nothing is saved: [get_pr_status] returns "open",
    "closed" or "merged", and the lookup of a member of [PullRequestStatus]
    by such a name raises [KeyError]; for a state other than "open" and
    "closed" it is [get_pr_status] that raises.  No stored field is kept,
    overwritten or refreshed. *)
Theorem update_or_create_pull_request_raises (owner repo : string)
    (pr : github_models.PullRequest)
    (valid_arg in_sync_arg requires_manual_apply_arg : option bool)
    (apply_status_arg : option ApplyStatus) (db : Database) :
  update_or_create_pull_request owner repo pr valid_arg in_sync_arg
    requires_manual_apply_arg apply_status_arg db = (Raise (raised_by_status pr), db) /\
  (state pr = "open" -> raised_by_status pr = KeyError "open").
Proof.
  split.
  - unfold update_or_create_pull_request. by rewrite lower_case_name_is_no_member.
  - intros Hopen. unfold raised_by_status, get_pr_status. by rewrite Hopen.
Qed.

End Persistence.

Arguments org_id {ApplyStatus} p.
Arguments repo_name {ApplyStatus} p.
Arguments pull_request {ApplyStatus} p.
Arguments draft {ApplyStatus} p.
Arguments status {ApplyStatus} p.
Arguments created_at {ApplyStatus} p.
Arguments updated_at {ApplyStatus} p.
Arguments closed_at {ApplyStatus} p.
Arguments merged_at {ApplyStatus} p.
Arguments valid {ApplyStatus} p.
Arguments in_sync {ApplyStatus} p.
Arguments requires_manual_apply {ApplyStatus} p.
Arguments apply_status {ApplyStatus} p.

(** *** Stand-ins for the document store and the enumerations *)

Inductive apply_status_members : Type := FAILED | COMPLETED.

Definition same_pull_request (owner repo : string) (number : Z)
    (document : PullRequestModel apply_status_members) : bool :=
  String.eqb (org_id document) owner && String.eqb (repo_name document) repo
  && (pull_request document =? number)%Z.

(** A collection kept as a list, queried by (org_id, repo_name,
    pull_request). *)
Definition find_in_list (db : list (PullRequestModel apply_status_members))
    (owner repo : string) (number : Z) : option (PullRequestModel apply_status_members) :=
  List.find (same_pull_request owner repo number) db.

Fixpoint save_in_list (document : PullRequestModel apply_status_members)
    (db : list (PullRequestModel apply_status_members)) :
    list (PullRequestModel apply_status_members) :=
  match db with
  | [] => [document]
  | d :: db =>
    if same_pull_request (org_id document) (repo_name document) (pull_request document) d
    then document :: db
    else d :: save_in_list document db
  end.

Definition stored : PullRequestModel apply_status_members :=
  {| org_id := "o"; repo_name := "r"; pull_request := 7; draft := true;
     status := OPEN; created_at := "2024-01-31T08:00:00Z";
     updated_at := "2024-01-31T08:00:00Z"; closed_at := None; merged_at := None;
     valid := Some true; in_sync := Some false;
     requires_manual_apply := Some false; apply_status := Some FAILED |}.

Definition run (pr : github_models.PullRequest)
    (valid_arg in_sync_arg requires_manual_apply_arg : option bool)
    (apply_status_arg : option apply_status_members) :
    Result unit * list (PullRequestModel apply_status_members) :=
  update_or_create_pull_request apply_status_members None None None None
    (list (PullRequestModel apply_status_members)) find_in_list save_in_list
    "o" "r" pr valid_arg in_sync_arg requires_manual_apply_arg apply_status_arg [stored].

(** The failing input: the stored pull request number 7, open and no
    longer a draft, reported with [valid = True]. *)
Lemma open_pull_request_is_not_updated :
  run (github_models.pull_request "open" None) (Some true) None None None
  = (Raise (KeyError "open"), [stored]).
Proof. reflexivity. Qed.

End service.

(** ** otterdog/providers/github/rest.py *)

Module rest.
Import Py.
Local Open Scope string_scope.
Local Open Scope list_scope.

(** JSON documents, as [json.dumps] takes them and [Response.json()] yields
    them.  The members of an object are kept in document order. *)
#[warnings="-register-all"]
Inductive Json : Type :=
| JNull
| JBool (b : bool)
| JNum (z : Z)
| JStr (s : string)
| JList (items : list Json)
| JObj (members : list (string * Json)).

(** [len(j)]: defined on lists, objects (number of keys) and strings. *)
Definition py_len (j : Json) : Result nat :=
  match j with
  | JList items => Ok (length items)
  | JObj members => Ok (length members)
  | JStr s => Ok (String.length s)
  | _ => Raise (TypeError "object has no len()")
  end.

(** [for item in j]: the items of a list, the keys of an object, the
    characters of a string. *)
Definition py_iter (j : Json) : list Json :=
  match j with
  | JList items => items
  | JObj members => map (fun m => JStr (fst m)) members
  | JStr s => map (fun c => JStr (String c EmptyString)) (String.list_ascii_of_string s)
  | _ => []
  end.

Fixpoint assoc (key : string) (members : list (string * Json)) : option Json :=
  match members with
  | [] => None
  | (k, v) :: rest => if String.eqb k key then Some v else assoc key rest
  end.

(** [j[key]] for a string key. *)
Definition py_getitem (j : Json) (key : string) : Result Json :=
  match j with
  | JObj members =>
    match assoc key members with
    | Some v => Ok v
    | None => Raise (KeyError key)
    end
  | _ => Raise (TypeError "indices must be integers")
  end.

(** [d.update(other)] on dictionaries with string keys: the entries of
    [other] win. *)
Definition dict_update {V : Type} (d other : gmap string V) : gmap string V :=
  other ∪ d.

(** What is handed to [CachedSession.request]. *)
Record Request : Type := {
  method : string;
  url : string;
  headers : list (string * string);
  params : option (gmap string Value);
  data : option string
}.

(** [requests.Response]: [parsed] is the document the body [text] stands
    for, [None] when the body is not JSON. *)
Record Response : Type := {
  status_code : Z;
  request_url : string;
  text : string;
  response_headers : list (string * string);
  parsed : option Json
}.

(** [response.json()] *)
Definition json (response : Response) : Result Json :=
  match parsed response with
  | Some document => Ok document
  | None => Raise JSONDecodeError
  end.

Record Requester : Type := {
  _base_url : string;
  _headers : list (string * string)
}.

(** [Requester.__init__] *)
Definition Requester_init (token base_url api_version : string) : Requester :=
  {| _base_url := base_url;
     _headers := [ ("Accept", "application/vnd.github+json");
                   ("Authorization", "Bearer " +:+ token);
                   ("X-GitHub-Api-Version", api_version);
                   ("X-Github-Next-Global-ID", "1") ] |}.

Record RestClient : Type := { _requester : Requester }.

Definition _GH_API_VERSION : string := "2022-11-28".
Definition _GH_API_URL_ROOT : string := "https://api.github.com".

(** [RestClient.__init__] *)
Definition RestClient_init (token : string) : RestClient :=
  {| _requester := Requester_init token _GH_API_URL_ROOT _GH_API_VERSION |}.

Definition _build_url (self : Requester) (url_path : string) : string :=
  _base_url self +:+ url_path.

(** [Requester._create_exception] *)
Definition _create_exception (response : Response) : Exception :=
  let status := status_code response in
  let url := request_url response in
  if (status =? 401)%Z
  then BadCredentialsException url status (text response) (response_headers response)
  else GitHubException url status (text response) (response_headers response).

(** [Requester._check_response] *)
Definition _check_response (response : Response) : Result unit :=
  if (400 <=? status_code response)%Z
  then Raise (_create_exception response)
  else Ok tt.

Definition allowed_methods : list string := ["GET"; "PATCH"; "POST"; "PUT"; "DELETE"].

Section Transport.

(** The forge behind the session.  [session_request] is
    [CachedSession.request(..., refresh=True)]: it answers a request and
    moves the forge to its next state.  [json_dumps], [b64encode] and
    [b64decode] are the library functions [json.dumps],
    [base64.b64encode(s.encode("utf-8")).decode("utf-8")] and
    [base64.b64decode(s).decode("utf-8")], which yields [None] where the
    library raises [binascii.Error] or [UnicodeDecodeError]; [str_of_exception]
    is [str(ex)] as used in the messages. *)
Variable Forge : Type.
Variable session_request : Request -> Forge -> Response * Forge.
Variable json_dumps : Json -> string.
Variable b64encode : string -> string.
Variable b64decode : string -> option string.
Variable str_of_exception : Exception -> string.

(** Whether [except GitHubException] also catches
    [BadCredentialsException]; the class hierarchy is declared in
    exception.py, which is not among the sources. *)
Variable bad_credentials_is_github_exception : bool.

(** The state threaded through the calls: the forge and the requests issued
    so far, oldest first. *)
Record Session : Type := {
  remote : Forge;
  issued : list Request
}.

Definition M (A : Type) : Type := Session -> Result A * Session.

Definition ret {A : Type} (a : A) : M A := fun s => (Ok a, s).

Definition lift {A : Type} (r : Result A) : M A := fun s => (r, s).

Definition mbind {A B : Type} (m : M A) (k : A -> M B) : M B :=
  fun s =>
    match m s with
    | (Ok a, s') => k a s'
    | (Raise e, s') => (Raise e, s')
    end.

(** [try: m  except <handles> as ex: raise RuntimeError(msg ex)] *)
Definition reraise {A : Type} (handles : Exception -> bool)
    (msg : Exception -> string) (m : M A) : M A :=
  fun s =>
    match m s with
    | (Raise ex, s') =>
      if handles ex then (Raise (RuntimeError (msg ex)), s') else (Raise ex, s')
    | ok => ok
    end.

Definition is_GitHubException (ex : Exception) : bool :=
  match ex with
  | GitHubException _ _ _ _ => true
  | BadCredentialsException _ _ _ _ => bad_credentials_is_github_exception
  | _ => false
  end.

Definition is_RuntimeError (ex : Exception) : bool :=
  match ex with RuntimeError _ => true | _ => false end.

(** [Requester.request_raw]: one call of the session, whose response is
    returned as it is. *)
Definition request_raw (self : Requester) (method url_path : string)
    (data : option string) (params : option (gmap string Value)) : M Response :=
  fun s =>
    if existsb (String.eqb method) allowed_methods then
      let request := {| method := method; url := _build_url self url_path;
                        headers := _headers self; params := params; data := data |} in
      let '(response, forge) := session_request request (remote s) in
      (Ok response, {| remote := forge; issued := issued s ++ [request] |})
    else (Raise AssertionError, s).

(** [Requester.request_json] *)
Definition request_json (self : Requester) (method url_path : string)
    (data : option Json) (params : option (gmap string Value)) : M Json :=
  let input_data := option_map json_dumps data in
  mbind (request_raw self method url_path input_data params) (fun response =>
  mbind (lift (_check_response response)) (fun _ =>
  lift (json response))).

(** The query of the request for page [current_page]. *)
Definition query_params (params : option (gmap string Value)) (current_page : Z) :
    gmap string Value :=
  let query_params : gmap string Value :=
    <["page" := PyInt current_page]> (<["per_page" := PyStr "100"]> ∅) in
  match params with
  | Some params => dict_update query_params params
  | None => query_params
  end.

(** The loop of [Requester.request_paged_json].  Each turn of the loop
    consumes one unit of [fuel]; [None] means that the fuel ran out while
    the loop condition still held. *)
Fixpoint request_paged_json_loop (fuel : nat) (self : Requester)
    (method url_path : string) (data : option Json)
    (params : option (gmap string Value))
    (current_page : Z) (result : list Json) (s : Session) :
    option (Result (list Json) * Session) :=
  if (0 <? current_page)%Z then
    match fuel with
    | O => None
    | S fuel =>
      match request_json self method url_path data
              (Some (query_params params current_page)) s with
      | (Raise ex, s') => Some (Raise ex, s')
      | (Ok response, s') =>
        match py_len response with
        | Raise ex => Some (Raise ex, s')
        | Ok O =>
          request_paged_json_loop fuel self method url_path data params (-1) result s'
        | Ok (S _) =>
          request_paged_json_loop fuel self method url_path data params
            (current_page + 1) (result ++ py_iter response) s'
        end
      end
    end
  else Some (Ok result, s).

(** [Requester.request_paged_json] *)
Definition request_paged_json (fuel : nat) (self : Requester)
    (method url_path : string) (data : option Json)
    (params : option (gmap string Value)) (s : Session) :
    option (Result (list Json) * Session) :=
  request_paged_json_loop fuel self method url_path data params 1 [] s.

Definition contents_path (org_id repo_name path : string) : string :=
  "/repos/" +:+ org_id +:+ "/" +:+ repo_name +:+ "/contents/" +:+ path.

(** [RestClient.get_content_object] *)
Definition get_content_object (self : RestClient) (org_id repo_name path : string)
    (ref : option string) : M Json :=
  reraise is_GitHubException
    (fun ex => "failed retrieving content '" +:+ path +:+ "' from repo '" +:+
               repo_name +:+ "':" +:+ newline +:+ str_of_exception ex)
    (let params := match ref with
                   | Some ref => Some (<["ref" := PyStr ref]> (∅ : gmap string Value))
                   | None => None
                   end in
     request_json (_requester self) "GET" (contents_path org_id repo_name path)
       None params).

(** [base64.b64decode(j).decode("utf-8")] for a JSON value. *)
Definition decode_content (j : Json) : Result string :=
  match j with
  | JStr s =>
    match b64decode s with
    | Some decoded => Ok decoded
    | None => Raise (ValueError "Incorrect padding")
    end
  | _ => Raise (TypeError "argument should be a bytes-like object or ASCII string")
  end.

(** The first [try] block of [update_content]: the pair
    [(old_sha, old_content)], with [JNull] and [None] standing for Python's
    [None]. *)
Definition old_sha_and_content (self : RestClient) (org_id repo_name path : string) :
    M (Json * option string) :=
  fun s =>
    match
      mbind (get_content_object self org_id repo_name path None) (fun json_response =>
      lift (bind (py_getitem json_response "sha") (fun old_sha =>
            bind (py_getitem json_response "content") (fun content =>
            bind (decode_content content) (fun old_content =>
            Ok (old_sha, Some old_content)))))) s
    with
    | (Raise ex, s') =>
      if is_RuntimeError ex then (Ok (JNull, None), s') else (Raise ex, s')
    | returned => returned
    end.

Definition content_unchanged (old_content : option string) (content : string) : bool :=
  match old_content with
  | Some old_content => String.eqb content old_content
  | None => false
  end.

Definition push_message (path : string) (message : option string) : string :=
  match message with
  | None => "Updating file '" +:+ path +:+ "' with otterdog."
  | Some message => message
  end.

(** The body of the PUT request built by [update_content]. *)
Definition put_data (path content : string) (message : option string)
    (old_sha : Json) : Json :=
  let base64_content := b64encode content in
  let data := [("message", JStr (push_message path message));
               ("content", JStr base64_content)] in
  match old_sha with
  | JNull => JObj data
  | _ => JObj (data ++ [("sha", old_sha)])
  end.

(** [RestClient.update_content] *)
Definition update_content (self : RestClient) (org_id repo_name path content : string)
    (message : option string) : M unit :=
  mbind (old_sha_and_content self org_id repo_name path) (fun '(old_sha, old_content) =>
  if content_unchanged old_content content then ret tt
  else
    reraise is_GitHubException
      (fun ex => "failed putting content '" +:+ path +:+ "' to repo '" +:+
                 repo_name +:+ "':" +:+ newline +:+ str_of_exception ex)
      (mbind (request_json (_requester self) "PUT"
                (contents_path org_id repo_name path)
                (Some (put_data path content message old_sha)) None)
             (fun _ => ret tt))).

(** *** One request, one attempt *)

(** The request built by [request_raw]. *)
Definition raw_request (self : Requester) (method url_path : string)
    (data : option string) (params : option (gmap string Value)) : Request :=
  {| method := method; url := _build_url self url_path; headers := _headers self;
     params := params; data := data |}.

Lemma allowed_method (method : string) :
  In method allowed_methods -> existsb (String.eqb method) allowed_methods = true.
Proof.
  intros Hin. apply existsb_exists. exists method. split; [done |].
  apply String.eqb_refl.
Qed.

Lemma request_raw_eq (self : Requester) (method url_path : string)
    (data : option string) (params : option (gmap string Value))
    (s : Session) (response : Response) (forge : Forge) :
  In method allowed_methods ->
  session_request (raw_request self method url_path data params) (remote s)
    = (response, forge) ->
  request_raw self method url_path data params s =
  (Ok response,
   {| remote := forge;
      issued := issued s ++ [raw_request self method url_path data params] |}).
Proof.
  intros Hm Hr. unfold request_raw. rewrite (allowed_method _ Hm).
  fold (raw_request self method url_path data params). by rewrite Hr.
Qed.

Lemma request_json_eq (self : Requester) (method url_path : string)
    (data : option Json) (params : option (gmap string Value))
    (s : Session) (response : Response) (forge : Forge) :
  In method allowed_methods ->
  session_request
    (raw_request self method url_path (option_map json_dumps data) params) (remote s)
    = (response, forge) ->
  request_json self method url_path data params s =
  (bind (_check_response response) (fun _ => json response),
   {| remote := forge;
      issued := issued s ++
                [raw_request self method url_path (option_map json_dumps data) params] |}).
Proof.
  intros Hm Hr. unfold request_json, mbind, lift.
  rewrite (request_raw_eq _ _ _ _ _ _ _ _ Hm Hr).
  by destruct (_check_response response) as [[]|].
Qed.

(** C5 (amended): a response with status 400 or more, the 5xx and the
    rate-limit responses among them, is surfaced as an error after a single
    attempt: [request_raw] issues exactly one request and returns its
    response, and [request_json] raises the exception built from that
    response without issuing another request. *)
Theorem request_json_single_attempt (self : Requester) (method url_path : string)
    (data : option Json) (params : option (gmap string Value))
    (s : Session) (response : Response) (forge : Forge) :
  In method allowed_methods ->
  session_request
    (raw_request self method url_path (option_map json_dumps data) params) (remote s)
    = (response, forge) ->
  (400 <= status_code response)%Z ->
  let s' := {| remote := forge;
               issued := issued s ++
                 [raw_request self method url_path (option_map json_dumps data) params] |} in
  request_raw self method url_path (option_map json_dumps data) params s
    = (Ok response, s') /\
  request_json self method url_path data params s
    = (Raise (_create_exception response), s') /\
  length (issued s') = S (length (issued s)).
Proof.
  intros Hm Hr Hs s'. split; [| split].
  - by apply request_raw_eq.
  - rewrite (request_json_eq _ _ _ _ _ _ _ _ Hm Hr). fold s'.
    unfold _check_response. apply Z.leb_le in Hs. by rewrite Hs.
  - simpl. rewrite length_app. simpl. lia.
Qed.

(** C6 (amended): of the responses checked by the requester, status 401
    raises [BadCredentialsException] and every other status of 400 or more
    raises [GitHubException], each carrying the request URL, the status, the
    body and the headers; a status below 400 raises nothing in the check,
    and [request_json] ends as [response.json()] does: it returns the parsed
    body when the body is JSON and raises the decoding error when it is
    not. *)
Theorem check_response_classification (self : Requester) (method url_path : string)
    (data : option Json) (params : option (gmap string Value))
    (s : Session) (response : Response) (forge : Forge) :
  In method allowed_methods ->
  session_request
    (raw_request self method url_path (option_map json_dumps data) params) (remote s)
    = (response, forge) ->
  let outcome := fst (request_json self method url_path data params s) in
  (status_code response = 401%Z ->
     _check_response response =
       Raise (BadCredentialsException (request_url response) 401 (text response)
                (response_headers response)) /\
     outcome =
       Raise (BadCredentialsException (request_url response) 401 (text response)
                (response_headers response))) /\
  ((400 <= status_code response)%Z -> status_code response <> 401%Z ->
     _check_response response =
       Raise (GitHubException (request_url response) (status_code response)
                (text response) (response_headers response)) /\
     outcome =
       Raise (GitHubException (request_url response) (status_code response)
                (text response) (response_headers response))) /\
  ((status_code response < 400)%Z ->
     _check_response response = Ok tt /\
     outcome = json response /\
     (forall body, json response = Ok body -> outcome = Ok body) /\
     (parsed response = None -> outcome = Raise JSONDecodeError)).
Proof.
  intros Hm Hr outcome. unfold outcome.
  rewrite (request_json_eq _ _ _ _ _ _ _ _ Hm Hr). simpl.
  unfold _check_response, _create_exception.
  split; [| split].
  - intros ->. simpl. done.
  - intros Hge Hne. apply Z.leb_le in Hge. apply Z.eqb_neq in Hne.
    by rewrite Hge, Hne.
  - intros Hlt. apply Z.leb_gt in Hlt. rewrite Hlt. simpl.
    split; [done |]. split; [done |]. split; [by intros body -> |].
    intros Hnone. unfold json. by rewrite Hnone.
Qed.

(** *** Paging *)

(** The request issued for page [page]. *)
Definition page_request (self : Requester) (method url_path : string)
    (data : option Json) (params : option (gmap string Value)) (page : Z) : Request :=
  raw_request self method url_path (option_map json_dumps data)
    (Some (query_params params page)).

Fixpoint page_numbers (first : Z) (count : nat) : list Z :=
  match count with
  | O => []
  | S count => first :: page_numbers (first + 1) count
  end.

(** Starting in state [forge], the forge answers the requests for the pages
    [page], [page + 1], ... with the non-empty bodies [pages], one after the
    other, then with an empty body, and is left in state [forge']. *)
Fixpoint pages_served (self : Requester) (method url_path : string)
    (data : option Json) (params : option (gmap string Value))
    (page : Z) (pages : list Json) (forge forge' : Forge) : Prop :=
  match pages with
  | [] =>
    exists response body,
      session_request (page_request self method url_path data params page) forge
        = (response, forge') /\
      (status_code response < 400)%Z /\
      json response = Ok body /\
      py_len body = Ok O
  | body :: pages =>
    exists response forge1 n,
      session_request (page_request self method url_path data params page) forge
        = (response, forge1) /\
      (status_code response < 400)%Z /\
      json response = Ok body /\
      py_len body = Ok (S n) /\
      pages_served self method url_path data params (page + 1) pages forge1 forge'
  end.

Lemma request_page_eq (self : Requester) (method url_path : string)
    (data : option Json) (params : option (gmap string Value)) (page : Z)
    (s : Session) (response : Response) (forge : Forge) (body : Json) :
  In method allowed_methods ->
  session_request (page_request self method url_path data params page) (remote s)
    = (response, forge) ->
  (status_code response < 400)%Z ->
  json response = Ok body ->
  request_json self method url_path data (Some (query_params params page)) s =
  (Ok body,
   {| remote := forge;
      issued := issued s ++ [page_request self method url_path data params page] |}).
Proof.
  intros Hm Hr Hlt Hj. unfold page_request in Hr.
  rewrite (request_json_eq _ _ _ _ _ _ _ _ Hm Hr).
  unfold _check_response. apply Z.leb_gt in Hlt. rewrite Hlt. simpl.
  by rewrite Hj.
Qed.

Lemma request_paged_json_loop_eq (self : Requester) (method url_path : string)
    (data : option Json) (params : option (gmap string Value))
    (pages : list Json) :
  In method allowed_methods ->
  forall (fuel : nat) (page : Z) (result : list Json) (s : Session) (forge' : Forge),
    (0 < page)%Z ->
    pages_served self method url_path data params page pages (remote s) forge' ->
    length pages < fuel ->
    request_paged_json_loop fuel self method url_path data params page result s =
    Some (Ok (result ++ concat (map py_iter pages)),
          {| remote := forge';
             issued := issued s ++
               map (page_request self method url_path data params)
                   (page_numbers page (S (length pages))) |}).
Proof.
  intros Hm. induction pages as [|body pages IH];
    intros fuel page result s forge' Hpos Hserved Hfuel.
  - destruct fuel as [|fuel]; [simpl in Hfuel; lia |].
    destruct Hserved as (response & body & Hr & Hlt & Hj & Hlen).
    simpl. apply Z.ltb_lt in Hpos. rewrite Hpos.
    rewrite (request_page_eq _ _ _ _ _ _ _ _ _ _ Hm Hr Hlt Hj), Hlen.
    destruct fuel; simpl; by rewrite app_nil_r.
  - destruct fuel as [|fuel]; [simpl in Hfuel; lia |].
    destruct Hserved as (response & forge1 & n & Hr & Hlt & Hj & Hlen & Hrest).
    cbn [request_paged_json_loop]. assert (Hpos' := Hpos).
    apply Z.ltb_lt in Hpos'. rewrite Hpos'.
    rewrite (request_page_eq _ _ _ _ _ _ _ _ _ _ Hm Hr Hlt Hj), Hlen.
    rewrite (IH fuel (page + 1)%Z _ _ forge'); [| lia | exact Hrest | simpl in Hfuel; lia].
    cbn [issued remote length page_numbers map concat].
    by rewrite <- !app_assoc.
Qed.

Lemma query_params_default (params : option (gmap string Value)) (page : Z) :
  (forall given, params = Some given -> given !! "per_page" = None) ->
  (forall given, params = Some given -> given !! "page" = None) ->
  query_params params page !! "per_page" = Some (PyStr "100") /\
  query_params params page !! "page" = Some (PyInt page).
Proof.
  intros Hper Hpage. unfold query_params, dict_update.
  destruct params as [given|].
  - specialize (Hper given eq_refl). specialize (Hpage given eq_refl).
    split.
    + rewrite lookup_union_r by done. by simplify_map_eq.
    + rewrite lookup_union_r by done. by simplify_map_eq.
  - split; by simplify_map_eq.
Qed.

Lemma query_params_given (given : gmap string Value) (page : Z) (key : string) (v : Value) :
  given !! key = Some v -> query_params (Some given) page !! key = Some v.
Proof. intros H. unfold query_params, dict_update. by apply lookup_union_Some_l. Qed.

(** C7 (amended): [request_paged_json] asks for the pages 1, 2, ... one
    after the other, the request for page [n] carrying the caller's [params]
    laid over [per_page = "100"] and [page = n] (so exactly these two values
    unless the caller sets the same keys).  When the forge answers with
    non-empty pages followed by an empty one, the call returns, for any
    amount of fuel above the number of non-empty pages, the items of the
    non-empty pages in the order received, having issued one request per
    page up to and including the empty one. *)
Theorem request_paged_json_pages (self : Requester) (method url_path : string)
    (data : option Json) (params : option (gmap string Value))
    (pages : list Json) (s : Session) (forge' : Forge) :
  In method allowed_methods ->
  pages_served self method url_path data params 1 pages (remote s) forge' ->
  (forall fuel, length pages < fuel ->
     request_paged_json fuel self method url_path data params s =
     Some (Ok (concat (map py_iter pages)),
           {| remote := forge';
              issued := issued s ++
                map (page_request self method url_path data params)
                    (page_numbers 1 (S (length pages))) |})) /\
  (forall page,
     rest.params (page_request self method url_path data params page)
       = Some (query_params params page)) /\
  (forall page,
     (forall given, params = Some given -> given !! "per_page" = None) ->
     (forall given, params = Some given -> given !! "page" = None) ->
     query_params params page !! "per_page" = Some (PyStr "100") /\
     query_params params page !! "page" = Some (PyInt page)) /\
  (forall given page key v,
     params = Some given -> given !! key = Some v ->
     query_params params page !! key = Some v).
Proof.
  intros Hm Hserved. split; [| split; [| split]].
  - intros fuel Hfuel. unfold request_paged_json.
    exact (request_paged_json_loop_eq self method url_path data params pages Hm
             fuel 1%Z [] s forge' ltac:(lia) Hserved Hfuel).
  - done.
  - intros page. apply query_params_default.
  - intros given page key v -> Hg. by apply query_params_given.
Qed.

(** *** Updating a file *)

Definition get_request (self : RestClient) (org_id repo_name path : string) : Request :=
  raw_request (_requester self) "GET" (contents_path org_id repo_name path) None None.

Definition put_request (self : RestClient) (org_id repo_name path content : string)
    (message : option string) (old_sha : Json) : Request :=
  raw_request (_requester self) "PUT" (contents_path org_id repo_name path)
    (Some (json_dumps (put_data path content message old_sha))) None.

(** What the first [try] block of [update_content] makes of the response to
    its GET request. *)
Definition read_old (response : Response) : Result (Json * option string) :=
  match bind (_check_response response) (fun _ => json response) with
  | Ok json_response =>
    bind (py_getitem json_response "sha") (fun old_sha =>
    bind (py_getitem json_response "content") (fun content =>
    bind (decode_content content) (fun old_content =>
    Ok (old_sha, Some old_content))))
  | Raise ex =>
    if is_GitHubException ex || is_RuntimeError ex then Ok (JNull, None) else Raise ex
  end.

Lemma in_GET : In "GET" allowed_methods.
Proof. simpl. auto. Qed.

Lemma in_PUT : In "PUT" allowed_methods.
Proof. simpl. auto 6. Qed.

Lemma old_sha_and_content_eq (self : RestClient) (org_id repo_name path : string)
    (s : Session) (response : Response) (forge1 : Forge) :
  session_request (get_request self org_id repo_name path) (remote s)
    = (response, forge1) ->
  old_sha_and_content self org_id repo_name path s =
  (read_old response,
   {| remote := forge1;
      issued := issued s ++ [get_request self org_id repo_name path] |}).
Proof.
  intros Hr. unfold old_sha_and_content, mbind, lift, get_content_object, reraise.
  rewrite (request_json_eq _ _ _ None None _ _ _ in_GET Hr).
  unfold read_old. fold (get_request self org_id repo_name path).
  destruct (bind (_check_response response) _) as [json_response | ex].
  - destruct (py_getitem json_response "sha") as [old_sha | ex] eqn:Hsha; simpl.
    + destruct (py_getitem json_response "content") as [content | ex] eqn:Hc; simpl.
      * destruct content as [| | | encoded | |]; simpl; try done.
        by destruct (b64decode encoded).
      * unfold py_getitem in Hc.
        destruct json_response; try (by injection Hc as <-).
        destruct (assoc _ _); [done | by injection Hc as <-].
    + unfold py_getitem in Hsha.
      destruct json_response; try (by injection Hsha as <-).
      destruct (assoc _ _); [done | by injection Hsha as <-].
  - destruct (is_GitHubException ex) eqn:Hg; simpl; [done |].
    by destruct (is_RuntimeError ex).
Qed.

Lemma put_issued (self : RestClient) (org_id repo_name path content : string)
    (message : option string) (old_sha : Json) (s1 : Session) :
  exists outcome,
    reraise is_GitHubException
      (fun ex => "failed putting content '" +:+ path +:+ "' to repo '" +:+
                 repo_name +:+ "':" +:+ newline +:+ str_of_exception ex)
      (mbind (request_json (_requester self) "PUT"
                (contents_path org_id repo_name path)
                (Some (put_data path content message old_sha)) None)
             (fun _ => ret tt)) s1 =
    (outcome,
     {| remote := snd (session_request
                         (put_request self org_id repo_name path content message old_sha)
                         (remote s1));
        issued := issued s1 ++
                  [put_request self org_id repo_name path content message old_sha] |}).
Proof.
  unfold reraise, mbind.
  destruct (session_request
              (put_request self org_id repo_name path content message old_sha)
              (remote s1)) as [response forge2] eqn:Hr.
  rewrite (request_json_eq _ _ _ (Some _) None _ _ _ in_PUT Hr).
  fold (put_request self org_id repo_name path content message old_sha).
  destruct (bind (_check_response response) _) as [? | ex]; simpl.
  - by eexists.
  - destruct (is_GitHubException ex); by eexists.
Qed.

(** The three ways [update_content] can go, by what its GET request
    brought back. *)
Lemma update_content_cases (self : RestClient) (org_id repo_name path content : string)
    (message : option string) (s : Session) (response : Response) (forge1 : Forge) :
  session_request (get_request self org_id repo_name path) (remote s)
    = (response, forge1) ->
  let get := get_request self org_id repo_name path in
  let s1 := {| remote := forge1; issued := issued s ++ [get] |} in
  match read_old response with
  | Raise ex =>
    update_content self org_id repo_name path content message s = (Raise ex, s1)
  | Ok (old_sha, old_content) =>
    if content_unchanged old_content content
    then update_content self org_id repo_name path content message s = (Ok tt, s1)
    else
      let put := put_request self org_id repo_name path content message old_sha in
      exists outcome,
        update_content self org_id repo_name path content message s =
        (outcome,
         {| remote := snd (session_request put forge1);
            issued := issued s ++ [get; put] |})
  end.
Proof.
  intros Hr get s1. unfold update_content, mbind.
  rewrite (old_sha_and_content_eq _ _ _ _ _ _ _ Hr). fold get s1.
  destruct (read_old response) as [[old_sha old_content] | ex]; [| done].
  destruct (content_unchanged old_content content); [done |].
  destruct (put_issued self org_id repo_name path content message old_sha s1)
    as [outcome Hput].
  exists outcome. etransitivity; [exact Hput |].
  simpl. by rewrite <- app_assoc.
Qed.

Lemma content_unchanged_spec (old_content : option string) (content : string) :
  content_unchanged old_content content = true <-> old_content = Some content.
Proof.
  destruct old_content as [old|]; simpl; [| by split].
  rewrite String.eqb_eq. split; [by intros -> | by intros [= ->]].
Qed.

Lemma read_old_stored (response : Response) (body old_sha : Json)
    (encoded old_content : string) :
  (status_code response < 400)%Z ->
  json response = Ok body ->
  py_getitem body "sha" = Ok old_sha ->
  py_getitem body "content" = Ok (JStr encoded) ->
  b64decode encoded = Some old_content ->
  read_old response = Ok (old_sha, Some old_content).
Proof.
  intros Hlt Hj Hsha Hc Hd. unfold read_old, _check_response.
  apply Z.leb_gt in Hlt. rewrite Hlt. simpl. rewrite Hj, Hsha. simpl.
  rewrite Hc. simpl. by rewrite Hd.
Qed.

Lemma read_old_missing (response : Response) :
  (400 <= status_code response)%Z ->
  is_GitHubException (_create_exception response) = true ->
  read_old response = Ok (JNull, None).
Proof.
  intros Hge Hg. unfold read_old, _check_response.
  apply Z.leb_le in Hge. rewrite Hge. simpl. by rewrite Hg.
Qed.

(** When [read_old] yields old content, that content was decoded from the
    body of a response with a status below 400. *)
Lemma read_old_Some (response : Response) (old_sha : Json) (old_content : string) :
  read_old response = Ok (old_sha, Some old_content) ->
  (status_code response < 400)%Z /\
  exists body encoded,
    json response = Ok body /\
    py_getitem body "sha" = Ok old_sha /\
    py_getitem body "content" = Ok (JStr encoded) /\
    b64decode encoded = Some old_content.
Proof.
  unfold read_old, _check_response.
  destruct (400 <=? status_code response)%Z eqn:Hs; simpl.
  - destruct (_ || _); discriminate.
  - apply Z.leb_gt in Hs.
    destruct (json response) as [body | ex] eqn:Hj; simpl.
    + destruct (py_getitem body "sha") as [sha|] eqn:Hsha; simpl; [| discriminate].
      destruct (py_getitem body "content") as [c|] eqn:Hc; simpl; [| discriminate].
      destruct c as [| | | encoded | |]; simpl; try discriminate.
      destruct (b64decode encoded) as [old|] eqn:Hd; simpl; [| discriminate].
      intros [= <- <-]. split; [done |]. by exists body, encoded.
    + destruct (_ || _); discriminate.
Qed.

(** C10 (amended): [update_content] first reads the file with one GET
    request.  When the GET is answered with the file and its content equals
    the new content, nothing else is issued: no PUT, and the forge is in the
    state the GET left it in.  When the content read differs, one PUT
    follows, its body carrying the previous sha; when the GET is refused,
    for whatever reason, one PUT without sha follows.  In every run in which
    more than the GET was issued, the GET was refused or the content read
    differs. *)
Theorem update_content_writes_only_on_change
    (self : RestClient) (org_id repo_name path content : string)
    (message : option string) (s : Session) (response : Response) (forge1 : Forge) :
  session_request (get_request self org_id repo_name path) (remote s)
    = (response, forge1) ->
  let get := get_request self org_id repo_name path in
  let put := put_request self org_id repo_name path content message in
  let s1 := {| remote := forge1; issued := issued s ++ [get] |} in
  (forall body old_sha encoded,
     (status_code response < 400)%Z ->
     json response = Ok body ->
     py_getitem body "sha" = Ok old_sha ->
     py_getitem body "content" = Ok (JStr encoded) ->
     b64decode encoded = Some content ->
     update_content self org_id repo_name path content message s = (Ok tt, s1) /\
     rest.method get = "GET") /\
  (forall body old_sha encoded old_content,
     (status_code response < 400)%Z ->
     json response = Ok body ->
     py_getitem body "sha" = Ok old_sha ->
     py_getitem body "content" = Ok (JStr encoded) ->
     b64decode encoded = Some old_content ->
     old_content <> content ->
     (exists outcome,
        update_content self org_id repo_name path content message s =
        (outcome,
         {| remote := snd (session_request (put old_sha) forge1);
            issued := issued s ++ [get; put old_sha] |})) /\
     rest.method (put old_sha) = "PUT" /\
     (old_sha <> JNull ->
      put_data path content message old_sha =
      JObj [("message", JStr (push_message path message));
            ("content", JStr (b64encode content));
            ("sha", old_sha)])) /\
  ((400 <= status_code response)%Z ->
   is_GitHubException (_create_exception response) = true ->
     (exists outcome,
        update_content self org_id repo_name path content message s =
        (outcome,
         {| remote := snd (session_request (put JNull) forge1);
            issued := issued s ++ [get; put JNull] |})) /\
     put_data path content message JNull =
     JObj [("message", JStr (push_message path message));
           ("content", JStr (b64encode content))]) /\
  (forall outcome s',
     update_content self org_id repo_name path content message s = (outcome, s') ->
     issued s' <> issued s ++ [get] ->
     (exists old_sha, issued s' = issued s ++ [get; put old_sha]) /\
     ((400 <= status_code response)%Z \/
      exists body encoded old_content,
        json response = Ok body /\
        py_getitem body "content" = Ok (JStr encoded) /\
        b64decode encoded = Some old_content /\
        old_content <> content)).
Proof.
  intros Hr get put s1.
  assert (Hcases := update_content_cases self org_id repo_name path content message
                      s response forge1 Hr).
  cbv zeta in Hcases. fold get s1 in Hcases.
  split; [| split; [| split]].
  - intros body old_sha encoded Hlt Hj Hsha Hc Hd.
    rewrite (read_old_stored _ _ _ _ _ Hlt Hj Hsha Hc Hd) in Hcases.
    rewrite (proj2 (content_unchanged_spec _ _) eq_refl) in Hcases. done.
  - intros body old_sha encoded old_content Hlt Hj Hsha Hc Hd Hne.
    rewrite (read_old_stored _ _ _ _ _ Hlt Hj Hsha Hc Hd) in Hcases.
    destruct (content_unchanged (Some old_content) content) eqn:Hu.
    { apply content_unchanged_spec in Hu. congruence. }
    split; [exact Hcases |]. split; [done |].
    intros Hsha'. unfold put_data. by destruct old_sha.
  - intros Hge Hg. rewrite (read_old_missing _ Hge Hg) in Hcases. simpl in Hcases.
    split; [exact Hcases | done].
  - intros outcome s' Hrun Hmore.
    destruct (read_old response) as [[old_sha old_content] | ex] eqn:Hold.
    + destruct (content_unchanged old_content content) eqn:Hu.
      * rewrite Hrun in Hcases. injection Hcases as _ ->. by destruct Hmore.
      * destruct Hcases as [outcome' Hrun']. rewrite Hrun in Hrun'.
        injection Hrun' as _ ->. split; [by exists old_sha |].
        destruct old_content as [old_content|].
        -- right. apply read_old_Some in Hold as (_ & body & encoded & Hj & _ & Hc & Hd).
           exists body, encoded, old_content. repeat split; try done.
           intros ->. simpl in Hu. by rewrite String.eqb_refl in Hu.
        -- left. unfold read_old, _check_response in Hold.
           destruct (400 <=? status_code response)%Z eqn:Hs; [by apply Z.leb_le |].
           simpl in Hold.
           unfold json in Hold.
           destruct (parsed response) as [body|]; simpl in Hold; [| discriminate].
           destruct (py_getitem body "sha"); simpl in Hold; [| discriminate].
           destruct (py_getitem body "content") as [c|]; simpl in Hold; [| discriminate].
           destruct (decode_content c); simpl in Hold; discriminate.
    + rewrite Hrun in Hcases. injection Hcases as _ ->. by destruct Hmore.
Qed.

End Transport.

Arguments remote {Forge} s.
Arguments issued {Forge} s.
Arguments Build_Session {Forge} remote issued.

(** *** Stand-ins for the libraries and the forge

    The theorems above hold for every forge and every choice of the library
    functions.  The instances below fix them, so that the model can be run:
    a serializer, a base64 codec, and three forges. *)

Definition quote : string := String (Ascii.ascii_of_nat 34) EmptyString.

(** A serializer in the manner of [json.dumps] (strings are not escaped). *)
Fixpoint dumps (j : Json) : string :=
  match j with
  | JNull => "null"
  | JBool true => "true"
  | JBool false => "false"
  | JNum z => pretty z
  | JStr s => quote +:+ s +:+ quote
  | JList items =>
    "[" +:+
    (fix go (items : list Json) : string :=
       match items with
       | [] => ""
       | [item] => dumps item
       | item :: items => dumps item +:+ ", " +:+ go items
       end) items +:+ "]"
  | JObj members =>
    "{" +:+
    (fix go (members : list (string * Json)) : string :=
       match members with
       | [] => ""
       | [(k, v)] => quote +:+ k +:+ quote +:+ ": " +:+ dumps v
       | (k, v) :: members =>
         quote +:+ k +:+ quote +:+ ": " +:+ dumps v +:+ ", " +:+ go members
       end) members +:+ "}"
  end.

Definition base64_alphabet : string :=
  "ABCDEFGHIJKLMNOPQRSTUVWXYZabcdefghijklmnopqrstuvwxyz0123456789+/".

Definition sextet_char (n : N) : Ascii.ascii :=
  match String.get (N.to_nat n) base64_alphabet with
  | Some c => c
  | None => Ascii.ascii_of_nat 61
  end.

Fixpoint encode_bytes (bytes : list N) : list Ascii.ascii :=
  match bytes with
  | a :: b :: c :: bytes =>
    let n := (a * 65536 + b * 256 + c)%N in
    sextet_char (n / 262144) :: sextet_char ((n / 4096) mod 64) ::
    sextet_char ((n / 64) mod 64) :: sextet_char (n mod 64) :: encode_bytes bytes
  | [a; b] =>
    let n := (a * 65536 + b * 256)%N in
    [sextet_char (n / 262144); sextet_char ((n / 4096) mod 64);
     sextet_char ((n / 64) mod 64); Ascii.ascii_of_nat 61]
  | [a] =>
    let n := (a * 65536)%N in
    [sextet_char (n / 262144); sextet_char ((n / 4096) mod 64);
     Ascii.ascii_of_nat 61; Ascii.ascii_of_nat 61]
  | [] => []
  end.

(** [base64.b64encode(s.encode("utf-8")).decode("utf-8")] on byte strings. *)
Definition base64_encode (s : string) : string :=
  String.string_of_list_ascii
    (encode_bytes (map Ascii.N_of_ascii (String.list_ascii_of_string s))).

Fixpoint index_in (c : Ascii.ascii) (alphabet : list Ascii.ascii) (i : N) : option N :=
  match alphabet with
  | [] => None
  | a :: alphabet => if Ascii.eqb a c then Some i else index_in c alphabet (i + 1)
  end.

Definition sextets (s : string) : list N :=
  omap (fun c => index_in c (String.list_ascii_of_string base64_alphabet) 0)
       (String.list_ascii_of_string s).

Fixpoint decode_sextets (l : list N) : option (list N) :=
  match l with
  | a :: b :: c :: d :: l =>
    let n := (a * 262144 + b * 4096 + c * 64 + d)%N in
    match decode_sextets l with
    | Some bytes => Some ((n / 65536) :: ((n / 256) mod 256) :: (n mod 256) :: bytes)%N
    | None => None
    end
  | [a; b; c] =>
    let n := (a * 262144 + b * 4096 + c * 64)%N in
    Some [n / 65536; (n / 256) mod 256]%N
  | [a; b] =>
    let n := (a * 262144 + b * 4096)%N in
    Some [n / 65536]%N
  | [_] => None
  | [] => Some []
  end.

(** [base64.b64decode(s).decode("utf-8")] on byte strings: characters
    outside the alphabet are discarded, a dangling sextet is an error. *)
Definition base64_decode (s : string) : option string :=
  match decode_sextets (sextets s) with
  | Some bytes => Some (String.string_of_list_ascii (map Ascii.ascii_of_N bytes))
  | None => None
  end.

Definition exception_name (ex : Exception) : string :=
  match ex with
  | RuntimeError msg => msg
  | KeyError key => key
  | TypeError msg => msg
  | ValueError msg => msg
  | AttributeError msg => msg
  | OSError msg => msg
  | AssertionError => "AssertionError"
  | JSONDecodeError => "JSONDecodeError"
  | GitHubException _ _ data _ => data
  | BadCredentialsException _ _ data _ => data
  end.

(** A response with a JSON body. *)
Definition json_response (status : Z) (body : Json) (request : Request) : Response :=
  {| status_code := status; request_url := url request; text := dumps body;
     response_headers := [("Content-Type", "application/json")];
     parsed := Some body |}.

(** A response whose body is plain text. *)
Definition text_response (status : Z) (body : string) (request : Request) : Response :=
  {| status_code := status; request_url := url request; text := body;
     response_headers := []; parsed := None |}.

(** A forge that plays a script: the n-th request gets the n-th answer, and
    404 once the script is over. *)
Definition scripted (request : Request) (script : list (Request -> Response)) :
    Response * list (Request -> Response) :=
  match script with
  | answer :: script => (answer request, script)
  | [] => (text_response 404 "Not Found" request, [])
  end.

(** A forge that serves a fixed collection page by page, as selected by the
    query parameter "page". *)
Definition paged (collection : list (list Json)) (request : Request) (forge : unit) :
    Response * unit :=
  let page :=
    match params request with
    | Some query =>
      match query !! "page" with
      | Some (PyInt n) => n
      | _ => 1%Z
      end
    | None => 1%Z
    end in
  (json_response 200 (JList (nth (Z.to_nat (page - 1)) collection [])) request, forge).

Record File : Type := { file_sha : string; file_content : string }.

(** A forge that keeps files by URL: GET reads a file, PUT stores the body
    of the request. *)
Definition contents (request : Request) (files : gmap string File) :
    Response * gmap string File :=
  if String.eqb (method request) "GET" then
    match files !! url request with
    | Some file =>
      (json_response 200
         (JObj [("sha", JStr (file_sha file));
                ("content", JStr (base64_encode (file_content file)))]) request,
       files)
    | None => (json_response 404 (JObj [("message", JStr "Not Found")]) request, files)
    end
  else if String.eqb (method request) "PUT" then
    match data request with
    | Some body =>
      (json_response 200 (JObj [("content", JNull)]) request,
       <[url request := {| file_sha := "new"; file_content := body |}]> files)
    | None => (text_response 422 "Unprocessable" request, files)
    end
  else (text_response 405 "Method Not Allowed" request, files).

Definition client : RestClient := RestClient_init "token".

Definition item (name : string) : Json := JObj [("name", JStr name)].

(** *** A single attempt, run *)

Definition unavailable_then_fine : list (Request -> Response) :=
  [ text_response 503 "Service Unavailable";
    json_response 200 (JObj [("login", JStr "octocat")]) ].

Definition fresh {Forge : Type} (forge : Forge) : Session Forge :=
  {| remote := forge; issued := [] |}.

(** C5, as stated: a response with a 5xx status makes the requester try
    again, so at least two requests are issued before [request_json] ends. *)
Definition retries_transient_errors : Prop :=
  forall (Forge : Type) (session_request : Request -> Forge -> Response * Forge)
         (json_dumps : Json -> string) (self : Requester) (method url_path : string)
         (data : option Json) (params : option (gmap string Value))
         (s : Session Forge) (response : Response) (forge : Forge),
    In method allowed_methods ->
    session_request
      (raw_request self method url_path (option_map json_dumps data) params) (remote s)
      = (response, forge) ->
    (500 <= status_code response < 600)%Z ->
    length (issued s) + 2 <=
    length (issued (snd (request_json Forge session_request json_dumps
                           self method url_path data params s))).

(** C5 (counterexample): the forge answers 503 and would answer 200 to a
    second attempt; [request_json] raises after the first request and the
    second answer is never asked for. *)
Lemma request_json_gives_up_after_503 :
  request_json _ scripted dumps (_requester client) "GET" "/orgs/o" None None
    (fresh unavailable_then_fine) =
  (Raise (GitHubException "https://api.github.com/orgs/o" 503 "Service Unavailable" []),
   {| remote := [json_response 200 (JObj [("login", JStr "octocat")])];
      issued := [raw_request (_requester client) "GET" "/orgs/o" None None] |}) /\
  ~ retries_transient_errors.
Proof.
  split; [reflexivity |].
  intros Hretry.
  specialize (Hretry _ scripted dumps (_requester client) "GET" "/orgs/o" None None
                (fresh unavailable_then_fine) _ _ in_GET eq_refl).
  simpl in Hretry. lia.
Qed.

Lemma request_json_single_attempt_witness :
  request_raw _ scripted (_requester client) "GET" "/orgs/o" None None
    (fresh unavailable_then_fine) =
  (Ok (text_response 503 "Service Unavailable"
         (raw_request (_requester client) "GET" "/orgs/o" None None)),
   {| remote := [json_response 200 (JObj [("login", JStr "octocat")])];
      issued := [raw_request (_requester client) "GET" "/orgs/o" None None] |}) /\
  request_json _ scripted dumps (_requester client) "GET" "/orgs/o" None None
    (fresh unavailable_then_fine) =
  (Raise (GitHubException "https://api.github.com/orgs/o" 503 "Service Unavailable" []),
   {| remote := [json_response 200 (JObj [("login", JStr "octocat")])];
      issued := [raw_request (_requester client) "GET" "/orgs/o" None None] |}) /\
  length [raw_request (_requester client) "GET" "/orgs/o" None None] = 1.
Proof.
  apply (request_json_single_attempt _ scripted dumps (_requester client)
           "GET" "/orgs/o" None None (fresh unavailable_then_fine) _ _ in_GET eq_refl).
  simpl. lia.
Defined.

Lemma check_response_classification_witness :
  fst (request_json _ scripted dumps (_requester client) "GET" "/orgs/o" None None
         (fresh [json_response 200 (JObj [("login", JStr "octocat")])]))
    = Ok (JObj [("login", JStr "octocat")]) /\
  fst (request_json _ scripted dumps (_requester client) "GET" "/orgs/o" None None
         (fresh [text_response 401 "Bad credentials"]))
    = Raise (BadCredentialsException "https://api.github.com/orgs/o" 401
               "Bad credentials" []) /\
  fst (request_json _ scripted dumps (_requester client) "GET" "/orgs/o" None None
         (fresh [text_response 404 "Not Found"]))
    = Raise (GitHubException "https://api.github.com/orgs/o" 404 "Not Found" []).
Proof.
  destruct (check_response_classification _ scripted dumps (_requester client)
              "GET" "/orgs/o" None None
              (fresh [json_response 200 (JObj [("login", JStr "octocat")])])
              _ _ in_GET eq_refl) as (_ & _ & Hfine).
  destruct (check_response_classification _ scripted dumps (_requester client)
              "GET" "/orgs/o" None None
              (fresh [text_response 401 "Bad credentials"])
              _ _ in_GET eq_refl) as (Hbad & _ & _).
  destruct (check_response_classification _ scripted dumps (_requester client)
              "GET" "/orgs/o" None None
              (fresh [text_response 404 "Not Found"])
              _ _ in_GET eq_refl) as (_ & Hother & _).
  split; [| split].
  - apply Hfine; [simpl; lia | reflexivity].
  - apply Hbad. reflexivity.
  - apply Hother; simpl; lia.
Defined.

(** *** Paging, run *)

Definition two_pages : list (list Json) := [[item "a"; item "b"]; [item "c"]].

(** C7, as stated: every request issued by [request_paged_json] carries
    [per_page = "100"]. *)
Definition pages_fetched_by_hundred : Prop :=
  forall (Forge : Type) (session_request : Request -> Forge -> Response * Forge)
         (json_dumps : Json -> string) (fuel : nat) (self : Requester)
         (method url_path : string) (data : option Json)
         (params : option (gmap string Value)) (forge : Forge)
         (outcome : Result (list Json)) (s' : Session Forge),
    request_paged_json Forge session_request json_dumps fuel self method url_path
      data params (fresh forge) = Some (outcome, s') ->
    Forall (fun request =>
              exists query, rest.params request = Some query /\
                            query !! "per_page" = Some (PyStr "100"))
           (issued s').

Definition per_page_of (request : Request) : option Value :=
  match rest.params request with
  | Some query => query !! "per_page"
  | None => None
  end.

Definition page_of (request : Request) : option Value :=
  match rest.params request with
  | Some query => query !! "page"
  | None => None
  end.

(** C7 (counterexample): called with [params = {"per_page": "50"}], the
    function fetches its pages with [per_page = "50"]. *)
Lemma request_paged_json_per_page_overridden :
  (exists s',
     request_paged_json _ (paged two_pages) dumps 5 (_requester client)
       "GET" "/orgs/o/repos" None (Some {["per_page" := PyStr "50"]}) (fresh tt)
     = Some (Ok [item "a"; item "b"; item "c"], s') /\
     map per_page_of (issued s')
     = [Some (PyStr "50"); Some (PyStr "50"); Some (PyStr "50")]) /\
  ~ pages_fetched_by_hundred.
Proof.
  split.
  - eexists. split; reflexivity.
  - intros Hclaim.
    specialize (Hclaim _ (paged two_pages) dumps 5 (_requester client)
                  "GET" "/orgs/o/repos" None (Some {["per_page" := PyStr "50"]}) tt
                  _ _ eq_refl).
    apply Forall_inv in Hclaim. destruct Hclaim as (query & Hq & Hper).
    injection Hq as <-. vm_compute in Hper. discriminate.
Qed.

Lemma request_paged_json_pages_witness :
  request_paged_json _ (paged two_pages) dumps 3 (_requester client)
    "GET" "/orgs/o/repos" None None (fresh tt)
  = Some (Ok [item "a"; item "b"; item "c"],
          {| remote := tt;
             issued := map (page_request dumps (_requester client)
                              "GET" "/orgs/o/repos" None None) [1; 2; 3]%Z |}) /\
  map per_page_of
      (map (page_request dumps (_requester client) "GET" "/orgs/o/repos" None None)
           [1; 2; 3]%Z)
  = [Some (PyStr "100"); Some (PyStr "100"); Some (PyStr "100")] /\
  map page_of
      (map (page_request dumps (_requester client) "GET" "/orgs/o/repos" None None)
           [1; 2; 3]%Z)
  = [Some (PyInt 1); Some (PyInt 2); Some (PyInt 3)].
Proof.
  assert (Hserved :
    pages_served _ (paged two_pages) dumps (_requester client) "GET" "/orgs/o/repos"
      None None 1 [JList [item "a"; item "b"]; JList [item "c"]] tt tt).
  { simpl. eexists _, tt, 1. split; [reflexivity |].
    split; [reflexivity |]. split; [reflexivity |]. split; [reflexivity |].
    eexists _, tt, 0. split; [reflexivity |].
    split; [reflexivity |]. split; [reflexivity |]. split; [reflexivity |].
    eexists _, (JList []). split; [reflexivity |].
    split; [reflexivity |]. split; reflexivity. }
  destruct (request_paged_json_pages _ (paged two_pages) dumps (_requester client)
              "GET" "/orgs/o/repos" None None _ (fresh tt) tt in_GET Hserved)
    as (Hrun & _ & _ & _).
  split; [| split; reflexivity].
  exact (Hrun 3 ltac:(simpl; lia)).
Defined.

(** *** Updating a file, run *)

Definition file_url : string := "https://api.github.com/repos/o/r/contents/f.txt".

Definition no_file : gmap string File := ∅.

Definition one_file : gmap string File :=
  {[ file_url := {| file_sha := "abc"; file_content := "hello" |} ]}.

Lemma update_content_writes_only_on_change_witness :
  update_content _ contents dumps base64_encode base64_decode exception_name true
    client "o" "r" "f.txt" "hello" None (fresh one_file)
  = (Ok tt, {| remote := one_file; issued := [get_request client "o" "r" "f.txt"] |}) /\
  (exists outcome,
     update_content _ contents dumps base64_encode base64_decode exception_name true
       client "o" "r" "f.txt" "bye" None (fresh one_file)
     = (outcome,
        {| remote :=
             snd (contents (put_request dumps base64_encode client "o" "r" "f.txt"
                              "bye" None (JStr "abc")) one_file);
           issued := [get_request client "o" "r" "f.txt";
                      put_request dumps base64_encode client "o" "r" "f.txt"
                        "bye" None (JStr "abc")] |})) /\
  (exists outcome,
     update_content _ contents dumps base64_encode base64_decode exception_name true
       client "o" "r" "f.txt" "hello" None (fresh no_file)
     = (outcome,
        {| remote :=
             snd (contents (put_request dumps base64_encode client "o" "r" "f.txt"
                              "hello" None JNull) no_file);
           issued := [get_request client "o" "r" "f.txt";
                      put_request dumps base64_encode client "o" "r" "f.txt"
                        "hello" None JNull] |})).
Proof.
  destruct (update_content_writes_only_on_change _ contents dumps base64_encode
              base64_decode exception_name true client "o" "r" "f.txt" "hello" None
              (fresh one_file) _ _ eq_refl) as (Hsame & _ & _ & _).
  destruct (update_content_writes_only_on_change _ contents dumps base64_encode
              base64_decode exception_name true client "o" "r" "f.txt" "bye" None
              (fresh one_file) _ _ eq_refl) as (_ & Hdiffers & _ & _).
  destruct (update_content_writes_only_on_change _ contents dumps base64_encode
              base64_decode exception_name true client "o" "r" "f.txt" "hello" None
              (fresh no_file)
              (json_response 404 (JObj [("message", JStr "Not Found")])
                 (get_request client "o" "r" "f.txt"))
              no_file eq_refl) as (_ & _ & Hmissing & _).
  split; [| split].
  - refine (proj1 (Hsame _ (JStr "abc") (base64_encode "hello") _ eq_refl eq_refl eq_refl eq_refl)).
    simpl. lia.
  - refine (proj1 (Hdiffers _ (JStr "abc") (base64_encode "hello") "hello" _
                     eq_refl eq_refl eq_refl eq_refl _)).
    + simpl. lia.
    + discriminate.
  - refine (proj1 (Hmissing _ eq_refl)). simpl. lia.
Defined.

(** *** A success without a body *)

(** C6, as stated in its last part: for every status below 400 no exception
    is raised and [request_json] returns the parsed body. *)
Definition success_returns_parsed_body : Prop :=
  forall (Forge : Type) (session_request : Request -> Forge -> Response * Forge)
         (json_dumps : Json -> string) (self : Requester) (method url_path : string)
         (data : option Json) (params : option (gmap string Value))
         (s : Session Forge) (response : Response) (forge : Forge),
    In method allowed_methods ->
    session_request
      (raw_request self method url_path (option_map json_dumps data) params) (remote s)
      = (response, forge) ->
    (status_code response < 400)%Z ->
    exists body,
      fst (request_json Forge session_request json_dumps self method url_path data
             params s) = Ok body.

(** C6 (counterexample): the forge answers 204 with an empty body, as it
    does to a request that has nothing to return; [request_json] raises the
    decoding error of [response.json()]. *)
Lemma request_json_raises_on_empty_204 :
  request_json _ scripted dumps (_requester client) "GET" "/orgs/o" None None
    (fresh [text_response 204 ""]) =
  (Raise JSONDecodeError,
   {| remote := []; issued := [raw_request (_requester client) "GET" "/orgs/o" None None] |}) /\
  ~ success_returns_parsed_body.
Proof.
  split; [reflexivity |].
  intros Hclaim.
  destruct (Hclaim _ scripted dumps (_requester client) "GET" "/orgs/o" None None
              (fresh [text_response 204 ""]) _ _ in_GET eq_refl) as [body Hbody].
  - simpl. lia.
  - discriminate Hbody.
Qed.

(** *** A read that fails over a file that is there *)

(** A forge like [contents] that is out of service for the first request
    when its flag is set. *)
Definition out_of_service_first (request : Request) (forge : bool * gmap string File) :
    Response * (bool * gmap string File) :=
  let '(down, files) := forge in
  if down then (text_response 503 "Service Unavailable" request, (false, files))
  else let '(response, files) := contents request files in (response, (false, files)).

Definition run_update_content (content : string) (down : bool) (files : gmap string File) :
    Result unit * Session (bool * gmap string File) :=
  update_content _ out_of_service_first dumps base64_encode base64_decode exception_name
    true client "o" "r" "f.txt" content None (fresh (down, files)).

(** C10, as stated in its first part: when the new content equals the
    content stored at the path, no PUT is issued and the remote file is left
    unchanged. *)
Definition equal_content_is_never_written : Prop :=
  forall (down : bool) (files : gmap string File) (file : File),
    files !! file_url = Some file ->
    let s' := snd (run_update_content (file_content file) down files) in
    Forall (fun request => method request <> "PUT") (issued s') /\
    snd (remote s') !! file_url = Some file.

(** C10 (counterexample): the file holds "hello" and the forge answers the
    GET with 503; [update_content] takes the file to be absent, issues a PUT
    without sha for the same content, and the remote file is replaced. *)
Lemma update_content_writes_after_failed_read :
  one_file !! file_url = Some {| file_sha := "abc"; file_content := "hello" |} /\
  map method (issued (snd (run_update_content "hello" true one_file))) = ["GET"; "PUT"] /\
  snd (remote (snd (run_update_content "hello" true one_file))) !! file_url
    <> one_file !! file_url /\
  ~ equal_content_is_never_written.
Proof.
  assert (Hfile : one_file !! file_url
                  = Some {| file_sha := "abc"; file_content := "hello" |})
    by (vm_compute; reflexivity).
  assert (Hissued : map method (issued (snd (run_update_content "hello" true one_file)))
                    = ["GET"; "PUT"]) by (vm_compute; reflexivity).
  split; [exact Hfile |]. split; [exact Hissued |]. split.
  - vm_compute. discriminate.
  - intros Hclaim. destruct (Hclaim true one_file _ Hfile) as [Hno _].
    cbn [file_content] in Hno.
    assert (Hput : Forall (fun m => m <> "PUT")
                     (map method (issued (snd (run_update_content "hello" true one_file))))).
    { apply Forall_fmap. exact Hno. }
    rewrite Hissued in Hput. apply Forall_cons in Hput as [_ Hput].
    apply Forall_cons in Hput as [Hput _]. by apply Hput.
Qed.

End rest.

(** ** otterdog/providers/github/rest.py, continued

    The remaining behaviour of [Requester] and the methods of [RestClient]
    that write to the forge. *)

Module rest_client.
Import Py rest.
Local Open Scope string_scope.
Local Open Scope list_scope.

Definition as_int (b : bool) : Z := if b then 1%Z else 0%Z.

(** [a == b] on JSON documents: [True] and [False] compare as 1 and 0, lists
    item by item, objects as mappings (whatever the order of their
    members). *)
Fixpoint py_eq (a b : Json) {struct a} : bool :=
  match a, b with
  | JNull, JNull => true
  | JBool x, JBool y => Bool.eqb x y
  | JBool x, JNum y => (as_int x =? y)%Z
  | JNum x, JBool y => (x =? as_int y)%Z
  | JNum x, JNum y => (x =? y)%Z
  | JStr x, JStr y => String.eqb x y
  | JList xs, JList ys =>
    (fix all2 (xs ys : list Json) {struct xs} : bool :=
       match xs, ys with
       | [], [] => true
       | x :: xs, y :: ys => py_eq x y && all2 xs ys
       | _, _ => false
       end) xs ys
  | JObj xs, JObj ys =>
    (length xs =? length ys)%nat &&
    (fix all_in (xs : list (string * Json)) {struct xs} : bool :=
       match xs with
       | [] => true
       | (k, x) :: xs =>
         match assoc k ys with
         | Some y => py_eq x y
         | None => false
         end && all_in xs
       end) xs
  | _, _ => false
  end.

Section Client.

Variable Forge : Type.
Variable session_request : Request -> Forge -> Response * Forge.
Variable json_dumps : Json -> string.
Variable str_of_exception : Exception -> string.
Variable bad_credentials_is_github_exception : bool.

Abbreviation Session := (rest.Session Forge).
Abbreviation M := (rest.M Forge).
Abbreviation ret := (rest.ret Forge).
Abbreviation lift := (rest.lift Forge).
Abbreviation mbind := (rest.mbind Forge).
Abbreviation reraise := (rest.reraise Forge).
Abbreviation is_GitHubException := (rest.is_GitHubException bad_credentials_is_github_exception).
Abbreviation request_raw := (rest.request_raw Forge session_request).
Abbreviation request_json := (rest.request_json Forge session_request json_dumps).
Abbreviation request_paged_json := (rest.request_paged_json Forge session_request json_dumps).
Abbreviation request_paged_json_loop :=
  (rest.request_paged_json_loop Forge session_request json_dumps).
Abbreviation page_request := (rest.page_request json_dumps).

(** *** Paging: what happens short of a clean end *)

(** Starting in state [forge], the forge answers the requests for the pages
    [page], [page + 1], ... with the non-empty bodies [pages] and is then in
    state [forge']. *)
Fixpoint pages_then (self : Requester) (method url_path : string)
    (data : option Json) (params : option (gmap string Value))
    (page : Z) (pages : list Json) (forge forge' : Forge) : Prop :=
  match pages with
  | [] => forge' = forge
  | body :: pages =>
    exists response forge1 n,
      session_request (page_request self method url_path data params page) forge
        = (response, forge1) /\
      (status_code response < 400)%Z /\
      json response = Ok body /\
      py_len body = Ok (S n) /\
      pages_then self method url_path data params (page + 1) pages forge1 forge'
  end.

(** The loop after a run of non-empty pages: it goes on from the next page
    with the items received so far. *)
Lemma loop_after_pages (self : Requester) (method url_path : string)
    (data : option Json) (params : option (gmap string Value)) (pages : list Json) :
  In method allowed_methods ->
  forall (fuel : nat) (page : Z) (result : list Json) (s : Session) (forge' : Forge),
    (0 < page)%Z ->
    pages_then self method url_path data params page pages (remote s) forge' ->
    request_paged_json_loop (length pages + fuel) self method url_path data params
      page result s =
    request_paged_json_loop fuel self method url_path data params
      (page + Z.of_nat (length pages)) (result ++ concat (map py_iter pages))
      {| remote := forge';
         issued := issued s ++
           map (page_request self method url_path data params)
               (page_numbers page (length pages)) |}.
Proof.
  intros Hm. induction pages as [|body pages IH];
    intros fuel page result s forge' Hpos Hserved.
  - simpl in Hserved. subst forge'. destruct s as [forge sent]. simpl.
    by rewrite Z.add_0_r, !app_nil_r.
  - destruct Hserved as (response & forge1 & n & Hr & Hlt & Hj & Hlen & Hrest).
    cbn [length Nat.add request_paged_json_loop].
    assert (Hpos' := Hpos). apply Z.ltb_lt in Hpos'. rewrite Hpos'.
    rewrite (request_page_eq _ _ _ _ _ _ _ _ _ _ _ _ _ Hm Hr Hlt Hj), Hlen.
    rewrite (IH fuel (page + 1)%Z _ _ forge'); [| lia | exact Hrest].
    cbn [issued remote page_numbers map concat].
    rewrite <- !app_assoc. cbn [app].
    by replace (page + 1 + Z.of_nat (length pages))%Z
      with (page + Z.of_nat (S (length pages)))%Z by lia.
Qed.

Lemma page_numbers_snoc (first : Z) (count : nat) :
  page_numbers first (S count) = page_numbers first count ++ [(first + Z.of_nat count)%Z].
Proof.
  revert first. induction count as [|count IH]; intros first.
  - simpl. by rewrite Z.add_0_r.
  - change (page_numbers first (S (S count)))
      with (first :: page_numbers (first + 1) (S count)).
    rewrite IH. cbn [page_numbers app]. do 3 f_equal. lia.
Qed.

(** X1: when a page is answered with a status of 400 or more after some
    non-empty pages, [request_paged_json] raises the exception built from
    that response; the items of the pages received before are not returned,
    and no further page is asked for. *)
Theorem request_paged_json_fails_on_refused_page (self : Requester)
    (method url_path : string) (data : option Json)
    (params : option (gmap string Value)) (pages : list Json)
    (s : Session) (forge1 forge' : Forge) (response : Response) (fuel : nat) :
  In method allowed_methods ->
  pages_then self method url_path data params 1 pages (remote s) forge1 ->
  session_request
    (page_request self method url_path data params (1 + Z.of_nat (length pages))) forge1
    = (response, forge') ->
  (400 <= status_code response)%Z ->
  length pages < fuel ->
  request_paged_json fuel self method url_path data params s =
  Some (Raise (_create_exception response),
        {| remote := forge';
           issued := issued s ++
             map (page_request self method url_path data params)
                 (page_numbers 1 (S (length pages))) |}).
Proof.
  intros Hm Hserved Hr Hs Hfuel. unfold rest.request_paged_json.
  replace fuel with (length pages + S (fuel - S (length pages))) by lia.
  rewrite (loop_after_pages self method url_path data params pages Hm _ 1%Z [] s forge1 ltac:(lia) Hserved).
  cbn [request_paged_json_loop].
  assert (Hpos : (0 <? 1 + Z.of_nat (length pages))%Z = true) by (apply Z.ltb_lt; lia).
  rewrite Hpos.
  set (s1 := {| remote := forge1; issued := _ |}).
  assert (Hr' : session_request
                  (raw_request self method url_path (option_map json_dumps data)
                     (Some (query_params params (1 + Z.of_nat (length pages)))))
                  (remote s1) = (response, forge')) by exact Hr.
  rewrite (request_json_eq _ _ _ _ _ _ _ _ _ _ _ Hm Hr').
  unfold _check_response. apply Z.leb_le in Hs. rewrite Hs. simpl.
  rewrite <- app_assoc. do 4 f_equal.
  change (page_request self method url_path data params 1
          :: map (page_request self method url_path data params)
               (page_numbers (1 + 1) (length pages)))
    with (map (page_request self method url_path data params)
            (page_numbers 1 (S (length pages)))).
  by rewrite page_numbers_snoc, map_app.
Qed.

(** X2: [request_paged_json] puts no bound on the number of pages: against a
    forge that answers every request with a non-empty page, the loop never
    ends, whatever the fuel. *)
Theorem request_paged_json_never_ends (self : Requester) (method url_path : string)
    (data : option Json) (params : option (gmap string Value)) :
  In method allowed_methods ->
  (forall request forge,
     (status_code (fst (session_request request forge)) < 400)%Z /\
     exists body n,
       json (fst (session_request request forge)) = Ok body /\ py_len body = Ok (S n)) ->
  forall (fuel : nat) (s : Session),
    request_paged_json fuel self method url_path data params s = None.
Proof.
  intros Hm Hfull fuel. unfold rest.request_paged_json.
  generalize (@nil Json). assert (Hpos : (0 < 1)%Z) by lia. revert Hpos.
  generalize 1%Z. induction fuel as [|fuel IH]; intros page Hpos result s.
  - simpl. apply Z.ltb_lt in Hpos. by rewrite Hpos.
  - cbn [request_paged_json_loop]. assert (Hpos' := Hpos).
    apply Z.ltb_lt in Hpos'. rewrite Hpos'.
    destruct (session_request (page_request self method url_path data params page)
                (remote s)) as [response forge1] eqn:Hr.
    destruct (Hfull (page_request self method url_path data params page) (remote s))
      as (Hlt & body & n & Hj & Hlen).
    rewrite Hr in Hlt, Hj. simpl in Hlt, Hj.
    rewrite (request_page_eq _ _ _ _ _ _ _ _ _ _ _ _ _ Hm Hr Hlt Hj), Hlen.
    apply IH. lia.
Qed.

(** X3: a request with a method outside GET, PATCH, POST, PUT and DELETE
    fails on the assertion of [request_raw] before the session is used:
    nothing is sent, by [request_raw], [request_json] or
    [request_paged_json]. *)
Theorem unknown_method_sends_nothing (self : Requester) (method url_path : string)
    (raw_data : option string) (data : option Json)
    (params : option (gmap string Value)) (s : Session) (fuel : nat) :
  ~ In method allowed_methods ->
  request_raw self method url_path raw_data params s = (Raise AssertionError, s) /\
  request_json self method url_path data params s = (Raise AssertionError, s) /\
  request_paged_json (S fuel) self method url_path data params s
    = Some (Raise AssertionError, s).
Proof.
  intros Hm.
  assert (Hno : existsb (String.eqb method) allowed_methods = false).
  { apply not_true_is_false. intros Hex. apply existsb_exists in Hex as (m & Hin & Heq).
    apply String.eqb_eq in Heq. by subst. }
  assert (Hraw : forall d p, request_raw self method url_path d p s
                             = (Raise AssertionError, s)).
  { intros d p. unfold rest.request_raw. by rewrite Hno. }
  assert (Hjson : forall d p, request_json self method url_path d p s
                              = (Raise AssertionError, s)).
  { intros d p. unfold rest.request_json, rest.mbind. by rewrite Hraw. }
  split; [apply Hraw | split; [apply Hjson |]].
  unfold rest.request_paged_json. cbn [request_paged_json_loop]. simpl.
  by rewrite Hjson.
Qed.

(** *** The methods of [RestClient] that write *)

(** [py_str] is [str(x)] on the values that are not strings. *)
Variable py_str : Json -> string.

(** [f"{x}"] *)
Definition text_of (x : Json) : string :=
  match x with
  | JStr s => s
  | _ => py_str x
  end.

(** [bool(x)] *)
Definition py_bool (x : Json) : bool :=
  match x with
  | JNull => false
  | JBool b => b
  | JNum z => negb (z =? 0)%Z
  | JStr s => negb (String.eqb s "")
  | JList items => match items with [] => false | _ => true end
  | JObj members => match members with [] => false | _ => true end
  end.

(** A dictionary with string keys, as handed to [json.dumps].  The members
    come in the order of the map, not in the order of insertion. *)
Definition dict_to_json (d : gmap string Json) : Json := JObj (map_to_list d).

Fixpoint is_substring (needle s : string) : bool :=
  String.prefix needle s ||
  match s with
  | EmptyString => false
  | String _ s => is_substring needle s
  end.

(** [key in container] *)
Definition py_contains (container : Json) (key : string) : Result bool :=
  match container with
  | JObj members =>
    Ok (match assoc key members with Some _ => true | None => false end)
  | JList items => Ok (existsb (fun item => py_eq item (JStr key)) items)
  | JStr s => Ok (is_substring key s)
  | _ => Raise (TypeError "argument is not iterable")
  end.

Fixpoint assoc_set (key : string) (v : Json) (members : list (string * Json)) :
    list (string * Json) :=
  match members with
  | [] => [(key, v)]
  | (k, x) :: members =>
    if String.eqb k key then (k, v) :: members else (k, x) :: assoc_set key v members
  end.

(** [container[key] = v] *)
Definition py_setitem (container : Json) (key : string) (v : Json) : Result Json :=
  match container with
  | JObj members => Ok (JObj (assoc_set key v members))
  | _ => Raise (TypeError "object does not support item assignment")
  end.

(** [iter(x)] *)
Definition py_iterate (x : Json) : Result (list Json) :=
  match x with
  | JNull | JBool _ | JNum _ => Raise (TypeError "object is not iterable")
  | _ => Ok (py_iter x)
  end.

Fixpoint map_result {A B : Type} (f : A -> Result B) (l : list A) : Result (list B) :=
  match l with
  | [] => Ok []
  | a :: l => bind (f a) (fun b => bind (map_result f l) (fun bs => Ok (b :: bs)))
  end.

Definition repo_path (org_id repo_name : string) : string :=
  "/repos/" +:+ org_id +:+ "/" +:+ repo_name.

Definition vulnerability_alerts_path (org_id repo_name : string) : string :=
  repo_path org_id repo_name +:+ "/vulnerability-alerts".

(** A call of [request_raw] without body whose response must have status
    204: the shape shared by [add_security_manager_team],
    [remove_security_manager_team] and
    [_update_vulnerability_report_for_repo]. *)
Definition expect_204 (self : RestClient) (method url_path error : string) : M unit :=
  mbind (request_raw (_requester self) method url_path None None) (fun response =>
  if negb (status_code response =? 204)%Z
  then lift (Raise (RuntimeError error))
  else ret tt).

(** [RestClient._update_vulnerability_report_for_repo] *)
Definition _update_vulnerability_report_for_repo (self : RestClient)
    (org_id repo_name : string) (vulnerability_reports : bool) : M unit :=
  let method := if vulnerability_reports then "PUT" else "DELETE" in
  expect_204 self method (vulnerability_alerts_path org_id repo_name)
    ("failed to update vulnerability_reports for repo '" +:+ repo_name +:+ "'").

(** [RestClient.update_repo] *)
Definition update_repo (self : RestClient) (org_id repo_name : string)
    (data : gmap string Json) : M unit :=
  let changes := size data in
  let vulnerability_reports :=
    match data !! "dependabot_alerts_enabled" with
    | Some v => Some (py_bool v)
    | None => None
    end in
  let data := delete "dependabot_alerts_enabled" data in
  if (0 <? changes)%nat then
    reraise is_GitHubException
      (fun ex => "failed to update settings for repo '" +:+ repo_name +:+ "':" +:+
                 newline +:+ str_of_exception ex)
      (mbind (if (0 <? size data)%nat
              then mbind (request_json (_requester self) "PATCH"
                            (repo_path org_id repo_name) (Some (dict_to_json data)) None)
                         (fun _ => ret tt)
              else ret tt) (fun _ =>
       match vulnerability_reports with
       | Some vulnerability_reports =>
         _update_vulnerability_report_for_repo self org_id repo_name vulnerability_reports
       | None => ret tt
       end))
  else ret tt.

(** [RestClient._fill_vulnerability_report_for_repo]; the result is
    [repo_data] after the assignment. *)
Definition _fill_vulnerability_report_for_repo (self : RestClient)
    (org_id repo_name : string) (repo_data : Json) : M Json :=
  mbind (request_raw (_requester self) "GET"
           (vulnerability_alerts_path org_id repo_name) None None) (fun response_vulnerability =>
  if (status_code response_vulnerability =? 204)%Z
  then lift (py_setitem repo_data "dependabot_alerts_enabled" (JBool true))
  else lift (py_setitem repo_data "dependabot_alerts_enabled" (JBool false))).

(** [RestClient.get_repo_data] *)
Definition get_repo_data (self : RestClient) (org_id repo_name : string) : M Json :=
  reraise is_GitHubException
    (fun ex => "failed retrieving data for repo '" +:+ repo_name +:+ "':" +:+
               newline +:+ str_of_exception ex)
    (mbind (request_json (_requester self) "GET" (repo_path org_id repo_name) None None)
       (fun repo_data =>
        _fill_vulnerability_report_for_repo self org_id repo_name repo_data)).

(** One turn of the loop of [_remove_already_active_settings]. *)
Definition remove_if_active (current_data : Json) (update_data : gmap string Json)
    (key : string) : Result (gmap string Json) :=
  bind (py_contains current_data key) (fun present =>
  if present then
    match update_data !! key with
    | None => Raise (KeyError key)
    | Some update_value_expected =>
      bind (py_getitem current_data key) (fun update_value_current =>
      if py_eq update_value_current update_value_expected
      then Ok (delete key update_data)
      else Ok update_data)
    end
  else Ok update_data).

Fixpoint remove_active_keys (current_data : Json) (keys : list string)
    (update_data : gmap string Json) : Result (gmap string Json) :=
  match keys with
  | [] => Ok update_data
  | key :: keys =>
    bind (remove_if_active current_data update_data key)
         (remove_active_keys current_data keys)
  end.

(** [RestClient._remove_already_active_settings]; the result is
    [update_data] after the call. *)
Definition _remove_already_active_settings (update_data : gmap string Json)
    (current_data : Json) : Result (gmap string Json) :=
  let keys := (map_to_list update_data).*1 in
  remove_active_keys current_data keys update_data.

(** [re.split("/", s, 1)] when the result has two parts. *)
Fixpoint split_once (s : string) : option (string * string) :=
  match s with
  | EmptyString => None
  | String c s =>
    if Ascii.eqb c (Ascii.ascii_of_nat 47) then Some (EmptyString, s)
    else match split_once s with
         | Some (before, after) => Some (String c before, after)
         | None => None
         end
  end.

Definition update_keys : list string :=
  ["dependabot_alerts_enabled"; "web_commit_signoff_required"; "security_and_analysis"].

(** The loop of [add_repo] that moves the settings applied after creation
    from [data] to [update_data]; the result is [(update_data, data)]. *)
Definition collect_update_data (data : gmap string Json) :
    gmap string Json * gmap string Json :=
  fold_left (fun '(update_data, data) update_key =>
               match data !! update_key with
               | Some v => (<[update_key := v]> update_data, delete update_key data)
               | None => (update_data, data)
               end)
            update_keys (∅, data).

Definition template_data (org_id : string) (repo_name : Json) : Json :=
  JObj [("owner", JStr org_id); ("name", repo_name);
        ("include_all_branches", JBool false); ("private", JBool false)].

(** [RestClient.add_repo] *)
Definition add_repo (self : RestClient) (org_id : string) (data : gmap string Json)
    (template_repository : Value) (auto_init_repo : bool) : M unit :=
  match data !! "name" with
  | None => lift (Raise (KeyError "name"))
  | Some repo_name =>
    if is_set_and_valid template_repository then
      match template_repository with
      | PyStr template =>
        match split_once template with
        | None => lift (Raise (ValueError "not enough values to unpack (expected 2, got 1)"))
        | Some (template_owner, template_repo) =>
          reraise is_GitHubException
            (fun ex => "failed to create repo from template '" +:+ template +:+ "':" +:+
                       newline +:+ str_of_exception ex)
            (mbind (request_json (_requester self) "POST"
                      ("/repos/" +:+ template_owner +:+ "/" +:+ template_repo +:+ "/generate")
                      (Some (template_data org_id repo_name)) None) (fun _ =>
             mbind (get_repo_data self org_id (text_of repo_name)) (fun current_data =>
             mbind (lift (_remove_already_active_settings data current_data)) (fun data =>
             update_repo self org_id (text_of repo_name) data))))
        end
      | _ => lift (Raise (TypeError "expected string or bytes-like object"))
      end
    else
      let '(update_data, data) := collect_update_data data in
      let data := <["auto_init" := JBool auto_init_repo]> data in
      reraise is_GitHubException
        (fun ex => "failed to add repo with name '" +:+ text_of repo_name +:+ "':" +:+
                   newline +:+ str_of_exception ex)
        (mbind (request_json (_requester self) "POST" ("/orgs/" +:+ org_id +:+ "/repos")
                  (Some (dict_to_json data)) None) (fun result =>
         mbind (lift (_remove_already_active_settings update_data result)) (fun update_data =>
         update_repo self org_id (text_of repo_name) update_data)))
  end.

(** [RestClient.add_webhook] *)
Definition add_webhook (self : RestClient) (org_id : string) (data : gmap string Json) :
    M unit :=
  match
    bind (match data !! "config" with
          | Some config => Ok config
          | None => Raise (KeyError "config")
          end) (fun config => py_getitem config "url")
  with
  | Raise ex => lift (Raise ex)
  | Ok url =>
    let data := <["name" := JStr "web"]> data in
    reraise is_GitHubException
      (fun ex => "failed to add webhook with url '" +:+ text_of url +:+ "':" +:+
                 newline +:+ str_of_exception ex)
      (mbind (request_json (_requester self) "POST" ("/orgs/" +:+ org_id +:+ "/hooks")
                (Some (dict_to_json data)) None)
             (fun _ => ret tt))
  end.

Definition security_managers_path (org_id : string) : string :=
  "/orgs/" +:+ org_id +:+ "/security-managers".

Definition security_manager_team_path (org_id team_slug : string) : string :=
  security_managers_path org_id +:+ "/teams/" +:+ team_slug.

(** [RestClient.list_security_managers] *)
Definition list_security_managers (self : RestClient) (org_id : string) : M (list Json) :=
  reraise is_GitHubException
    (fun ex => "failed retrieving security managers for organization '" +:+ org_id +:+
               "':" +:+ newline +:+ str_of_exception ex)
    (mbind (request_json (_requester self) "GET" (security_managers_path org_id) None None)
       (fun result =>
        lift (bind (py_iterate result) (map_result (fun x => py_getitem x "slug"))))).

(** [RestClient.add_security_manager_team] *)
Definition add_security_manager_team (self : RestClient) (org_id team_slug : string) :
    M unit :=
  expect_204 self "PUT" (security_manager_team_path org_id team_slug)
    ("failed adding security manager team for organization '" +:+ org_id +:+ "'").

(** [RestClient.remove_security_manager_team] *)
Definition remove_security_manager_team (self : RestClient) (org_id team_slug : string) :
    M unit :=
  expect_204 self "DELETE" (security_manager_team_path org_id team_slug)
    ("failed removing security manager team for organization '" +:+ org_id +:+ "'").

(** A Python [set] of JSON values, kept as the list of its elements; lists
    and objects cannot be elements.  Membership and removal do not depend on
    an order.  The order in which a [for] loop visits the elements is decided
    by their hashes: [set_order] is that order. *)
Variable set_order : list Json -> list Json.

Definition hashable (x : Json) : bool :=
  match x with
  | JList _ | JObj _ => false
  | _ => true
  end.

Definition set_contains (elements : list Json) (x : Json) : bool :=
  existsb (py_eq x) elements.

Definition set_remove (elements : list Json) (x : Json) : list Json :=
  List.filter (fun e => negb (py_eq x e)) elements.

(** [set(items)] *)
Fixpoint set_of (items : list Json) (elements : list Json) : Result (list Json) :=
  match items with
  | [] => Ok elements
  | x :: items =>
    if hashable x then
      set_of items (if set_contains elements x then elements else elements ++ [x])
    else Raise (TypeError "unhashable type")
  end.

(** The first loop of [update_security_managers]; the result is
    [current_managers] after the loop. *)
Fixpoint add_missing_teams (self : RestClient) (org_id : string)
    (security_managers : list string) (current_managers : list Json) : M (list Json) :=
  match security_managers with
  | [] => ret current_managers
  | team_slug :: security_managers =>
    if set_contains current_managers (JStr team_slug) then
      add_missing_teams self org_id security_managers
        (set_remove current_managers (JStr team_slug))
    else
      mbind (add_security_manager_team self org_id team_slug) (fun _ =>
      add_missing_teams self org_id security_managers current_managers)
  end.

(** The second loop of [update_security_managers]. *)
Fixpoint remove_left_teams (self : RestClient) (org_id : string)
    (current_managers : list Json) : M unit :=
  match current_managers with
  | [] => ret tt
  | team_slug :: current_managers =>
    mbind (remove_security_manager_team self org_id (text_of team_slug)) (fun _ =>
    remove_left_teams self org_id current_managers)
  end.

(** [RestClient.update_security_managers] *)
Definition update_security_managers (self : RestClient) (org_id : string)
    (security_managers : list string) : M unit :=
  mbind (list_security_managers self org_id) (fun listed =>
  mbind (lift (set_of listed [])) (fun current_managers =>
  mbind (add_missing_teams self org_id security_managers current_managers)
    (fun current_managers =>
  remove_left_teams self org_id (set_order current_managers)))).

(** *** Which requests a call issues *)

(** Run from the session [s], [m] issues the requests of [plan] in order,
    stopping early only when it raises; when it returns, the whole plan was
    issued and the result satisfies [Q]. *)
Definition issues_at {A : Type} (s : Session) (plan : list Request) (Q : A -> Prop)
    (m : M A) : Prop :=
  exists n,
    n <= length plan /\
    issued (snd (m s)) = issued s ++ take n plan /\
    forall a, fst (m s) = Ok a -> n = length plan /\ Q a.

Definition issues {A : Type} (plan : list Request) (Q : A -> Prop) (m : M A) : Prop :=
  forall s, issues_at s plan Q m.

Lemma issues_lift {A : Type} (r : Result A) (Q : A -> Prop) :
  (forall a, r = Ok a -> Q a) -> issues [] Q (lift r).
Proof.
  intros HQ s. exists 0. split; [done |]. split.
  - simpl. by rewrite app_nil_r.
  - intros a Ha. split; [done |]. by apply HQ.
Qed.

Lemma issues_ret {A : Type} (a : A) (Q : A -> Prop) : Q a -> issues [] Q (ret a).
Proof. intros HQ. apply issues_lift. by intros ? [= <-]. Qed.

Lemma issues_at_bind {A B : Type} (s : Session) (p1 p2 : list Request)
    (Q1 : A -> Prop) (Q2 : B -> Prop) (m : M A) (k : A -> M B) :
  issues_at s p1 Q1 m ->
  (forall a, Q1 a -> issues p2 Q2 (k a)) ->
  issues_at s (p1 ++ p2) Q2 (mbind m k).
Proof.
  intros (n1 & Hn1 & Hissued & Hok) Hk. unfold issues_at, rest.mbind.
  destruct (m s) as [[a | ex] s1] eqn:Hm; simpl in Hissued, Hok.
  - destruct (Hok a eq_refl) as [-> HQ].
    destruct (Hk a HQ s1) as (n2 & Hn2 & Hissued2 & Hok2).
    exists (length p1 + n2). split; [rewrite length_app; lia |]. split.
    + rewrite Hissued2, Hissued, take_app_add, firstn_all, <- app_assoc; done.
    + intros b Hb. destruct (Hok2 b Hb) as [-> HQ2]. by rewrite length_app.
  - exists n1. split; [rewrite length_app; lia |]. split.
    + simpl. by rewrite Hissued, take_app_le.
    + intros b Hb. discriminate.
Qed.

Lemma issues_bind {A B : Type} (p1 p2 : list Request)
    (Q1 : A -> Prop) (Q2 : B -> Prop) (m : M A) (k : A -> M B) :
  issues p1 Q1 m ->
  (forall a, Q1 a -> issues p2 Q2 (k a)) ->
  issues (p1 ++ p2) Q2 (mbind m k).
Proof. intros Hm Hk s. by eapply issues_at_bind. Qed.

Lemma issues_at_reraise {A : Type} (s : Session) (plan : list Request) (Q : A -> Prop)
    (handles : Exception -> bool) (msg : Exception -> string) (m : M A) :
  issues_at s plan Q m -> issues_at s plan Q (reraise handles msg m).
Proof.
  intros (n & Hn & Hissued & Hok). unfold issues_at, rest.reraise.
  destruct (m s) as [[a | ex] s1]; simpl in Hissued, Hok.
  - exists n. simpl. split; [done | split; [done | exact Hok]].
  - exists n. destruct (handles ex); simpl;
      (split; [done | split; [done | intros a Ha; discriminate]]).
Qed.

Lemma issues_reraise {A : Type} (plan : list Request) (Q : A -> Prop)
    (handles : Exception -> bool) (msg : Exception -> string) (m : M A) :
  issues plan Q m -> issues plan Q (reraise handles msg m).
Proof. intros Hm s. by apply issues_at_reraise. Qed.

Lemma issues_request_raw (self : Requester) (method url_path : string)
    (data : option string) (params : option (gmap string Value)) :
  In method allowed_methods ->
  issues [raw_request self method url_path data params] (fun _ => True)
    (request_raw self method url_path data params).
Proof.
  intros Hm s.
  destruct (session_request (raw_request self method url_path data params) (remote s))
    as [response forge] eqn:Hr.
  unfold issues_at. rewrite (request_raw_eq _ _ _ _ _ _ _ _ _ _ Hm Hr).
  exists 1. simpl. split; [lia |]. split; [done |]. by intros a _.
Qed.

Lemma issues_request_json (self : Requester) (method url_path : string)
    (data : option Json) (params : option (gmap string Value)) :
  In method allowed_methods ->
  issues [raw_request self method url_path (option_map json_dumps data) params]
    (fun _ => True) (request_json self method url_path data params).
Proof.
  intros Hm s.
  destruct (session_request
              (raw_request self method url_path (option_map json_dumps data) params)
              (remote s)) as [response forge] eqn:Hr.
  unfold issues_at. rewrite (request_json_eq _ _ _ _ _ _ _ _ _ _ _ Hm Hr).
  exists 1. simpl. split; [lia |]. split; [done |]. by intros a _.
Qed.

Lemma issues_expect_204 (self : RestClient) (method url_path error : string) :
  In method allowed_methods ->
  issues [raw_request (_requester self) method url_path None None] (fun _ => True)
    (expect_204 self method url_path error).
Proof.
  intros Hm. unfold expect_204.
  rewrite <- (app_nil_r [raw_request _ _ _ _ _]).
  apply (issues_bind _ _ (fun _ : Response => True) (fun _ : unit => True));
    [by apply issues_request_raw |].
  intros response _. destruct (negb _); [by apply issues_lift | by apply issues_ret].
Qed.

Lemma in_PATCH : In "PATCH" allowed_methods.
Proof. simpl. auto. Qed.

Lemma in_POST : In "POST" allowed_methods.
Proof. simpl. auto. Qed.

Lemma in_DELETE : In "DELETE" allowed_methods.
Proof. simpl. auto 6. Qed.

(** *** [update_repo] *)

Definition patch_repo_request (self : RestClient) (org_id repo_name : string)
    (data : gmap string Json) : Request :=
  raw_request (_requester self) "PATCH" (repo_path org_id repo_name)
    (Some (json_dumps (dict_to_json data))) None.

Definition vulnerability_alerts_request (self : RestClient) (org_id repo_name : string)
    (enable : bool) : Request :=
  raw_request (_requester self) (if enable then "PUT" else "DELETE")
    (vulnerability_alerts_path org_id repo_name) None None.

(** The requests [update_repo] has to issue for [data]: a PATCH with every
    setting but "dependabot_alerts_enabled", when there is any, then a PUT
    or DELETE on the vulnerability alerts, when that setting is given. *)
Definition update_repo_plan (self : RestClient) (org_id repo_name : string)
    (data : gmap string Json) : list Request :=
  (if (0 <? size (delete "dependabot_alerts_enabled" data))%nat
   then [patch_repo_request self org_id repo_name
           (delete "dependabot_alerts_enabled" data)]
   else []) ++
  match data !! "dependabot_alerts_enabled" with
  | Some v => [vulnerability_alerts_request self org_id repo_name (py_bool v)]
  | None => []
  end.

Lemma issues_update_vulnerability (self : RestClient) (org_id repo_name : string)
    (enable : bool) :
  issues [vulnerability_alerts_request self org_id repo_name enable] (fun _ => True)
    (_update_vulnerability_report_for_repo self org_id repo_name enable).
Proof.
  unfold _update_vulnerability_report_for_repo, vulnerability_alerts_request.
  apply issues_expect_204. destruct enable; [apply in_PUT | apply in_DELETE].
Qed.

Lemma issues_update_repo (self : RestClient) (org_id repo_name : string)
    (data : gmap string Json) :
  issues (update_repo_plan self org_id repo_name data) (fun _ => True)
    (update_repo self org_id repo_name data).
Proof.
  unfold update_repo, update_repo_plan.
  destruct (0 <? size data)%nat eqn:Hsize.
  - apply issues_reraise.
    apply (issues_bind _ _ (fun _ : unit => True) (fun _ : unit => True)).
    + destruct (0 <? size (delete _ data))%nat.
      * rewrite <- (app_nil_r [patch_repo_request _ _ _ _]).
        apply (issues_bind _ _ (fun _ : Json => True) (fun _ : unit => True));
          [apply issues_request_json, in_PATCH |].
        intros; by apply issues_ret.
      * by apply issues_ret.
    + intros _ _. destruct (data !! "dependabot_alerts_enabled").
      * apply issues_update_vulnerability.
      * by apply issues_ret.
  - apply Nat.ltb_ge in Hsize.
    assert (data = ∅) as -> by (apply map_size_empty_iff; lia).
    rewrite delete_empty, map_size_empty, lookup_empty. simpl.
    by apply issues_ret.
Qed.

(** X4: [update_repo] issues the requests of [update_repo_plan] and nothing
    else: "dependabot_alerts_enabled" is never part of the PATCH body, a
    PATCH is sent only when another setting is given, and the alerts are
    switched by PUT (truthy value) or DELETE only when the setting is given
    and the PATCH, if any, went through.  For empty [data] nothing is sent. *)
Theorem update_repo_requests (self : RestClient) (org_id repo_name : string)
    (data : gmap string Json) :
  issues (update_repo_plan self org_id repo_name data) (fun _ => True)
    (update_repo self org_id repo_name data).
Proof. apply issues_update_repo. Qed.

(** *** Which requests a call sends, and where it may stop *)

(** Run from the session [s], [m] sends the requests of [plan] in order:
    all of them when it returns (with a result that satisfies [Q]), and at
    least the first of them when it raises. *)
Definition sends_at {A : Type} (s : Session) (plan : list Request) (Q : A -> Prop)
    (m : M A) : Prop :=
  exists n,
    n <= length plan /\
    issued (snd (m s)) = issued s ++ take n plan /\
    match fst (m s) with
    | Ok a => n = length plan /\ Q a
    | Raise _ => 0 < n
    end.

Definition sends {A : Type} (plan : list Request) (Q : A -> Prop) (m : M A) : Prop :=
  forall s, sends_at s plan Q m.

Lemma sends_ret {A : Type} (a : A) (Q : A -> Prop) : Q a -> sends [] Q (ret a).
Proof.
  intros HQ s. exists 0. split; [done |]. split; [simpl; by rewrite app_nil_r |].
  simpl. by split.
Qed.

Lemma sends_at_bind_run {A B : Type} (s : Session) (p1 p2 : list Request)
    (Q1 : A -> Prop) (Q2 : B -> Prop) (m : M A) (k : A -> M B) :
  sends_at s p1 Q1 m ->
  (forall a, fst (m s) = Ok a -> sends_at (snd (m s)) p2 Q2 (k a)) ->
  sends_at s (p1 ++ p2) Q2 (mbind m k).
Proof.
  intros (n1 & Hn1 & Hissued & Hend) Hk. unfold sends_at, rest.mbind.
  destruct (m s) as [[a | ex] s1] eqn:Hm; simpl in Hissued, Hend, Hk.
  - destruct Hend as [-> HQ].
    destruct (Hk a eq_refl) as (n2 & Hn2 & Hissued2 & Hend2).
    exists (length p1 + n2). split; [rewrite length_app; lia |]. split.
    + rewrite Hissued2, Hissued, take_app_add, firstn_all, <- app_assoc; done.
    + destruct (fst (k a s1)) as [b | ex].
      * destruct Hend2 as [-> HQ2]. by rewrite length_app.
      * lia.
  - exists n1. split; [rewrite length_app; lia |]. split.
    + simpl. by rewrite Hissued, take_app_le.
    + done.
Qed.

Lemma sends_bind {A B : Type} (p1 p2 : list Request)
    (Q1 : A -> Prop) (Q2 : B -> Prop) (m : M A) (k : A -> M B) :
  sends p1 Q1 m ->
  (forall a, Q1 a -> sends p2 Q2 (k a)) ->
  sends (p1 ++ p2) Q2 (mbind m k).
Proof.
  intros Hm Hk s. apply (sends_at_bind_run s p1 p2 Q1 Q2); [apply Hm |].
  intros a Ha. apply Hk. destruct (Hm s) as (n & _ & _ & Hend).
  rewrite Ha in Hend. by destruct Hend.
Qed.

Lemma sends_at_reraise {A : Type} (s : Session) (plan : list Request) (Q : A -> Prop)
    (handles : Exception -> bool) (msg : Exception -> string) (m : M A) :
  sends_at s plan Q m -> sends_at s plan Q (reraise handles msg m).
Proof.
  intros (n & Hn & Hissued & Hend). unfold sends_at, rest.reraise.
  destruct (m s) as [[a | ex] s1]; simpl in Hissued, Hend.
  - exists n. simpl. split; [done | split; [done | exact Hend]].
  - exists n. destruct (handles ex); simpl; (split; [done | split; done]).
Qed.

Lemma sends_reraise {A : Type} (plan : list Request) (Q : A -> Prop)
    (handles : Exception -> bool) (msg : Exception -> string) (m : M A) :
  sends plan Q m -> sends plan Q (reraise handles msg m).
Proof. intros Hm s. by apply sends_at_reraise. Qed.

Lemma sends_weaken {A : Type} (plan : list Request) (Q Q' : A -> Prop) (m : M A) :
  (forall a, Q a -> Q' a) -> sends plan Q m -> sends plan Q' m.
Proof.
  intros HQ Hm s. destruct (Hm s) as (n & Hn & Hissued & Hend).
  exists n. split; [done |]. split; [done |].
  destruct (fst (m s)); [| done]. destruct Hend as [Hall Ha]. split; [done | by apply HQ].
Qed.

Lemma sends_at_lift_bind {A B : Type} (s : Session) (plan : list Request)
    (Q : B -> Prop) (r : Result A) (a : A) (k : A -> M B) :
  r = Ok a -> sends_at s plan Q (k a) -> sends_at s plan Q (mbind (lift r) k).
Proof. intros -> Hk. exact Hk. Qed.

Lemma sends_request_json (self : Requester) (method url_path : string)
    (data : option Json) (params : option (gmap string Value)) :
  In method allowed_methods ->
  sends [raw_request self method url_path (option_map json_dumps data) params]
    (fun _ => True) (request_json self method url_path data params).
Proof.
  intros Hm s.
  destruct (session_request
              (raw_request self method url_path (option_map json_dumps data) params)
              (remote s)) as [response forge] eqn:Hr.
  unfold sends_at. rewrite (request_json_eq _ _ _ _ _ _ _ _ _ _ _ Hm Hr).
  exists 1. simpl. split; [lia |]. split; [done |].
  destruct (bind (_check_response response) _); [done | lia].
Qed.

Lemma sends_expect_204 (self : RestClient) (method url_path error : string) :
  In method allowed_methods ->
  sends [raw_request (_requester self) method url_path None None] (fun _ => True)
    (expect_204 self method url_path error).
Proof.
  intros Hm s.
  destruct (session_request (raw_request (_requester self) method url_path None None)
              (remote s)) as [response forge] eqn:Hr.
  unfold sends_at, expect_204, rest.mbind.
  rewrite (request_raw_eq _ _ _ _ _ _ _ _ _ _ Hm Hr).
  exists 1. split; [simpl; lia |].
  destruct (negb (status_code response =? 204)%Z); simpl; (split; [done |]); [lia | done].
Qed.

Lemma sends_update_repo (self : RestClient) (org_id repo_name : string)
    (data : gmap string Json) :
  sends (update_repo_plan self org_id repo_name data) (fun _ => True)
    (update_repo self org_id repo_name data).
Proof.
  unfold update_repo, update_repo_plan.
  destruct (0 <? size data)%nat eqn:Hsize.
  - apply sends_reraise.
    apply (sends_bind _ _ (fun _ : unit => True) (fun _ : unit => True)).
    + destruct (0 <? size (delete _ data))%nat.
      * rewrite <- (app_nil_r [patch_repo_request _ _ _ _]).
        apply (sends_bind _ _ (fun _ : Json => True) (fun _ : unit => True));
          [apply sends_request_json, in_PATCH |].
        intros; by apply sends_ret.
      * by apply sends_ret.
    + intros _ _. destruct (data !! "dependabot_alerts_enabled").
      * unfold _update_vulnerability_report_for_repo, vulnerability_alerts_request.
        apply sends_expect_204. destruct (py_bool j); [apply in_PUT | apply in_DELETE].
      * by apply sends_ret.
  - apply Nat.ltb_ge in Hsize.
    assert (data = ∅) as -> by (apply map_size_empty_iff; lia).
    rewrite delete_empty, map_size_empty, lookup_empty. simpl.
    by apply sends_ret.
Qed.

(** After the requests of [sent], all answered so that the call goes on, [m]
    sends the requests of [plan] as [sends_at] says. *)
Definition then_sends_at {A : Type} (s : Session) (sent plan : list Request) (m : M A) :
    Prop :=
  exists n,
    n <= length plan /\
    issued (snd (m s)) = issued s ++ sent ++ take n plan /\
    match fst (m s) with
    | Ok _ => n = length plan
    | Raise _ => 0 < n
    end.

Lemma then_sends_base {A : Type} (s : Session) (plan : list Request) (Q : A -> Prop)
    (m : M A) :
  sends_at s plan Q m -> then_sends_at s [] plan m.
Proof.
  intros (n & Hn & Hissued & Hend). exists n. split; [done |]. split; [done |].
  destruct (fst (m s)); [by destruct Hend | done].
Qed.

Lemma then_sends_step {A B : Type} (s s1 : Session) (sent1 sent2 plan : list Request)
    (m : M A) (k : A -> M B) (a : A) :
  m s = (Ok a, s1) ->
  issued s1 = issued s ++ sent1 ->
  then_sends_at s1 sent2 plan (k a) ->
  then_sends_at s (sent1 ++ sent2) plan (mbind m k).
Proof.
  intros Hm Hsent (n & Hn & Hissued & Hend). exists n.
  unfold rest.mbind. rewrite Hm. split; [done |]. split; [| done].
  by rewrite Hissued, Hsent, <- !app_assoc.
Qed.

Lemma then_sends_reraise {A : Type} (s : Session) (sent plan : list Request)
    (handles : Exception -> bool) (msg : Exception -> string) (m : M A) :
  then_sends_at s sent plan m -> then_sends_at s sent plan (reraise handles msg m).
Proof.
  intros (n & Hn & Hissued & Hend). exists n. unfold rest.reraise.
  destruct (m s) as [[a | ex] s1]; simpl in *; [done |].
  by destruct (handles ex).
Qed.

(** X5: with "dependabot_alerts_enabled" as the only setting, [update_repo]
    sends no PATCH but exactly one request on the vulnerability alerts, PUT
    when the value is truthy and DELETE otherwise, and any status other than
    204 (a 200 as well) makes it raise [RuntimeError]. *)
Theorem update_repo_only_alerts (self : RestClient) (org_id repo_name : string)
    (v : Json) (s : Session) (response : Response) (forge : Forge) :
  session_request (vulnerability_alerts_request self org_id repo_name (py_bool v))
    (remote s) = (response, forge) ->
  update_repo self org_id repo_name {["dependabot_alerts_enabled" := v]} s =
  ((if (status_code response =? 204)%Z then Ok tt
    else Raise (RuntimeError ("failed to update vulnerability_reports for repo '" +:+
                              repo_name +:+ "'"))),
   {| remote := forge;
      issued := issued s ++
                [vulnerability_alerts_request self org_id repo_name (py_bool v)] |}).
Proof.
  intros Hr. unfold update_repo.
  rewrite map_size_singleton, lookup_singleton_eq, delete_singleton_eq, map_size_empty.
  simpl. unfold rest.reraise, rest.mbind, rest.ret.
  unfold _update_vulnerability_report_for_repo, expect_204, rest.mbind.
  assert (Hm : In (if py_bool v then "PUT" else "DELETE") allowed_methods)
    by (destruct (py_bool v); [apply in_PUT | apply in_DELETE]).
  rewrite (request_raw_eq _ _ _ _ _ _ _ _ _ _ Hm Hr).
  by destruct (status_code response =? 204)%Z.
Qed.

(** *** [get_repo_data] *)

Lemma assoc_set_eq (key : string) (v : Json) (members : list (string * Json)) :
  assoc key (assoc_set key v members) = Some v.
Proof.
  induction members as [|[k x] members IH]; simpl.
  - by rewrite String.eqb_refl.
  - destruct (String.eqb k key) eqn:Hk; simpl; by rewrite Hk.
Qed.

Lemma assoc_set_ne (key other : string) (v : Json) (members : list (string * Json)) :
  other <> key -> assoc other (assoc_set key v members) = assoc other members.
Proof.
  intros Hne. induction members as [|[k x] members IH]; simpl.
  - apply String.eqb_neq in Hne. by rewrite String.eqb_sym, Hne.
  - destruct (String.eqb k key) eqn:Hk; simpl.
    + apply String.eqb_eq in Hk as ->.
      assert (String.eqb key other = false) as ->; [| done].
      apply String.eqb_neq. congruence.
    + by rewrite IH.
Qed.

Lemma get_repo_data_eq (self : RestClient) (org_id repo_name : string)
    (s : Session) (response1 response2 : Response) (forge1 forge2 : Forge)
    (members : list (string * Json)) :
  let get_repo := raw_request (_requester self) "GET" (repo_path org_id repo_name)
                    None None in
  let get_alerts := raw_request (_requester self) "GET"
                      (vulnerability_alerts_path org_id repo_name) None None in
  session_request get_repo (remote s) = (response1, forge1) ->
  (status_code response1 < 400)%Z ->
  json response1 = Ok (JObj members) ->
  session_request get_alerts forge1 = (response2, forge2) ->
  get_repo_data self org_id repo_name s =
  (Ok (JObj (assoc_set "dependabot_alerts_enabled"
               (JBool (status_code response2 =? 204)%Z) members)),
   {| remote := forge2; issued := issued s ++ [get_repo; get_alerts] |}).
Proof.
  intros get_repo get_alerts Hr1 Hlt Hj Hr2.
  unfold get_repo_data, rest.reraise, rest.mbind.
  rewrite (request_json_eq _ _ _ _ _ _ None None _ _ _ in_GET Hr1).
  unfold _check_response. apply Z.leb_gt in Hlt. rewrite Hlt. simpl. rewrite Hj.
  unfold _fill_vulnerability_report_for_repo, rest.mbind.
  erewrite request_raw_eq; [| apply in_GET | exact Hr2].
  simpl. rewrite <- app_assoc. by destruct (status_code response2 =? 204)%Z.
Qed.

(** X6: [get_repo_data] reads the repository and then its vulnerability
    alerts; in the document it returns, "dependabot_alerts_enabled" is [True]
    exactly when the second response has status 204, whatever the repository
    document said and whatever the other status is (a refused request reads
    as [False], it does not raise); every other key is as the forge sent
    it. *)
Theorem get_repo_data_alerts (self : RestClient) (org_id repo_name : string)
    (s : Session) (response1 response2 : Response) (forge1 forge2 : Forge)
    (members : list (string * Json)) :
  let get_repo := raw_request (_requester self) "GET" (repo_path org_id repo_name)
                    None None in
  let get_alerts := raw_request (_requester self) "GET"
                      (vulnerability_alerts_path org_id repo_name) None None in
  session_request get_repo (remote s) = (response1, forge1) ->
  (status_code response1 < 400)%Z ->
  json response1 = Ok (JObj members) ->
  session_request get_alerts forge1 = (response2, forge2) ->
  exists repo_data,
    get_repo_data self org_id repo_name s =
    (Ok repo_data, {| remote := forge2; issued := issued s ++ [get_repo; get_alerts] |}) /\
    py_getitem repo_data "dependabot_alerts_enabled"
      = Ok (JBool (status_code response2 =? 204)%Z) /\
    forall key, key <> "dependabot_alerts_enabled" ->
      py_getitem repo_data key = py_getitem (JObj members) key.
Proof.
  intros get_repo get_alerts Hr1 Hlt Hj Hr2.
  exists (JObj (assoc_set "dependabot_alerts_enabled"
                  (JBool (status_code response2 =? 204)%Z) members)).
  split; [| split].
  - by apply (get_repo_data_eq self org_id repo_name s response1 response2 forge1 forge2).
  - simpl. by rewrite assoc_set_eq.
  - intros key Hne. simpl. by rewrite assoc_set_ne.
Qed.

(** *** [_remove_already_active_settings] *)

(** The forge reports for [key] a value equal to [expected]. *)
Definition already_active (members : list (string * Json)) (key : string)
    (expected : Json) : bool :=
  match assoc key members with
  | Some current => py_eq current expected
  | None => false
  end.

Lemma remove_active_keys_dict (members : list (string * Json)) (keys : list string) :
  NoDup keys ->
  forall update_data : gmap string Json,
    (forall key, key ∈ keys -> is_Some (update_data !! key)) ->
    exists result,
      remove_active_keys (JObj members) keys update_data = Ok result /\
      forall key,
        result !! key =
        if decide (key ∈ keys) then
          match update_data !! key with
          | Some v => if already_active members key v then None else Some v
          | None => None
          end
        else update_data !! key.
Proof.
  induction 1 as [|k keys Hk Hnodup IH]; intros update_data Hdom.
  - exists update_data. split; [done |]. intros key.
    rewrite decide_False; [done | apply not_elem_of_nil].
  - destruct (Hdom k) as [v Hv]; [left |].
    assert (Hstep : exists next,
               remove_if_active (JObj members) update_data k = Ok next /\
               next = if already_active members k v then delete k update_data
                      else update_data).
    { unfold remove_if_active, already_active. simpl.
      destruct (assoc k members) as [current|]; simpl.
      - rewrite Hv. simpl. destruct (py_eq current v); by eexists.
      - by eexists. }
    destruct Hstep as (next & Hstep & Hnext).
    destruct (IH next) as (result & Hrun & Hres).
    { intros key Hin. destruct (Hdom key) as [w Hw]; [by right |].
      assert (key <> k) by (intros ->; contradiction).
      subst next. destruct (already_active members k v);
        [rewrite lookup_delete_ne by done |]; by rewrite Hw. }
    exists result. split.
    + simpl. by rewrite Hstep.
    + intros key. rewrite Hres.
      destruct (decide (key = k)) as [-> | Hne].
      * rewrite decide_False by done. rewrite decide_True by left.
        subst next. rewrite Hv.
        destruct (already_active members k v);
          [by rewrite lookup_delete_eq | done].
      * assert (Hlook : next !! key = update_data !! key).
        { subst next. destruct (already_active members k v);
            [by rewrite lookup_delete_ne |]; done. }
        rewrite Hlook.
        destruct (decide (key ∈ keys)) as [Hin | Hnin].
        -- rewrite decide_True by (by right). done.
        -- rewrite decide_False; [done |].
           intros [-> | Hin]%elem_of_cons; contradiction.
Qed.

Lemma remove_already_active_settings_lookup (update_data : gmap string Json)
    (members : list (string * Json)) :
  exists result,
    _remove_already_active_settings update_data (JObj members) = Ok result /\
    forall key,
      result !! key =
      match update_data !! key with
      | Some v => if already_active members key v then None else Some v
      | None => None
      end.
Proof.
  unfold _remove_already_active_settings.
  destruct (remove_active_keys_dict members (map_to_list update_data).*1
              (NoDup_fst_map_to_list update_data) update_data) as (result & Hrun & Hres).
  { intros key [[k v] [-> Hin]]%list_elem_of_fmap.
    apply elem_of_map_to_list in Hin. by eexists. }
  exists result. split; [done |]. intros key. rewrite Hres.
  destruct (update_data !! key) as [v|] eqn:Hv.
  - rewrite decide_True; [done |].
    apply list_elem_of_fmap. exists (key, v). split; [done |].
    by apply elem_of_map_to_list.
  - by destruct (decide _).
Qed.

(** The settings of [update_data] that the forge does not report with an
    equal value. *)
Definition not_yet_active (members : list (string * Json))
    (update_data : gmap string Json) : gmap string Json :=
  filter (fun kv => already_active members kv.1 kv.2 = false) update_data.

Lemma remove_already_active_settings_eq (update_data : gmap string Json)
    (members : list (string * Json)) :
  _remove_already_active_settings update_data (JObj members) =
  Ok (not_yet_active members update_data).
Proof.
  destruct (remove_already_active_settings_lookup update_data members)
    as (result & -> & Hres).
  f_equal. apply map_eq. intros key. rewrite Hres. apply option_eq. intros v.
  unfold not_yet_active. rewrite map_lookup_filter_Some. simpl.
  destruct (update_data !! key) as [w|].
  - destruct (already_active members key w) eqn:Hactive.
    + split; [discriminate |]. intros [[= <-] Hv]. congruence.
    + split; [intros [= <-]; done | by intros [? _]].
  - split; [discriminate | by intros [? _]].
Qed.

(** X7: measured against the document of the forge,
    [_remove_already_active_settings] drops from [update_data] exactly the
    settings for which the forge reports an equal value, and leaves every
    other setting (one the forge does not report as well) as it was. *)
Theorem remove_already_active_settings_dict (update_data : gmap string Json)
    (members : list (string * Json)) :
  exists result,
    _remove_already_active_settings update_data (JObj members) = Ok result /\
    forall key,
      result !! key =
      match update_data !! key with
      | Some v => if already_active members key v then None else Some v
      | None => None
      end.
Proof. apply remove_already_active_settings_lookup. Qed.

(** *** [add_webhook] *)

Definition add_webhook_request (self : RestClient) (org_id : string)
    (data : gmap string Json) : Request :=
  raw_request (_requester self) "POST" ("/orgs/" +:+ org_id +:+ "/hooks")
    (Some (json_dumps (dict_to_json (<["name" := JStr "web"]> data)))) None.

(** X8: [add_webhook] reads [data["config"]["url"]] first: without it the
    call raises ([KeyError] for a missing key) and sends nothing.  Otherwise
    it sends one POST whose body is [data] with "name" set to "web",
    whatever name the caller gave. *)
Theorem add_webhook_request_body (self : RestClient) (org_id : string)
    (data : gmap string Json) (s : Session) :
  (data !! "config" = None ->
     add_webhook self org_id data s = (Raise (KeyError "config"), s)) /\
  (forall config ex,
     data !! "config" = Some config -> py_getitem config "url" = Raise ex ->
     add_webhook self org_id data s = (Raise ex, s)) /\
  (forall config url,
     data !! "config" = Some config -> py_getitem config "url" = Ok url ->
     (exists outcome,
        add_webhook self org_id data s =
        (outcome,
         {| remote := snd (session_request (add_webhook_request self org_id data)
                             (remote s));
            issued := issued s ++ [add_webhook_request self org_id data] |})) /\
     (<["name" := JStr "web"]> data : gmap string Json) !! "name" = Some (JStr "web")).
Proof.
  unfold add_webhook. split; [| split].
  - by intros ->.
  - intros config ex -> Hurl. simpl. by rewrite Hurl.
  - intros config url -> Hurl. simpl. rewrite Hurl.
    split; [| apply lookup_insert_eq].
    unfold rest.reraise, rest.mbind.
    destruct (session_request (add_webhook_request self org_id data) (remote s))
      as [response forge] eqn:Hr.
    rewrite (request_json_eq _ _ _ _ _ _ (Some _) None _ _ _ in_POST Hr).
    fold (add_webhook_request self org_id data).
    destruct (bind (_check_response response) _) as [? | ex]; simpl.
    + by eexists.
    + destruct (rest.is_GitHubException _ ex); by eexists.
Qed.

(** *** [add_repo] *)

Lemma collect_lookup (keys : list string) (update_data data : gmap string Json)
    (key : string) :
  let moved :=
    fold_left (fun '(update_data, data) update_key =>
                 match data !! update_key with
                 | Some v => (<[update_key := v]> update_data, delete update_key data)
                 | None => (update_data, data)
                 end)
              keys (update_data, data) in
  moved.1 !! key =
    (if decide (key ∈ keys)
     then match data !! key with Some v => Some v | None => update_data !! key end
     else update_data !! key) /\
  moved.2 !! key = (if decide (key ∈ keys) then None else data !! key).
Proof.
  revert update_data data.
  induction keys as [|k keys IH]; intros update_data data; cbv zeta; cbn [fold_left].
  - rewrite decide_False by apply not_elem_of_nil. done.
  - assert (Hcons : forall X (x y : X),
              key <> k ->
              (if decide (key ∈ k :: keys) then x else y) =
              (if decide (key ∈ keys) then x else y)).
    { intros X x y Hne. destruct (decide (key ∈ keys)) as [Hin | Hnin].
      - by rewrite decide_True by (by right).
      - rewrite decide_False; [done |].
        intros [-> | Hin]%elem_of_cons; contradiction. }
    assert (Hhere : forall X (x y : X),
              (if decide (k ∈ k :: keys) then x else y) = x).
    { intros X x y. by rewrite decide_True by left. }
    destruct (data !! k) as [v|] eqn:Hk.
    + destruct (IH (<[k := v]> update_data) (delete k data)) as [IH1 IH2].
      rewrite IH1, IH2. destruct (decide (key = k)) as [-> | Hne].
      * rewrite !Hhere, lookup_delete_eq, lookup_insert_eq, Hk.
        by destruct (decide (k ∈ keys)).
      * rewrite !Hcons by done. by rewrite lookup_delete_ne, lookup_insert_ne by done.
    + destruct (IH update_data data) as [IH1 IH2].
      rewrite IH1, IH2. destruct (decide (key = k)) as [-> | Hne].
      * rewrite !Hhere, Hk. by destruct (decide (k ∈ keys)).
      * by rewrite !Hcons by done.
Qed.

(** The settings [add_repo] applies only after the creation. *)
Definition deferred_settings (data : gmap string Json) : gmap string Json :=
  filter (fun kv => kv.1 ∈ update_keys) data.

Lemma collect_update_data_fst (data : gmap string Json) :
  (collect_update_data data).1 = deferred_settings data.
Proof.
  apply map_eq. intros key. unfold collect_update_data.
  destruct (collect_lookup update_keys ∅ data key) as [-> _].
  apply option_eq. intros v. unfold deferred_settings.
  rewrite map_lookup_filter_Some, lookup_empty. simpl.
  destruct (decide (key ∈ update_keys)) as [Hin | Hnin].
  - destruct (data !! key) as [w|].
    + split; [by intros [= <-] | by intros [? _]].
    + split; [discriminate | by intros [? _]].
  - split; [discriminate | by intros [_ ?]].
Qed.

(** The body of the request by which [add_repo] creates a repository that
    has no template. *)
Definition create_repo_body (data : gmap string Json) (auto_init_repo : bool) :
    gmap string Json :=
  <["auto_init" := JBool auto_init_repo]> (collect_update_data data).2.

Definition create_repo_request (self : RestClient) (org_id : string)
    (data : gmap string Json) (auto_init_repo : bool) : Request :=
  raw_request (_requester self) "POST" ("/orgs/" +:+ org_id +:+ "/repos")
    (Some (json_dumps (dict_to_json (create_repo_body data auto_init_repo)))) None.

(** X9: the body with which [add_repo] creates a repository without a
    template carries [auto_init] as given by the argument (a value of the
    caller under that key is overwritten), none of the three settings that
    are applied after the creation, and every other entry of [data]
    unchanged. *)
Theorem create_repo_body_lookup (data : gmap string Json) (auto_init_repo : bool)
    (key : string) :
  create_repo_body data auto_init_repo !! key =
  if decide (key = "auto_init") then Some (JBool auto_init_repo)
  else if decide (key ∈ update_keys) then None
  else data !! key.
Proof.
  unfold create_repo_body. destruct (decide (key = "auto_init")) as [-> | Hne].
  - apply lookup_insert_eq.
  - rewrite lookup_insert_ne by done. unfold collect_update_data.
    by destruct (collect_lookup update_keys ∅ data key) as [_ ->].
Qed.

(** X10: without a template, [add_repo] creates the repository by one POST;
    when that is accepted with a JSON object as answer, the requests of
    [update_repo] follow for exactly those deferred settings whose value
    differs from what the answer reports (or that it does not report), and
    nothing else is sent.  All of these requests are sent when the call
    returns; when it raises, it has sent the first of them at least. *)
Theorem add_repo_requests (self : RestClient) (org_id : string)
    (data : gmap string Json) (repo_name : Json) (template_repository : Value)
    (auto_init_repo : bool) (s : Session) (response : Response) (forge : Forge)
    (members : list (string * Json)) :
  data !! "name" = Some repo_name ->
  is_set_and_valid template_repository = false ->
  session_request (create_repo_request self org_id data auto_init_repo) (remote s)
    = (response, forge) ->
  (status_code response < 400)%Z ->
  json response = Ok (JObj members) ->
  let updates :=
    update_repo_plan self org_id (text_of repo_name)
      (not_yet_active members (deferred_settings data)) in
  let run := add_repo self org_id data template_repository auto_init_repo s in
  exists n,
    n <= length updates /\
    issued (snd run) =
      issued s ++ [create_repo_request self org_id data auto_init_repo] ++ take n updates /\
    match fst run with
    | Ok _ => n = length updates
    | Raise _ => 0 < n
    end.
Proof.
  intros Hname Hvalid Hr Hlt Hj updates run. subst updates run.
  unfold add_repo. rewrite Hname, Hvalid.
  rewrite <- collect_update_data_fst.
  unfold create_repo_request, create_repo_body in *.
  destruct (collect_update_data data) as [update_data rest_data]. simpl fst. simpl snd.
  simpl in Hr.
  apply then_sends_reraise.
  rewrite <- (app_nil_r [raw_request _ _ _ _ _]).
  eapply then_sends_step.
  - rewrite (request_json_eq _ _ _ _ _ _ (Some _) None _ _ _ in_POST Hr).
    unfold _check_response. apply Z.leb_gt in Hlt. rewrite Hlt. simpl. rewrite Hj.
    reflexivity.
  - reflexivity.
  - apply (then_sends_base _ _ (fun _ : unit => True)).
    apply (sends_at_lift_bind _ _ _ _ _ _
             (remove_already_active_settings_eq update_data members)).
    apply sends_update_repo.
Qed.

Definition generate_request (self : RestClient) (org_id : string) (repo_name : Json)
    (template_owner template_repo : string) : Request :=
  raw_request (_requester self) "POST"
    ("/repos/" +:+ template_owner +:+ "/" +:+ template_repo +:+ "/generate")
    (Some (json_dumps (template_data org_id repo_name))) None.

(** X11: with a template "owner/repo", [add_repo] asks the forge to generate
    the repository (always as a public one, whatever [data] says) and reads
    the new repository and its vulnerability alerts back; when these three
    requests are answered, the requests of [update_repo] follow for exactly
    those entries of [data] (its "name" included) whose value differs from
    what was read back.  All of them are sent when the call returns; when it
    raises, it has sent the first of them at least.  [auto_init_repo] plays
    no part. *)
Theorem add_repo_from_template_requests (self : RestClient) (org_id : string)
    (data : gmap string Json) (repo_name : Json) (template : string)
    (template_owner template_repo : string)
    (auto_init_repo : bool) (s : Session) (generated response1 response2 : Response)
    (forge0 forge1 forge2 : Forge) (members : list (string * Json)) :
  let name := text_of repo_name in
  let generate := generate_request self org_id repo_name template_owner template_repo in
  let get_repo := raw_request (_requester self) "GET" (repo_path org_id name) None None in
  let get_alerts := raw_request (_requester self) "GET"
                      (vulnerability_alerts_path org_id name) None None in
  data !! "name" = Some repo_name ->
  split_once template = Some (template_owner, template_repo) ->
  session_request generate (remote s) = (generated, forge0) ->
  (status_code generated < 400)%Z ->
  (exists document, json generated = Ok document) ->
  session_request get_repo forge0 = (response1, forge1) ->
  (status_code response1 < 400)%Z ->
  json response1 = Ok (JObj members) ->
  session_request get_alerts forge1 = (response2, forge2) ->
  let updates :=
    update_repo_plan self org_id name
      (not_yet_active
         (assoc_set "dependabot_alerts_enabled"
            (JBool (status_code response2 =? 204)%Z) members)
         data) in
  let run := add_repo self org_id data (PyStr template) auto_init_repo s in
  exists n,
    n <= length updates /\
    issued (snd run) = issued s ++ [generate; get_repo; get_alerts] ++ take n updates /\
    match fst run with
    | Ok _ => n = length updates
    | Raise _ => 0 < n
    end.
Proof.
  intros name generate get_repo get_alerts Hname Hsplit Hr0 Hlt0 [document Hj0]
    Hr1 Hlt1 Hj1 Hr2 updates run. subst updates run.
  unfold add_repo. rewrite Hname, Hsplit. simpl is_set_and_valid. cbv iota.
  apply then_sends_reraise.
  change [generate; get_repo; get_alerts] with ([generate] ++ [get_repo; get_alerts] ++ []).
  eapply then_sends_step.
  - rewrite (request_json_eq _ _ _ _ _ _ (Some _) None _ _ _ in_POST Hr0).
    unfold _check_response. apply Z.leb_gt in Hlt0. rewrite Hlt0. simpl. rewrite Hj0.
    reflexivity.
  - reflexivity.
  - eapply then_sends_step.
    + apply (get_repo_data_eq self org_id name
               {| remote := forge0; issued := issued s ++ [generate] |}
               response1 response2 forge1 forge2 members Hr1 Hlt1 Hj1 Hr2).
    + cbn [issued]. reflexivity.
    + apply (then_sends_base _ _ (fun _ : unit => True)).
      apply (sends_at_lift_bind _ _ _ _ _ _
               (remove_already_active_settings_eq data _)).
      apply sends_update_repo.
Qed.

(** *** [update_security_managers] *)

Lemma set_contains_str (current : list string) (team_slug : string) :
  set_contains (map JStr current) (JStr team_slug) = bool_decide (team_slug ∈ current).
Proof.
  unfold set_contains. induction current as [|t current IH]; cbn [map existsb].
  - done.
  - rewrite IH. change (py_eq (JStr team_slug) (JStr t)) with (String.eqb team_slug t).
    destruct (String.eqb team_slug t) eqn:Ht; simpl.
    + apply String.eqb_eq in Ht as ->. symmetry. apply bool_decide_eq_true. left.
    + apply String.eqb_neq in Ht. apply bool_decide_ext.
      rewrite elem_of_cons. split; [by right | by intros [? | ?]].
Qed.

Lemma set_remove_str (current : list string) (team_slug : string) :
  set_remove (map JStr current) (JStr team_slug) =
  map JStr (filter (fun t => t <> team_slug) current).
Proof.
  unfold set_remove. induction current as [|t current IH]; cbn [map List.filter].
  - done.
  - rewrite filter_cons.
    change (py_eq (JStr team_slug) (JStr t)) with (String.eqb team_slug t).
    destruct (String.eqb team_slug t) eqn:Ht; cbn [negb].
    + apply String.eqb_eq in Ht as ->.
      rewrite decide_False by (intros Hne; by apply Hne). exact IH.
    + apply String.eqb_neq in Ht.
      rewrite decide_True by (intros ->; by apply Ht).
      cbn [map]. by rewrite IH.
Qed.

Lemma set_of_str (items elements : list string) :
  NoDup (elements ++ items) ->
  set_of (map JStr items) (map JStr elements) = Ok (map JStr (elements ++ items)).
Proof.
  revert elements. induction items as [|x items IH]; intros elements Hnodup; simpl.
  - by rewrite app_nil_r.
  - rewrite set_contains_str. rewrite bool_decide_eq_false_2.
    + change [JStr x] with (map JStr [x]). rewrite <- map_app.
      rewrite IH; rewrite <- app_assoc; done.
    + apply NoDup_app in Hnodup as (_ & Hdisjoint & _).
      intros Hin. apply (Hdisjoint x Hin). left.
Qed.

Lemma filter_ext_in {A : Type} (P1 P2 : A -> Prop)
    `{forall x, Decision (P1 x)} `{forall x, Decision (P2 x)} (l : list A) :
  (forall x, x ∈ l -> (P1 x <-> P2 x)) -> filter P1 l = filter P2 l.
Proof.
  induction l as [|a l IH]; intros Hiff; [done |].
  rewrite !filter_cons.
  rewrite IH by (intros x Hx; apply Hiff; by right).
  destruct (decide (P1 a)) as [H1 | H1], (decide (P2 a)) as [H2 | H2];
    try done; exfalso; apply (Hiff a (list_elem_of_here _ _)) in H1 || apply H1;
    (done || by apply (Hiff a (list_elem_of_here _ _))).
Qed.

Definition put_team_request (self : RestClient) (org_id team_slug : string) : Request :=
  raw_request (_requester self) "PUT" (security_manager_team_path org_id team_slug)
    None None.

Definition delete_team_request (self : RestClient) (org_id team_slug : string) : Request :=
  raw_request (_requester self) "DELETE" (security_manager_team_path org_id team_slug)
    None None.

Lemma sends_add_missing_teams (self : RestClient) (org_id : string)
    (security_managers : list string) :
  NoDup security_managers ->
  forall current : list string,
    sends
      (map (put_team_request self org_id)
         (filter (fun t => t ∉ current) security_managers))
      (fun left => left = map JStr (filter (fun t => t ∉ security_managers) current))
      (add_missing_teams self org_id security_managers (map JStr current)).
Proof.
  induction 1 as [|team_slug security_managers Hnotin Hnodup IH]; intros current; simpl.
  - apply sends_ret. f_equal. symmetry. induction current as [|t current IHc].
    + done.
    + rewrite filter_cons, decide_True by apply not_elem_of_nil. by f_equal.
  - rewrite set_contains_str, filter_cons. destruct (decide (team_slug ∈ current)) as [Hin | Hnin].
    + rewrite bool_decide_eq_true_2 by done.
      rewrite decide_False by (intros Hn; contradiction).
      rewrite set_remove_str.
      assert (Hplan : filter (fun t => t ∉ current) security_managers =
                      filter (fun t => t ∉ filter (fun t => t <> team_slug) current)
                        security_managers).
      { apply filter_ext_in. intros t Ht.
        rewrite list_elem_of_filter.
        assert (t <> team_slug) by (intros ->; contradiction).
        split; [intros Hn [_ ?]; by apply Hn | intros Hn ?; by apply Hn]. }
      rewrite Hplan. eapply sends_weaken; [| apply IH].
      intros left ->. f_equal. rewrite list_filter_filter.
      apply list_filter_iff. intros t. rewrite elem_of_cons.
      split.
      * intros [Hn Hne] [-> | ?]; [by apply Hne | by apply Hn].
      * intros Hn. split; [intros ?; apply Hn; by right | intros ->; apply Hn; by left].
    + rewrite bool_decide_eq_false_2 by done. rewrite decide_True by done.
      simpl.
      change (put_team_request self org_id team_slug :: ?l)
        with ([put_team_request self org_id team_slug] ++ l).
      apply (sends_bind _ _ (fun _ : unit => True) _).
      * apply sends_expect_204, in_PUT.
      * intros _ _. eapply sends_weaken; [| apply IH].
        intros left ->. f_equal.
        apply filter_ext_in. intros t Ht. rewrite elem_of_cons.
        assert (t <> team_slug) by (intros ->; contradiction).
        split; [intros Hn [? | ?]; [done | by apply Hn] | intros Hn ?; apply Hn; by right].
Qed.

Lemma sends_remove_left_teams (self : RestClient) (org_id : string)
    (left : list string) :
  sends (map (delete_team_request self org_id) left) (fun _ => True)
    (remove_left_teams self org_id (map JStr left)).
Proof.
  induction left as [|team_slug left IH]; simpl.
  - by apply sends_ret.
  - change (delete_team_request self org_id team_slug :: ?l)
      with ([delete_team_request self org_id team_slug] ++ l).
    apply (sends_bind _ _ (fun _ : unit => True) (fun _ : unit => True)).
    + apply sends_expect_204, in_DELETE.
    + intros _ _. apply IH.
Qed.

(** X12: when the forge lists the teams [current] as security managers,
    [update_security_managers] reconciles them with the wanted teams: after
    the listing it PUTs every wanted team that is not a manager yet, in the
    order given, then DELETEs the managers that are not wanted, each once,
    in the order in which the set happens to be iterated, and sends nothing
    for a team that is both.  All of these requests are sent when the call
    returns; when it raises, it has sent the first of them at least.  (No
    team is named twice in either list.) *)
Theorem update_security_managers_reconciles (self : RestClient) (org_id : string)
    (security_managers current : list string) (s : Session)
    (response : Response) (forge : Forge) (teams : Json) :
  let listing := raw_request (_requester self) "GET" (security_managers_path org_id)
                   None None in
  (forall elements, Permutation (set_order elements) elements) ->
  NoDup security_managers ->
  NoDup current ->
  session_request listing (remote s) = (response, forge) ->
  (status_code response < 400)%Z ->
  json response = Ok teams ->
  bind (py_iterate teams) (map_result (fun x => py_getitem x "slug"))
    = Ok (map JStr current) ->
  let run := update_security_managers self org_id security_managers s in
  exists removed n,
    Permutation removed (filter (fun t => t ∉ security_managers) current) /\
    let changes :=
      map (put_team_request self org_id)
        (filter (fun t => t ∉ current) security_managers) ++
      map (delete_team_request self org_id) removed in
    n <= length changes /\
    issued (snd run) = issued s ++ [listing] ++ take n changes /\
    match fst run with
    | Ok _ => n = length changes
    | Raise _ => 0 < n
    end.
Proof.
  intros listing Horder Hwanted Hcurrent Hr Hlt Hj Hslugs run. subst run.
  assert (Hlist : list_security_managers self org_id s =
                  (Ok (map JStr current),
                   {| remote := forge; issued := issued s ++ [listing] |})).
  { unfold list_security_managers, rest.reraise, rest.mbind.
    rewrite (request_json_eq _ _ _ _ _ _ None None _ _ _ in_GET Hr).
    unfold _check_response. apply Z.leb_gt in Hlt. rewrite Hlt. simpl. rewrite Hj.
    unfold rest.lift. by rewrite Hslugs. }
  destruct (Permutation_map_inv JStr
              (filter (fun t => t ∉ security_managers) current) (Horder _))
    as (removed & Hremoved & Hperm).
  exists removed. cbv zeta.
  assert (Hthen : then_sends_at s ([listing] ++ [])
            (map (put_team_request self org_id)
               (filter (fun t => t ∉ current) security_managers) ++
             map (delete_team_request self org_id) removed)
            (update_security_managers self org_id security_managers)).
  { unfold update_security_managers. eapply then_sends_step; [exact Hlist | reflexivity |].
    apply (then_sends_base _ _ (fun _ : unit => True)).
    apply (sends_at_lift_bind _ _ _ _ _ _ (set_of_str current [] Hcurrent)).
    simpl.
    apply (sends_bind _ _ _ (fun _ : unit => True)
             _ _ (sends_add_missing_teams self org_id _ Hwanted current)).
    intros left ->. rewrite Hremoved. apply sends_remove_left_teams. }
  destruct Hthen as (n & Hn & Hissued & Hend).
  exists n. split; [by symmetry |]. split; [done |]. split; [| done].
  by rewrite Hissued.
Qed.

(** *** [get_repos] *)

Definition repos_path (org_id : string) : string := "/orgs/" +:+ org_id +:+ "/repos".

(** The local [params = {"type": "all"}]. *)
Definition repos_params : Json := JObj [("type", JStr "all")].

(** [RestClient.get_repos]; [None] when the fuel of the paging loop runs
    out.  The dictionary is handed over as the third positional argument of
    [request_paged_json], which is [data]; [params] keeps its default. *)
Definition get_repos (fuel : nat) (self : RestClient) (org_id : string) (s : Session) :
    option (Result (list Json) * Session) :=
  match request_paged_json fuel (_requester self) "GET" (repos_path org_id)
          (Some repos_params) None s with
  | None => None
  | Some (Ok repos, s') =>
    Some (map_result (fun repo => py_getitem repo "name") repos, s')
  | Some (Raise ex, s') =>
    Some (if is_GitHubException ex
          then Raise (RuntimeError ("failed to retrieve repos for organization '" +:+
                                    org_id +:+ "':" +:+ newline +:+ str_of_exception ex))
          else Raise ex, s')
  end.

(** X13: against a forge that serves the repositories of an organization in
    non-empty pages followed by an empty one, [get_repos] returns the names
    of all repositories in page order, after one request per page and one
    for the empty page.  Every request carries the dictionary
    [{"type": "all"}] as its JSON body, and its query holds 100 entries per
    page and the page in turn, but no [type]. *)
Theorem get_repos_names (fuel : nat) (self : RestClient) (org_id : string)
    (pages : list Json) (s : Session) (forge1 forge' : Forge)
    (response : Response) (last : Json) (names : list Json) :
  let request :=
    page_request (_requester self) "GET" (repos_path org_id) (Some repos_params) None in
  pages_then (_requester self) "GET" (repos_path org_id) (Some repos_params) None 1 pages
    (remote s) forge1 ->
  session_request (request (1 + Z.of_nat (length pages))%Z) forge1 = (response, forge') ->
  (status_code response < 400)%Z ->
  json response = Ok last ->
  py_len last = Ok 0 ->
  map_result (fun repo => py_getitem repo "name") (concat (map py_iter pages))
    = Ok names ->
  length pages < fuel ->
  get_repos fuel self org_id s =
  Some (Ok names,
        {| remote := forge';
           issued := issued s ++ map request (page_numbers 1 (S (length pages))) |}) /\
  forall page,
    rest.data (request page) = Some (json_dumps (JObj [("type", JStr "all")])) /\
    rest.params (request page) = Some (query_params None page) /\
    query_params None page !! "type" = None /\
    query_params None page !! "per_page" = Some (PyStr "100") /\
    query_params None page !! "page" = Some (PyInt page).
Proof.
  intros request Hserved Hr Hlt Hj Hlen Hnames Hfuel. subst request. split.
  - unfold get_repos, rest.request_paged_json.
    replace fuel with (length pages + S (fuel - S (length pages))) by lia.
    rewrite (loop_after_pages (_requester self) "GET" (repos_path org_id)
               (Some repos_params) None pages in_GET _ 1%Z [] s forge1 ltac:(lia) Hserved).
    cbn [request_paged_json_loop].
    assert (Hpos : (0 <? 1 + Z.of_nat (length pages))%Z = true) by (apply Z.ltb_lt; lia).
    rewrite Hpos.
    set (s1 := {| remote := forge1; issued := _ |}).
    assert (Hr' : session_request
                    (page_request (_requester self) "GET" (repos_path org_id)
                       (Some repos_params) None (1 + Z.of_nat (length pages)))
                    (remote s1) = (response, forge')) by exact Hr.
    rewrite (request_page_eq _ _ _ _ _ _ _ _ _ _ _ _ _ in_GET Hr' Hlt Hj), Hlen.
    assert (Hdone : forall fuel' result s',
              request_paged_json_loop fuel' (_requester self) "GET" (repos_path org_id)
                (Some repos_params) None (-1) result s' = Some (Ok result, s')).
    { intros fuel' result s'. by destruct fuel'. }
    rewrite Hdone. cbn [app]. rewrite Hnames. do 2 f_equal.
    subst s1. cbn [issued remote]. rewrite <- app_assoc. do 2 f_equal.
    by rewrite page_numbers_snoc, map_app.
  - intros page. unfold query_params.
    split; [reflexivity |]. split; [reflexivity |]. split; [| split].
    + by rewrite !lookup_insert_ne, lookup_empty.
    + rewrite lookup_insert_ne by done. apply lookup_insert_eq.
    + apply lookup_insert_eq.
Qed.

(** *** [get_team_node_id] *)

Definition slash : Ascii.ascii := Ascii.ascii_of_nat 47.

(** [re.split("/", s)] *)
Fixpoint split_slash (s : string) : list string :=
  match s with
  | EmptyString => [EmptyString]
  | String c s =>
    if Ascii.eqb c slash then EmptyString :: split_slash s
    else match split_slash s with
         | part :: parts => String c part :: parts
         | [] => [String c EmptyString]
         end
  end.

Definition team_path (org_id team_slug : string) : string :=
  "/orgs/" +:+ org_id +:+ "/teams/" +:+ team_slug.

(** [RestClient.get_team_node_id] *)
Definition get_team_node_id (self : RestClient) (combined_slug : string) : M Json :=
  match split_slash combined_slug with
  | [org_id; team_slug] =>
    reraise is_GitHubException
      (fun ex => "failed retrieving team node id:" +:+ newline +:+ str_of_exception ex)
      (mbind (request_json (_requester self) "GET" (team_path org_id team_slug) None None)
         (fun response => lift (py_getitem response "node_id")))
  | [] | [_] => lift (Raise (ValueError "not enough values to unpack (expected 2, got 1)"))
  | _ => lift (Raise (ValueError "too many values to unpack (expected 2)"))
  end.

Lemma split_slash_append (org_id rest : string) :
  split_slash org_id = [org_id] ->
  split_slash (org_id +:+ String slash rest) = org_id :: split_slash rest.
Proof.
  assert (Hnonempty : forall t, split_slash t <> []).
  { intros t. destruct t as [|c t]; cbn [split_slash]; [done |].
    destruct (Ascii.eqb c slash); [done |]. by destruct (split_slash t). }
  induction org_id as [|c org_id IH].
  - intros _. change ("" +:+ String slash rest) with (String slash rest).
    cbn [split_slash]. by rewrite Ascii.eqb_refl.
  - change (String c org_id +:+ String slash rest)
      with (String c (org_id +:+ String slash rest)).
    cbn [split_slash].
    destruct (Ascii.eqb c slash); [discriminate |].
    destruct (split_slash org_id) as [|part [|? ?]] eqn:Hsplit; try discriminate.
    + by destruct (Hnonempty org_id).
    + intros [= ->]. by rewrite IH.
Qed.

(** X14: [get_team_node_id] accepts a slug with exactly one "/": for
    "org/team" it sends one GET for the team of that organization, and for a
    slug with no "/" or with more than one it raises [ValueError] before
    anything is sent. *)
Theorem get_team_node_id_slug (self : RestClient) (combined_slug : string) (s : Session) :
  (length (split_slash combined_slug) <> 2 ->
   exists message,
     get_team_node_id self combined_slug s = (Raise (ValueError message), s)) /\
  (forall org_id team_slug,
     split_slash org_id = [org_id] ->
     split_slash team_slug = [team_slug] ->
     combined_slug = org_id +:+ String slash team_slug ->
     issued (snd (get_team_node_id self combined_slug s)) =
     issued s ++
     [raw_request (_requester self) "GET" (team_path org_id team_slug) None None]).
Proof.
  split.
  - intros Hparts. unfold get_team_node_id.
    destruct (split_slash combined_slug) as [|a [|b [|c parts]]]; simpl in Hparts;
      [by eexists | by eexists | by destruct Hparts | by eexists].
  - intros org_id team_slug Horg Hteam ->. unfold get_team_node_id.
    rewrite (split_slash_append _ _ Horg), Hteam.
    unfold rest.reraise, rest.mbind.
    destruct (session_request
                (raw_request (_requester self) "GET" (team_path org_id team_slug)
                   None None) (remote s)) as [response forge] eqn:Hr.
    rewrite (request_json_eq _ _ _ _ _ _ None None _ _ _ in_GET Hr).
    destruct (bind (_check_response response) _) as [document | ex]; simpl.
    + by destruct (py_getitem document "node_id") as [? | ex];
        [| destruct (rest.is_GitHubException _ ex)].
    + by destruct (rest.is_GitHubException _ ex).
Qed.

End Client.

(** *** The client, run against the stand-in forges *)

Definition Script : Type := list (Request -> Response).

Definition one_page_then_refusal : Script :=
  [json_response 200 (JList [item "a"]); text_response 500 "Server Error"].

Lemma request_paged_json_fails_on_refused_page_witness :
  request_paged_json Script scripted dumps 2 (_requester client) "GET" "/orgs/o/repos"
    None None (fresh one_page_then_refusal) =
  Some (Raise (_create_exception
                 (text_response 500 "Server Error"
                    (page_request dumps (_requester client) "GET" "/orgs/o/repos"
                       None None 2))),
        {| remote := [];
           issued := [] ++
             map (page_request dumps (_requester client) "GET" "/orgs/o/repos" None None)
                 (page_numbers 1 2) |}).
Proof.
  apply (request_paged_json_fails_on_refused_page Script scripted dumps
           (_requester client) "GET" "/orgs/o/repos" None None [JList [item "a"]]
           (fresh one_page_then_refusal) [text_response 500 "Server Error"] []).
  - apply in_GET.
  - simpl. eexists _, _, 0.
    split; [reflexivity |]. split; [reflexivity |]. split; [reflexivity |].
    split; reflexivity.
  - reflexivity.
  - simpl. lia.
  - simpl. lia.
Defined.

(** A forge whose every page has an item. *)
Definition always_full (request : Request) (forge : unit) : Response * unit :=
  (json_response 200 (JList [item "a"]) request, forge).

Lemma request_paged_json_never_ends_witness :
  request_paged_json unit always_full dumps 1000 (_requester client) "GET"
    "/orgs/o/repos" None None (fresh tt) = None.
Proof.
  apply (request_paged_json_never_ends unit always_full dumps (_requester client)
           "GET" "/orgs/o/repos" None None in_GET).
  intros request forge. split.
  - reflexivity.
  - exists (JList [item "a"]), 0. split; reflexivity.
Defined.

Lemma unknown_method_sends_nothing_witness :
  request_raw Script scripted (_requester client) "HEAD" "/orgs/o" None None
    (fresh one_page_then_refusal)
    = (Raise AssertionError, fresh one_page_then_refusal) /\
  request_json Script scripted dumps (_requester client) "HEAD" "/orgs/o" None None
    (fresh one_page_then_refusal)
    = (Raise AssertionError, fresh one_page_then_refusal) /\
  request_paged_json Script scripted dumps 1 (_requester client) "HEAD" "/orgs/o" None
    None (fresh one_page_then_refusal)
    = Some (Raise AssertionError, fresh one_page_then_refusal).
Proof.
  apply (unknown_method_sends_nothing Script scripted dumps (_requester client)
           "HEAD" "/orgs/o" None None None (fresh one_page_then_refusal) 0).
  simpl. intros [H | [H | [H | [H | [H | []]]]]]; discriminate H.
Defined.

Lemma update_repo_only_alerts_witness :
  update_repo Script scripted dumps exception_name true client "o" "r"
    {["dependabot_alerts_enabled" := JBool true]} (fresh [text_response 200 "OK"]) =
  (Raise (RuntimeError "failed to update vulnerability_reports for repo 'r'"),
   {| remote := [];
      issued := [] ++ [vulnerability_alerts_request client "o" "r" true] |}).
Proof.
  apply (update_repo_only_alerts Script scripted dumps exception_name true client
           "o" "r" (JBool true) (fresh [text_response 200 "OK"])
           (text_response 200 "OK" (vulnerability_alerts_request client "o" "r" true)) []).
  reflexivity.
Defined.

Definition repo_document : list (string * Json) :=
  [("name", JStr "r"); ("dependabot_alerts_enabled", JBool true)].

Lemma get_repo_data_alerts_witness :
  exists repo_data,
    get_repo_data Script scripted dumps exception_name true client "o" "r"
      (fresh [json_response 200 (JObj repo_document); text_response 404 "Not Found"]) =
    (Ok repo_data,
     {| remote := [];
        issued := [] ++
          [raw_request (_requester client) "GET" (repo_path "o" "r") None None;
           raw_request (_requester client) "GET" (vulnerability_alerts_path "o" "r")
             None None] |}) /\
    py_getitem repo_data "dependabot_alerts_enabled" = Ok (JBool false) /\
    forall key, key <> "dependabot_alerts_enabled" ->
      py_getitem repo_data key = py_getitem (JObj repo_document) key.
Proof.
  apply (get_repo_data_alerts Script scripted dumps exception_name true client "o" "r"
           (fresh [json_response 200 (JObj repo_document); text_response 404 "Not Found"])
           (json_response 200 (JObj repo_document)
              (raw_request (_requester client) "GET" (repo_path "o" "r") None None))
           (text_response 404 "Not Found"
              (raw_request (_requester client) "GET" (vulnerability_alerts_path "o" "r")
                 None None))
           [text_response 404 "Not Found"] [] repo_document);
    reflexivity.
Defined.

Definition hook : gmap string Json :=
  {[ "name" := JStr "mine";
     "config" := JObj [("url", JStr "https://example.org/hook")] ]}.

Definition hook_without_url : gmap string Json :=
  {[ "config" := JObj [("secret", JStr "x")] ]}.

Definition hook_without_config : gmap string Json := {[ "name" := JStr "mine" ]}.

Lemma add_webhook_request_body_witness :
  add_webhook Script scripted dumps exception_name true dumps client "o"
    hook_without_config (fresh [])
    = (Raise (KeyError "config"), fresh []) /\
  add_webhook Script scripted dumps exception_name true dumps client "o"
    hook_without_url (fresh [])
    = (Raise (KeyError "url"), fresh []) /\
  (exists outcome,
     add_webhook Script scripted dumps exception_name true dumps client "o" hook
       (fresh []) =
     (outcome,
      {| remote := snd (scripted (add_webhook_request dumps client "o" hook) []);
         issued := [] ++ [add_webhook_request dumps client "o" hook] |})) /\
  (<["name" := JStr "web"]> hook : gmap string Json) !! "name" = Some (JStr "web").
Proof.
  destruct (add_webhook_request_body Script scripted dumps exception_name true dumps
              client "o" hook_without_config (fresh [])) as (Hconfig & _ & _).
  destruct (add_webhook_request_body Script scripted dumps exception_name true dumps
              client "o" hook_without_url (fresh [])) as (_ & Hurl & _).
  destruct (add_webhook_request_body Script scripted dumps exception_name true dumps
              client "o" hook (fresh [])) as (_ & _ & Hsent).
  split; [| split].
  - apply Hconfig. vm_compute. reflexivity.
  - apply (Hurl (JObj [("secret", JStr "x")])); vm_compute; reflexivity.
  - apply (Hsent (JObj [("url", JStr "https://example.org/hook")])
             (JStr "https://example.org/hook")); vm_compute; reflexivity.
Defined.

Definition new_repo : gmap string Json :=
  {[ "name" := JStr "r";
     "private" := JBool true;
     "web_commit_signoff_required" := JBool true;
     "dependabot_alerts_enabled" := JBool true ]}.

Definition created_repo : list (string * Json) :=
  [("name", JStr "r"); ("private", JBool true);
   ("web_commit_signoff_required", JBool true)].

Lemma add_repo_requests_witness :
  (let updates :=
     update_repo_plan dumps client "o" (text_of dumps (JStr "r"))
       (not_yet_active created_repo (deferred_settings new_repo)) in
   let run :=
     add_repo Script scripted dumps exception_name true dumps client "o" new_repo
       UNSET false
       (fresh [json_response 201 (JObj created_repo); text_response 204 ""]) in
   exists n,
     n <= length updates /\
     issued (snd run) =
       issued (fresh [json_response 201 (JObj created_repo); text_response 204 ""]) ++
       [create_repo_request dumps client "o" new_repo false] ++ take n updates /\
     match fst run with
     | Ok _ => n = length updates
     | Raise _ => 0 < n
     end) /\
  update_repo_plan dumps client "o" "r"
    (not_yet_active created_repo (deferred_settings new_repo))
  = [vulnerability_alerts_request client "o" "r" true].
Proof.
  split.
  - apply (add_repo_requests Script scripted dumps exception_name true dumps client "o"
             new_repo (JStr "r") UNSET false
             (fresh [json_response 201 (JObj created_repo); text_response 204 ""])
             (json_response 201 (JObj created_repo)
                (create_repo_request dumps client "o" new_repo false))
             [text_response 204 ""] created_repo).
    + vm_compute. reflexivity.
    + reflexivity.
    + reflexivity.
    + reflexivity.
    + reflexivity.
  - vm_compute. reflexivity.
Defined.

Definition templated_repo : gmap string Json :=
  {[ "name" := JStr "r"; "private" := JBool true ]}.

Definition generated_repo : list (string * Json) :=
  [("name", JStr "r"); ("private", JBool false)].

Definition template_script : Script :=
  [json_response 201 (JObj generated_repo);
   json_response 200 (JObj generated_repo);
   text_response 404 "Not Found";
   json_response 200 (JObj created_repo)].

Lemma add_repo_from_template_requests_witness :
  (let updates :=
     update_repo_plan dumps client "o" (text_of dumps (JStr "r"))
       (not_yet_active
          (assoc_set "dependabot_alerts_enabled"
             (JBool (status_code
                       (text_response 404 "Not Found"
                          (raw_request (_requester client) "GET"
                             (vulnerability_alerts_path "o" (text_of dumps (JStr "r")))
                             None None)) =? 204)%Z)
             generated_repo)
          templated_repo) in
   let run :=
     add_repo Script scripted dumps exception_name true dumps client "o" templated_repo
       (PyStr "templates/base") true (fresh template_script) in
   exists n,
     n <= length updates /\
     issued (snd run) =
       issued (fresh template_script) ++
       [generate_request dumps client "o" (JStr "r") "templates" "base";
        raw_request (_requester client) "GET" (repo_path "o" (text_of dumps (JStr "r")))
          None None;
        raw_request (_requester client) "GET"
          (vulnerability_alerts_path "o" (text_of dumps (JStr "r"))) None None] ++
       take n updates /\
     match fst run with
     | Ok _ => n = length updates
     | Raise _ => 0 < n
     end) /\
  update_repo_plan dumps client "o" "r"
    (not_yet_active
       (assoc_set "dependabot_alerts_enabled" (JBool false) generated_repo)
       templated_repo)
  = [patch_repo_request dumps client "o" "r" {["private" := JBool true]}].
Proof.
  split.
  - apply (add_repo_from_template_requests Script scripted dumps exception_name true
             dumps client "o" templated_repo (JStr "r") "templates/base" "templates"
             "base" true (fresh template_script)
             (json_response 201 (JObj generated_repo)
                (generate_request dumps client "o" (JStr "r") "templates" "base"))
             (json_response 200 (JObj generated_repo)
                (raw_request (_requester client) "GET" (repo_path "o" "r") None None))
             (text_response 404 "Not Found"
                (raw_request (_requester client) "GET"
                   (vulnerability_alerts_path "o" "r") None None))
             (tail template_script) (tail (tail template_script))
             (tail (tail (tail template_script))) generated_repo).
    + vm_compute. reflexivity.
    + vm_compute. reflexivity.
    + reflexivity.
    + reflexivity.
    + eexists. reflexivity.
    + reflexivity.
    + reflexivity.
    + reflexivity.
    + reflexivity.
  - vm_compute. reflexivity.
Defined.

Definition listed_teams : Json :=
  JList [JObj [("slug", JStr "a")]; JObj [("slug", JStr "b")]; JObj [("slug", JStr "d")]].

Definition managers_script : Script :=
  [json_response 200 listed_teams;
   text_response 204 ""; text_response 204 ""; text_response 204 ""].

(** An order of iteration that is not the order of insertion. *)
Definition backwards (elements : list Json) : list Json := rev elements.

Lemma backwards_is_an_order (elements : list Json) :
  Permutation (backwards elements) elements.
Proof. symmetry. apply Permutation_rev. Qed.

Lemma update_security_managers_reconciles_witness :
  (let run :=
     update_security_managers Script scripted dumps exception_name true dumps backwards
       client "o" ["b"; "c"] (fresh managers_script) in
   exists removed n,
     Permutation removed (filter (fun t => t ∉ ["b"; "c"]) ["a"; "b"; "d"]) /\
     let changes :=
       map (put_team_request client "o")
         (filter (fun t => t ∉ ["a"; "b"; "d"]) ["b"; "c"]) ++
       map (delete_team_request client "o") removed in
     n <= length changes /\
     issued (snd run) =
       issued (fresh managers_script) ++
       [raw_request (_requester client) "GET" (security_managers_path "o") None None] ++
       take n changes /\
     match fst run with
     | Ok _ => n = length changes
     | Raise _ => 0 < n
     end) /\
  update_security_managers Script scripted dumps exception_name true dumps backwards
    client "o" ["b"; "c"] (fresh managers_script)
  = (Ok tt,
     {| remote := [];
        issued :=
          [raw_request (_requester client) "GET" (security_managers_path "o") None None;
           put_team_request client "o" "c";
           delete_team_request client "o" "d";
           delete_team_request client "o" "a"] |}).
Proof.
  split.
  - apply (update_security_managers_reconciles Script scripted dumps exception_name true
             dumps backwards client "o" ["b"; "c"] ["a"; "b"; "d"]
             (fresh managers_script)
             (json_response 200 listed_teams
                (raw_request (_requester client) "GET" (security_managers_path "o")
                   None None))
             (tail managers_script) listed_teams).
    + exact backwards_is_an_order.
    + apply (bool_decide_unpack _). vm_compute. exact I.
    + apply (bool_decide_unpack _). vm_compute. exact I.
    + reflexivity.
    + reflexivity.
    + reflexivity.
    + reflexivity.
  - vm_compute. reflexivity.
Defined.

Lemma get_repos_names_witness :
  get_repos unit (paged two_pages) dumps exception_name true 3 client "o" (fresh tt) =
  Some (Ok [JStr "a"; JStr "b"; JStr "c"],
        {| remote := tt;
           issued := [] ++
             map (page_request dumps (_requester client) "GET" (repos_path "o")
                    (Some repos_params) None)
                 (page_numbers 1 3) |}) /\
  forall page,
    rest.data (page_request dumps (_requester client) "GET" (repos_path "o")
                 (Some repos_params) None page)
      = Some (dumps (JObj [("type", JStr "all")])) /\
    rest.params (page_request dumps (_requester client) "GET" (repos_path "o")
                   (Some repos_params) None page)
      = Some (query_params None page) /\
    query_params None page !! "type" = None /\
    query_params None page !! "per_page" = Some (PyStr "100") /\
    query_params None page !! "page" = Some (PyInt page).
Proof.
  apply (get_repos_names unit (paged two_pages) dumps exception_name true 3 client "o"
           [JList [item "a"; item "b"]; JList [item "c"]] (fresh tt) tt tt
           (json_response 200 (JList [])
              (page_request dumps (_requester client) "GET" (repos_path "o")
                 (Some repos_params) None 3))
           (JList [])).
  - simpl. eexists _, tt, 1.
    split; [reflexivity |]. split; [reflexivity |]. split; [reflexivity |].
    split; [reflexivity |].
    eexists _, tt, 0.
    split; [reflexivity |]. split; [reflexivity |]. split; [reflexivity |].
    split; reflexivity.
  - reflexivity.
  - reflexivity.
  - reflexivity.
  - reflexivity.
  - reflexivity.
  - simpl. lia.
Defined.

Lemma get_team_node_id_slug_witness :
  (exists message,
     get_team_node_id Script scripted dumps exception_name true client "eclipse"
       (fresh []) = (Raise (ValueError message), fresh [])) /\
  (exists message,
     get_team_node_id Script scripted dumps exception_name true client
       "eclipse/teams/admins" (fresh []) = (Raise (ValueError message), fresh [])) /\
  issued (snd (get_team_node_id Script scripted dumps exception_name true client
                 "eclipse/admins" (fresh []))) =
  [] ++ [raw_request (_requester client) "GET" (team_path "eclipse" "admins") None None].
Proof.
  destruct (get_team_node_id_slug Script scripted dumps exception_name true client
              "eclipse" (fresh [])) as [Hnone _].
  destruct (get_team_node_id_slug Script scripted dumps exception_name true client
              "eclipse/teams/admins" (fresh [])) as [Hmany _].
  destruct (get_team_node_id_slug Script scripted dumps exception_name true client
              "eclipse/admins" (fresh [])) as [_ Hone].
  split; [| split].
  - apply Hnone. vm_compute. lia.
  - apply Hmany. vm_compute. lia.
  - apply (Hone "eclipse" "admins"); reflexivity.
Defined.

End rest_client.

(** ** otterdog/webapp/webhook/github_models.py: [AuthorAssociation] *)

Module webhook_models.
Import Py.
Local Open Scope string_scope.
Local Open Scope list_scope.

(** [class AuthorAssociation(str, Enum)] *)
Inductive AuthorAssociation : Type :=
| COLLABORATOR
| CONTRIBUTOR
| FIRST_TIMER
| FIRST_TIME_CONTRIBUTOR
| MANNEQUIN
| MEMBER
| NONE
| OWNER.

Definition members : list AuthorAssociation :=
  [COLLABORATOR; CONTRIBUTOR; FIRST_TIMER; FIRST_TIME_CONTRIBUTOR; MANNEQUIN; MEMBER;
   NONE; OWNER].

(** [member.name] *)
Definition name (self : AuthorAssociation) : string :=
  match self with
  | COLLABORATOR => "COLLABORATOR"
  | CONTRIBUTOR => "CONTRIBUTOR"
  | FIRST_TIMER => "FIRST_TIMER"
  | FIRST_TIME_CONTRIBUTOR => "FIRST_TIME_CONTRIBUTOR"
  | MANNEQUIN => "MANNEQUIN"
  | MEMBER => "MEMBER"
  | NONE => "NONE"
  | OWNER => "OWNER"
  end.

(** [member.value], the string on the right of the declaration *)
Definition value (self : AuthorAssociation) : string :=
  match self with
  | COLLABORATOR => "COLLABORATOR"
  | CONTRIBUTOR => "CONTRIBUTOR"
  | FIRST_TIMER => "FIRST_TIME"
  | FIRST_TIME_CONTRIBUTOR => "FIRST_TIME_CONTRIBUTOR"
  | MANNEQUIN => "MANNEQUIN"
  | MEMBER => "MEMBER"
  | NONE => "NONE"
  | OWNER => "OWNER"
  end.

(** [AuthorAssociation.__str__] *)
Definition __str__ (self : AuthorAssociation) : string := name self.

(** [AuthorAssociation(text)]: the member with that value, as the
    enumeration is called by pydantic when it validates a payload;
    [ValueError] when there is none. *)
Definition AuthorAssociation_call (text : string) : Result AuthorAssociation :=
  match List.find (fun member => String.eqb (value member) text) members with
  | Some member => Ok member
  | None => Raise (ValueError ("'" +:+ text +:+ "' is not a valid AuthorAssociation"))
  end.

(** X15: every member of [AuthorAssociation] is found again from its value,
    and from its printed form as well, except [FIRST_TIMER]: its value is
    "FIRST_TIME", it prints as "FIRST_TIMER", and the text "FIRST_TIMER" is
    rejected with [ValueError]. *)
Theorem author_association_round_trip (member : AuthorAssociation) :
  AuthorAssociation_call (value member) = Ok member /\
  (AuthorAssociation_call (__str__ member) = Ok member <-> member <> FIRST_TIMER) /\
  (__str__ member = value member <-> member <> FIRST_TIMER) /\
  AuthorAssociation_call "FIRST_TIMER"
    = Raise (ValueError "'FIRST_TIMER' is not a valid AuthorAssociation").
Proof.
  split; [by destruct member |].
  split; [| split; [| reflexivity]].
  - destruct member; split; intros H; try reflexivity; try discriminate;
      try (by destruct H); vm_compute in H; discriminate H.
  - destruct member; split; intros H; try reflexivity; try discriminate;
      try (by destruct H); vm_compute in H; discriminate H.
Qed.

End webhook_models.

(** ** otterdog/webapp/db/service.py: the queries on pull requests *)

Module pull_request_queries.
Import Py github_models.
Local Open Scope string_scope.
Local Open Scope list_scope.

#[global] Instance PullRequestStatus_eq_dec : EqDecision PullRequestStatus.
Proof. solve_decision. Defined.

Section Queries.

(** [ApplyStatus] is declared in otterdog/webapp/db/models.py, which is not
    among the sources; the code names its member [COMPLETED].  [Field]
    stands for the field proxies of odmantic, [PullRequestModel_dict] and
    [TaskModel_dict] for [PullRequestModel.__dict__] and
    [TaskModel.__dict__], [int] for the built-in of that name applied to a
    string. *)
Variable ApplyStatus : Type.
Context `{EqDecision ApplyStatus}.
Variable COMPLETED : ApplyStatus.
Variable Field : Type.
Variable PullRequestModel_dict : string -> option Field.
Variable TaskModel_dict : string -> option Field.
Variable int : string -> Result Z.

Definition PullRequestModel : Type := service.PullRequestModel ApplyStatus.

(** The query expressions the code builds with odmantic: comparisons of
    [PullRequestModel.status] and [PullRequestModel.apply_status] with a
    member, [query.and_], [query.or_] and [query.match]. *)
#[warnings="-register-all"]
Inductive QueryExpression : Type :=
| status_eq (expected : PullRequestStatus)
| apply_status_eq (expected : ApplyStatus)
| apply_status_ne (expected : ApplyStatus)
| and_ (expressions : list QueryExpression)
| or_ (expressions : list QueryExpression)
| match_ (field : Field) (pattern : string).

Inductive SortExpression : Type :=
| desc (field : Field)
| asc (field : Field).

(** [_open_or_incomplete_pull_requests_query] *)
Definition _open_or_incomplete_pull_requests_query : QueryExpression :=
  or_ [status_eq OPEN; and_ [status_eq MERGED; apply_status_ne COMPLETED]].

(** [_merged_pull_requests_query] *)
Definition _merged_pull_requests_query : QueryExpression :=
  and_ [status_eq MERGED; apply_status_eq COMPLETED].

(** What the store makes of an expression for one document: an equality
    holds when the attribute has that value, an inequality when it has not
    (an attribute that is [None] differs from every member); [matches] is
    the regular-expression test of [query.match]. *)
Variable matches : Field -> string -> PullRequestModel -> bool.

Fixpoint holds (expression : QueryExpression) (document : PullRequestModel) : bool :=
  match expression with
  | status_eq expected => bool_decide (service.status document = expected)
  | apply_status_eq expected =>
    bool_decide (service.apply_status document = Some expected)
  | apply_status_ne expected =>
    negb (bool_decide (service.apply_status document = Some expected))
  | and_ expressions => forallb (fun e => holds e document) expressions
  | or_ expressions => existsb (fun e => holds e document) expressions
  | match_ field pattern => matches field pattern document
  end.

(** The collection of pull requests; [mongo.odm.count(PullRequestModel,
    *queries)] counts the documents for which every query holds. *)
Definition Database : Type := list PullRequestModel.

Definition selected (queries : list QueryExpression) (document : PullRequestModel) : bool :=
  forallb (fun e => holds e document) queries.

Definition count (db : Database) (queries : list QueryExpression) : nat :=
  length (List.filter (selected queries) db).

(** [mongo.odm.find(PullRequestModel, *queries, skip=, limit=, sort=)] *)
Variable find :
  Database -> list QueryExpression -> Z -> Z -> SortExpression -> list PullRequestModel.

(** [get_open_or_incomplete_pull_requests_count] *)
Definition get_open_or_incomplete_pull_requests_count (db : Database) : nat :=
  count db [_open_or_incomplete_pull_requests_query].

(** [get_merged_pull_requests_count] *)
Definition get_merged_pull_requests_count (db : Database) : nat :=
  count db [_merged_pull_requests_query].







(** *** The two counters *)

Lemma filter_length_split {A : Type} (p q r : A -> bool) (l : list A) :
  (forall x, Nat.b2n (p x) + Nat.b2n (q x) = Nat.b2n (r x)) ->
  length (List.filter p l) + length (List.filter q l) = length (List.filter r l).
Proof.
  intros Hsplit. induction l as [|x l IH]; [done |].
  cbn [List.filter]. specialize (Hsplit x).
  destruct (p x), (q x), (r x); simpl in *; lia.
Qed.

(** X16: the query for open or incomplete pull requests and the query for
    merged ones never select the same document; a merged pull request is
    selected by exactly one of them, an open one by the first, a closed one
    by neither.  Hence the two counters add up to the number of open and
    merged pull requests. *)
Theorem pull_request_counters_partition (db : Database) :
  (forall document,
     let incomplete := holds _open_or_incomplete_pull_requests_query document in
     let merged := holds _merged_pull_requests_query document in
     incomplete && merged = false /\
     (service.status document = OPEN -> incomplete = true) /\
     (service.status document = MERGED -> xorb incomplete merged = true) /\
     (service.status document = CLOSED -> incomplete = false /\ merged = false)) /\
  get_open_or_incomplete_pull_requests_count db + get_merged_pull_requests_count db =
  length (List.filter (fun document =>
                         negb (bool_decide (service.status document = CLOSED))) db).
Proof.
  assert (Hcase : forall document : PullRequestModel,
            let incomplete := holds _open_or_incomplete_pull_requests_query document in
            let merged := holds _merged_pull_requests_query document in
            match service.status document with
            | OPEN => incomplete = true /\ merged = false
            | CLOSED => incomplete = false /\ merged = false
            | MERGED => incomplete = negb merged
            end).
  { intros document. cbn [holds _open_or_incomplete_pull_requests_query
                            _merged_pull_requests_query forallb existsb].
    destruct (service.status document);
      destruct (bool_decide (service.apply_status document = Some COMPLETED));
      split || idtac; reflexivity. }
  split.
  - intros document incomplete merged. specialize (Hcase document).
    cbv zeta in Hcase. fold incomplete merged in Hcase.
    destruct (service.status document).
    + destruct Hcase as [-> ->]. repeat split; done.
    + destruct Hcase as [-> ->]. repeat split; done.
    + rewrite Hcase. destruct merged; repeat split; done.
  - unfold get_open_or_incomplete_pull_requests_count, get_merged_pull_requests_count,
      count, selected.
    apply filter_length_split. intros document.
    specialize (Hcase document). cbv zeta in Hcase.
    cbn [forallb]. rewrite !andb_true_r.
    destruct (service.status document).
    + by destruct Hcase as [-> ->].
    + by destruct Hcase as [-> ->].
    + rewrite Hcase. by destruct (holds _merged_pull_requests_query document).
Qed.

(** *** The page of merged pull requests *)







End Queries.

(** *** The page of merged pull requests, run *)

#[global] Instance apply_status_members_eq_dec : EqDecision service.apply_status_members.
Proof. solve_decision. Defined.



Definition org_matches (field pattern : string)
    (document : service.PullRequestModel service.apply_status_members) : bool :=
  if String.eqb field "org_id" then String.eqb (service.org_id document) pattern
  else if String.eqb field "repo_name" then String.eqb (service.repo_name document) pattern
  else false.

(** A store that ignores the order and returns the selected documents from
    [skip] on, [limit] at most. *)
Definition find_in_list (db : list (service.PullRequestModel service.apply_status_members))
    (queries : list (QueryExpression service.apply_status_members string))
    (skip limit : Z) (sort : SortExpression string) :
    list (service.PullRequestModel service.apply_status_members) :=
  take (Z.to_nat limit)
    (drop (Z.to_nat skip)
       (List.filter (selected service.apply_status_members string org_matches queries) db)).



End pull_request_queries.

(** ** otterdog/webapp/tasks/fetch_all_pull_requests.py *)

Module fetch_all_pull_requests.
Import Py github_models.
Local Open Scope string_scope.
Local Open Scope list_scope.

Section Task.

(** [ApplyStatus] is declared in otterdog/webapp/db/models.py, which is not
    among the sources.  [Payload] is a pull request as the forge delivers
    it, [model_validate] is [PullRequest.model_validate], [get_pull_requests]
    is [rest_api.pull_request.get_pull_requests(org_id, repo_name,
    state=..., base_ref=...)].  [update_or_create_pull_request] is the
    function of the service as the task calls it: with the number and the
    status of the pull request. *)
Variable ApplyStatus : Type.
Variable COMPLETED : ApplyStatus.
Variable Payload : Type.
Variable model_validate : Payload -> Result PullRequest.
Variable get_pull_requests : string -> string -> string -> string -> Result (list Payload).
Variable Database : Type.
Variable update_or_create_pull_request :
  string -> string -> Z -> PullRequestStatus -> option ApplyStatus ->
  Database -> Result unit * Database.

Record FetchAllPullRequestsTask : Type := {
  installation_id : Z;
  org_id : string;
  repo_name : string
}.

(** The body of the loop of [_execute]. *)
Definition import_pull_request (self : FetchAllPullRequestsTask) (pr : Payload)
    (db : Database) : Result unit * Database :=
  match model_validate pr with
  | Raise ex => (Raise ex, db)
  | Ok pr_from_github =>
    let pr_number := number pr_from_github in
    match get_pr_status pr_from_github with
    | Raise ex => (Raise ex, db)
    | Ok pr_status =>
      let pr_status := upper pr_status in
      let apply_status :=
        if String.eqb pr_status "MERGED" then Some COMPLETED else None in
      match PullRequestStatus_getitem pr_status with
      | Raise ex => (Raise ex, db)
      | Ok status =>
        update_or_create_pull_request (org_id self) (repo_name self) pr_number status
          apply_status db
      end
    end
  end.



(** X18: a fetched pull request is handed to the service with apply status
    [COMPLETED] exactly when it is merged: an open one is passed as OPEN
    and one that was closed without a merge as CLOSED, both without an apply
    status. *)
Theorem import_pull_request_apply_status (self : FetchAllPullRequestsTask)
    (pr : Payload) (pr_from_github : PullRequest) (db : Database) :
  model_validate pr = Ok pr_from_github ->
  (state pr_from_github = "open" ->
     import_pull_request self pr db =
     update_or_create_pull_request (org_id self) (repo_name self)
       (number pr_from_github) OPEN None db) /\
  (state pr_from_github = "closed" -> merged pr_from_github = Some true ->
     import_pull_request self pr db =
     update_or_create_pull_request (org_id self) (repo_name self)
       (number pr_from_github) MERGED (Some COMPLETED) db) /\
  (state pr_from_github = "closed" -> merged pr_from_github <> Some true ->
     import_pull_request self pr db =
     update_or_create_pull_request (org_id self) (repo_name self)
       (number pr_from_github) CLOSED None db).
Proof.
  intros Hvalid. unfold import_pull_request, get_pr_status. rewrite Hvalid.
  split; [| split].
  - by intros ->.
  - by intros -> ->.
  - intros -> Hm. by destruct (merged pr_from_github) as [[]|].
Qed.


End Task.

(** *** The task, run *)

(** A service that keeps the calls it receives. *)
Definition record_call (owner repo : string) (pull_request : Z)
    (status : PullRequestStatus) (apply_status : option service.apply_status_members)
    (db : list (Z * PullRequestStatus * option service.apply_status_members)) :
    Result unit * list (Z * PullRequestStatus * option service.apply_status_members) :=
  (Ok tt, db ++ [(pull_request, status, apply_status)]).

Definition numbered (n : Z) (st : string) (m : option bool) : PullRequest :=
  {| id := n; node_id := "PR"; number := n; state := st; locked := false;
     title := "Update configuration"; body := None; draft := false;
     merged := m; merge_commit_sha := None |}.

Definition listed (org repo state base_ref : string) : Result (list PullRequest) :=
  Ok [numbered 1 "closed" (Some true); numbered 2 "draft" None; numbered 3 "open" None].

Definition task : FetchAllPullRequestsTask :=
  {| installation_id := 1; org_id := "o"; repo_name := "r" |}.

Lemma import_pull_request_apply_status_witness :
  import_pull_request service.apply_status_members service.COMPLETED PullRequest Ok
    (list (Z * PullRequestStatus * option service.apply_status_members)) record_call
    task (numbered 3 "open" None) []
    = (Ok tt, [(3%Z, OPEN, None)]) /\
  import_pull_request service.apply_status_members service.COMPLETED PullRequest Ok
    (list (Z * PullRequestStatus * option service.apply_status_members)) record_call
    task (numbered 1 "closed" (Some true)) []
    = (Ok tt, [(1%Z, MERGED, Some service.COMPLETED)]) /\
  import_pull_request service.apply_status_members service.COMPLETED PullRequest Ok
    (list (Z * PullRequestStatus * option service.apply_status_members)) record_call
    task (numbered 4 "closed" (Some false)) []
    = (Ok tt, [(4%Z, CLOSED, None)]).
Proof.
  destruct (import_pull_request_apply_status service.apply_status_members
              service.COMPLETED PullRequest Ok _ record_call task
              (numbered 3 "open" None) _ [] eq_refl) as (Hopen & _ & _).
  destruct (import_pull_request_apply_status service.apply_status_members
              service.COMPLETED PullRequest Ok _ record_call task
              (numbered 1 "closed" (Some true)) _ [] eq_refl) as (_ & Hmerged & _).
  destruct (import_pull_request_apply_status service.apply_status_members
              service.COMPLETED PullRequest Ok _ record_call task
              (numbered 4 "closed" (Some false)) _ [] eq_refl) as (_ & _ & Hclosed).
  split; [exact (Hopen eq_refl) |].
  split; [exact (Hmerged eq_refl eq_refl) |].
  apply Hclosed; [reflexivity | discriminate].
Defined.


End fetch_all_pull_requests.

(** ** otterdog/models/repo_workflow_settings.py: applying a live patch *)

Module repo_workflow_settings_patch.
Import Py RepositoryWorkflowSettings.
Local Open Scope string_scope.
Local Open Scope list_scope.

Section Provider.

(** [to_provider_data] and [changes_to_provider] are inherited from
    [ModelObject], which is not among the sources; they yield the data
    handed to the provider or raise.  [str_of_patch_type] is the text of a
    patch type in a message.  The provider is kept as the list of the calls
    of [update_repo_workflow_settings] it has received: organization,
    repository, data. *)
Variable ProviderData : Type.
Variable to_provider_data : RepositoryWorkflowSettings -> string -> Result ProviderData.
Variable changes_to_provider : string -> gmap string Change -> Result ProviderData.
Variable str_of_patch_type : LivePatchType -> string.
Variable get_difference_from :
  RepositoryWorkflowSettings -> RepositoryWorkflowSettings -> gmap string Change.

Definition GitHubProvider : Type := list (string * string * ProviderData).

(** [provider.update_repo_workflow_settings(org_id, repo_name, data)];
    computing [data] may raise, in which case the provider is not called. *)
Definition update_repo_workflow_settings (org_id repo_name : string)
    (data : Result ProviderData) (provider : GitHubProvider) :
    Result unit * GitHubProvider :=
  match data with
  | Ok data => (Ok tt, provider ++ [(org_id, repo_name, data)])
  | Raise ex => (Raise ex, provider)
  end.

(** [RepositoryWorkflowSettings.apply_live_patch] *)
Definition apply_live_patch (patch : LivePatch) (org_id : string)
    (provider : GitHubProvider) : Result unit * GitHubProvider :=
  match parent_object patch with
  | None => (Raise AssertionError, provider)
  | Some parent =>
    match patch_type patch with
    | ADD =>
      match expected_object patch with
      | None => (Raise AssertionError, provider)
      | Some expected =>
        update_repo_workflow_settings org_id (Repository.name parent)
          (to_provider_data expected org_id) provider
      end
    | CHANGE =>
      match changes patch with
      | None => (Raise AssertionError, provider)
      | Some modified =>
        update_repo_workflow_settings org_id (Repository.name parent)
          (changes_to_provider org_id modified) provider
      end
    | REMOVE =>
      (Raise (RuntimeError ("unexpected patch type '" +:+
                            str_of_patch_type (patch_type patch) +:+ "'")), provider)
    end
  end.

(** Applying the patches handed to the handler, in order. *)
Fixpoint apply_all (patches : list LivePatch) (org_id : string)
    (provider : GitHubProvider) : Result unit * GitHubProvider :=
  match patches with
  | [] => (Ok tt, provider)
  | patch :: patches =>
    match apply_live_patch patch org_id provider with
    | (Ok _, provider) => apply_all patches org_id provider
    | (Raise ex, provider) => (Raise ex, provider)
    end
  end.

(** The difference that ends up in a CHANGE patch. *)
Definition patched_difference (expected current : RepositoryWorkflowSettings) :
    gmap string Change :=
  let modified := get_difference_from expected current in
  if decide (is_Some (modified !! "allowed_actions"))
  then <["enabled" := mkChange (enabled expected) (enabled expected)]> modified
  else modified.

(** X20: the patches [generate_live_patch] hands out for the workflow
    settings of a repository are all understood by [apply_live_patch]: none
    trips one of its assertions or its "unexpected patch type" error.  New settings
    cost one call of the provider with the data of the expected settings,
    changed settings one call with the provider form of the difference, and
    equal settings no call at all; the call names the parent repository. *)
Theorem generated_patches_apply (expected : RepositoryWorkflowSettings)
    (current : option RepositoryWorkflowSettings) (parent : Repository.Repository)
    (org_id : string) (provider : GitHubProvider) :
  exists patches,
    generate_live_patch get_difference_from (Some expected) current (Some parent)
      = Ok patches /\
    apply_all patches org_id provider =
    match current with
    | None =>
      update_repo_workflow_settings org_id (Repository.name parent)
        (to_provider_data expected org_id) provider
    | Some current =>
      if decide (patched_difference expected current = ∅) then (Ok tt, provider)
      else update_repo_workflow_settings org_id (Repository.name parent)
             (changes_to_provider org_id (patched_difference expected current)) provider
    end.
Proof.
  assert (Hone : forall outcome : Result unit * GitHubProvider,
            match outcome with
            | (Ok _, provider') => (Ok tt, provider')
            | (Raise ex, provider') => (Raise ex, provider')
            end = outcome).
  { by intros [[[] | ex] provider']. }
  unfold generate_live_patch. destruct current as [current |].
  - fold (patched_difference expected current).
    destruct (decide (patched_difference expected current = ∅)) as [Hempty | Hchanged].
    + rewrite Hempty, map_size_empty. by eexists.
    + assert (Hsize : (0 <? size (patched_difference expected current))%nat = true).
      { apply Nat.ltb_lt.
        assert (size (patched_difference expected current) <> 0); [| lia].
        intros Hz. by apply map_size_empty_iff in Hz. }
      rewrite Hsize. eexists. split; [reflexivity |].
      cbn [apply_all]. unfold apply_live_patch. simpl.
      destruct (changes_to_provider org_id _); reflexivity.
  - eexists. split; [reflexivity |].
    cbn [apply_all]. unfold apply_live_patch. simpl.
    destruct (to_provider_data expected org_id); reflexivity.
Qed.

End Provider.

End repo_workflow_settings_patch.

(** ** otterdog/models/repository.py: [Repository.validate] *)

Module repository_validate.
Import Py Repository RepositoryWorkflowSettings.
Local Open Scope string_scope.
Local Open Scope list_scope.

(** The attributes of [OrganizationSettings] that [Repository.validate]
    reads; the class is declared in organization_settings.py, which is not
    among the sources. *)
Record OrganizationSettings : Type := {
  plan : Value;
  web_commit_signoff_required : Value;
  members_can_fork_private_repositories : Value
}.

(** The parent object, of which only [settings] is read. *)
Record Organization : Type := { settings : OrganizationSettings }.

Definition quote : string := String (Ascii.ascii_of_nat 34) EmptyString.

Definition public_forking_message (self : Repository) : string :=
  "public repo[name=" +:+ quote +:+ name self +:+ quote +:+
  "] has 'allow_forking' disabled " +:+ "which is not permitted.".

Definition private_wiki_message (self : Repository) (org_settings : OrganizationSettings) :
    string :=
  "private repo[name=" +:+ quote +:+ name self +:+ quote +:+
  "] has 'has_wiki' enabled which" +:+ "requires at least GitHub Team billing, " +:+
  "currently using " +:+ quote +:+ format (plan org_settings) +:+ quote +:+ " plan.".

Definition private_forking_message (self : Repository) : string :=
  "private repo[name=" +:+ quote +:+ name self +:+ quote +:+
  "] has 'allow_forking' enabled " +:+
  "while the organization disables 'members_can_fork_private_repositories'.".

Definition signoff_message (self : Repository) : string :=
  "repo[name=" +:+ quote +:+ name self +:+ quote +:+
  "] has 'web_commit_signoff_required' disabled while " +:+
  "the organization requires it.".

Section BranchProtectionRules.

(** [BranchProtectionRule] and its [validate] are declared in
    branch_protection_rule.py, which is not among the sources.  The rules of
    the repository are passed beside it, as the record [Repository] does not
    carry them. *)
Variable BranchProtectionRule : Type.
Variable BranchProtectionRule_validate :
  BranchProtectionRule -> ValidationContext -> Repository -> ValidationContext.

(** [Repository.validate] *)
Definition validate (self : Repository)
    (branch_protection_rules : list BranchProtectionRule)
    (context : ValidationContext) (parent_object : Organization) : ValidationContext :=
  let org_settings := settings parent_object in
  let free_plan := eq_str (plan org_settings) "free" in
  let org_web_commit_signoff_required :=
    is_True (web_commit_signoff_required org_settings) in
  let org_members_cannot_fork_private_repositories :=
    is_False (members_can_fork_private_repositories org_settings) in
  let is_private := is_True (private self) in
  let is_public := is_False (private self) in
  let allow_forking := is_True (Repository.allow_forking self) in
  let disallow_forking := is_False (Repository.allow_forking self) in
  let context :=
    if is_public && disallow_forking
    then add_failure context WARNING (public_forking_message self)
    else context in
  let has_wiki := is_True (Repository.has_wiki self) in
  let context :=
    if is_private && has_wiki && free_plan
    then add_failure context WARNING (private_wiki_message self org_settings)
    else context in
  let context :=
    if is_private && org_members_cannot_fork_private_repositories && allow_forking
    then add_failure context ERROR (private_forking_message self)
    else context in
  let repo_web_commit_signoff_not_required :=
    is_False (Repository.web_commit_signoff_required self) in
  let context :=
    if repo_web_commit_signoff_not_required && org_web_commit_signoff_required
    then add_failure context ERROR (signoff_message self)
    else context in
  fold_left (fun context bpr => BranchProtectionRule_validate bpr context self)
    branch_protection_rules context.

(** The two conditions under which the repository itself is in error. *)
Definition forks_against_organization (self : Repository)
    (org_settings : OrganizationSettings) : bool :=
  is_True (private self) &&
  is_False (members_can_fork_private_repositories org_settings) &&
  is_True (Repository.allow_forking self).

Definition signoff_against_organization (self : Repository)
    (org_settings : OrganizationSettings) : bool :=
  is_False (Repository.web_commit_signoff_required self) &&
  is_True (web_commit_signoff_required org_settings).

Lemma blocks_apply_add_failure (context : ValidationContext)
    (failure_type : FailureType) (message : string) :
  blocks_apply (add_failure context failure_type message) =
  blocks_apply context || match failure_type with ERROR => true | _ => false end.
Proof.
  unfold blocks_apply, add_failure. simpl. rewrite existsb_app. simpl.
  by rewrite orb_false_r.
Qed.

Lemma failures_add_failure (context : ValidationContext)
    (failure_type : FailureType) (message : string) :
  validation_failures (add_failure context failure_type message) =
  validation_failures context ++ [(failure_type, message)].
Proof. reflexivity. Qed.

(** X21: the checks [Repository.validate] makes on the repository itself
    keep the failures found before and add at most three; they leave a
    blocking ERROR exactly when the repository is private and allows forks
    that the organization forbids, or switches the web commit sign-off off
    that the organization requires.  The two warnings (a public repository
    without forks, a wiki on the free plan) never block, and a repository
    whose [private] is not set can only fail on the sign-off.  The rules of
    the repository are validated afterwards, in order. *)
Theorem validate_blocks (self : Repository)
    (branch_protection_rules : list BranchProtectionRule)
    (context : ValidationContext) (parent_object : Organization) :
  let own := validate self [] context parent_object in
  validate self branch_protection_rules context parent_object =
    fold_left (fun context bpr => BranchProtectionRule_validate bpr context self)
      branch_protection_rules own /\
  (exists added,
     validation_failures own = validation_failures context ++ added /\
     length added <= 3 /\
     (is_True (private self) = false -> is_False (private self) = false ->
        added = if signoff_against_organization self (settings parent_object)
                then [(ERROR, signoff_message self)] else [])) /\
  blocks_apply own =
    blocks_apply context ||
    forks_against_organization self (settings parent_object) ||
    signoff_against_organization self (settings parent_object).
Proof.
  intros own. split; [reflexivity |].
  unfold own, validate, forks_against_organization, signoff_against_organization.
  cbn [fold_left].
  destruct (private self) as [| | [] | | |], (Repository.allow_forking self) as [| | [] | | |];
    cbn [is_True is_False];
  destruct (is_True (Repository.has_wiki self)),
    (eq_str (plan (settings parent_object)) "free"),
    (is_False (members_can_fork_private_repositories (settings parent_object))),
    (is_False (Repository.web_commit_signoff_required self)),
    (is_True (web_commit_signoff_required (settings parent_object)));
    cbn [andb];
    (split;
     [ eexists; rewrite ?failures_add_failure, <- ?app_assoc;
       split; [try reflexivity; by rewrite app_nil_r |];
       split; [simpl; lia | try discriminate; intros _ _; reflexivity]
     | rewrite ?blocks_apply_add_failure, ?orb_false_r, ?orb_true_r; reflexivity ]).
Qed.

End BranchProtectionRules.

(** *** The checks, run *)

Definition no_rule_failures (bpr : unit) (context : ValidationContext)
    (repository : Repository) : ValidationContext := context.

Definition private_forkable : Repository :=
  {| name := "example"; description := UNSET; homepage := UNSET;
     private := PyBool true; has_issues := UNSET; has_projects := UNSET;
     has_wiki := PyBool true; default_branch := UNSET; allow_rebase_merge := UNSET;
     allow_merge_commit := UNSET; allow_squash_merge := UNSET;
     allow_auto_merge := UNSET; delete_branch_on_merge := UNSET;
     allow_update_branch := UNSET; squash_merge_commit_title := UNSET;
     squash_merge_commit_message := UNSET; merge_commit_title := UNSET;
     merge_commit_message := UNSET; archived := UNSET;
     allow_forking := PyBool true; Repository.web_commit_signoff_required := UNSET;
     secret_scanning := UNSET; secret_scanning_push_protection := UNSET;
     dependabot_alerts_enabled := UNSET |}.

Definition free_organization : Organization :=
  {| settings := {| plan := PyStr "free"; web_commit_signoff_required := PyBool false;
                    members_can_fork_private_repositories := PyBool false |} |}.

Definition empty_context : ValidationContext :=
  {| root_object := organization "all" "write"; validation_failures := [] |}.

Lemma validate_blocks_witness :
  validation_failures
    (validate unit no_rule_failures private_forkable [] empty_context free_organization)
  = [(WARNING, private_wiki_message private_forkable (settings free_organization));
     (ERROR, private_forking_message private_forkable)] /\
  blocks_apply
    (validate unit no_rule_failures private_forkable [] empty_context free_organization)
  = true.
Proof.
  destruct (validate_blocks unit no_rule_failures private_forkable [tt] empty_context
              free_organization) as (_ & _ & Hblocks).
  split; [reflexivity |]. rewrite Hblocks. reflexivity.
Defined.

End repository_validate.

(** ** otterdog/operations/import_operation.py *)

Module import_operation.
Import Py.
Local Open Scope string_scope.
Local Open Scope list_scope.

(** What the operation writes through its printer. *)
Inductive Output : Type :=
| Print (text : string)
| PrintError (text : string)
| PrintWarn (text : string).

(** The surroundings of the operation: the files and directories on disk,
    the lines waiting on standard input, and the printer with its output so
    far and its indentation level. *)
Record World : Type := {
  files : gmap string string;
  directories : gset string;
  stdin : list string;
  printed : list Output;
  level : Z
}.

(** How [execute] ends: with a return value, or with an exception that it
    lets through; [EOFError] is what [input()] raises at the end of the
    input. *)
Inductive Outcome : Type :=
| Return (code : Z)
| Raised (ex : Exception)
| EOFError.

Definition print (text : string) (w : World) : World :=
  {| files := files w; directories := directories w; stdin := stdin w;
     printed := printed w ++ [Print text]; level := level w |}.

Definition print_error (text : string) (w : World) : World :=
  {| files := files w; directories := directories w; stdin := stdin w;
     printed := printed w ++ [PrintError text]; level := level w |}.

Definition print_warn (text : string) (w : World) : World :=
  {| files := files w; directories := directories w; stdin := stdin w;
     printed := printed w ++ [PrintWarn text]; level := level w |}.

Definition level_up (w : World) : World :=
  {| files := files w; directories := directories w; stdin := stdin w;
     printed := printed w; level := level w + 1 |}.

Definition level_down (w : World) : World :=
  {| files := files w; directories := directories w; stdin := stdin w;
     printed := printed w; level := level w - 1 |}.

(** [os.path.exists] *)
Definition exists_ (path : string) (w : World) : bool :=
  bool_decide (is_Some (files w !! path)) || bool_decide (path ∈ directories w).

(** [input()] *)
Definition input (w : World) : option (string * World) :=
  match stdin w with
  | [] => None
  | answer :: rest =>
    Some (answer,
          {| files := files w; directories := directories w; stdin := rest;
             printed := printed w; level := level w |})
  end.

Record JsonnetConfig : Type := { orgs_dir : string }.

Record OtterdogConfig : Type := {
  config_file : string;
  force_processing : bool;
  no_web_ui : bool;
  jsonnet_config : JsonnetConfig
}.

Record OrganizationConfig : Type := {
  name : string;
  github_id : string
}.

Section Operation.

(** The parts of otterdog that [execute] calls and that are not among the
    sources: [JsonnetConfig.get_org_config_file],
    [OtterdogConfig.get_credentials], the client [Github] with its attribute
    [web_org_settings], [load_from_github], which yields the organization or
    raises and reports through the printer, and
    [GitHubOrganization.write_jsonnet_config].  [BRIGHT] and [RESET_ALL] are
    the constants of [colorama.Style].  Any of the calls may raise. *)
Variable get_org_config_file : JsonnetConfig -> string -> string.
Variable Credentials : Type.
Variable get_credentials : OtterdogConfig -> OrganizationConfig -> Result Credentials.
Variable Client : Type.
Variable Github : Credentials -> Result Client.
Variable Keys : Type.
Variable web_org_settings : Client -> Keys.
Variable no_keys : Keys.
Variable Organization : Type.
Variable load_from_github :
  string -> JsonnetConfig -> Client -> bool -> Result Organization * list Output.
Variable write_jsonnet_config : Organization -> JsonnetConfig -> Keys -> Result string.
Variable str_of_exception : Exception -> string.
Variable BRIGHT : string.
Variable RESET_ALL : string.

(** How the operating system fails.  [makedirs_fails path w] is [None] when
    [os.makedirs(path)] succeeds, and [Some (made, ex)] when it raises [ex]
    after having made the directories [made]; [open_fails path w] is the
    exception that [open(path, "w")] raises, if any, the file being then as
    it was; [write_fails path output w] is [None] when the output is written
    and the file closed, and [Some (partial, ex)] when writing or closing
    raises [ex] and leaves the file, truncated when it was opened, with the
    content [partial]. *)
Variable makedirs_fails : string -> World -> option (gset string * Exception).
Variable open_fails : string -> World -> option Exception.
Variable write_fails : string -> string -> World -> option (string * Exception).

(** [os.makedirs] *)
Definition makedirs (path : string) (w : World) : option Exception * World :=
  match makedirs_fails path w with
  | None =>
    (None,
     {| files := files w; directories := {[ path ]} ∪ directories w; stdin := stdin w;
        printed := printed w; level := level w |})
  | Some (made, ex) =>
    (Some ex,
     {| files := files w; directories := made ∪ directories w; stdin := stdin w;
        printed := printed w; level := level w |})
  end.

(** [with open(path, "w") as file: file.write(output)] *)
Definition write_file (path output : string) (w : World) : option Exception * World :=
  match open_fails path w with
  | Some ex => (Some ex, w)
  | None =>
    match write_fails path output w with
    | None =>
      (None,
       {| files := <[path := output]> (files w); directories := directories w;
          stdin := stdin w; printed := printed w; level := level w |})
    | Some (partial, ex) =>
      (Some ex,
       {| files := <[path := partial]> (files w); directories := directories w;
          stdin := stdin w; printed := printed w; level := level w |})
    end
  end.

Definition is_RuntimeError (ex : Exception) : bool :=
  match ex with RuntimeError _ => true | _ => false end.

Definition overwrite_warning (org_file_name : string) : string :=
  newline +:+ BRIGHT +:+ "Definition already exists" +:+ RESET_ALL +:+ " at " +:+
  "'" +:+ org_file_name +:+ "'." +:+ newline +:+
  "  Performing this action will overwrite its contents." +:+ newline +:+
  "  Do you want to continue?" +:+ newline +:+
  "  Only 'yes' will be accepted to approve." +:+ newline +:+ newline.

Definition reported (lines : list Output) (w : World) : World :=
  {| files := files w; directories := directories w; stdin := stdin w;
     printed := printed w ++ lines; level := level w |}.

(** The body of the outer [try] of [execute]. *)
Definition import (config : OtterdogConfig) (org_config : OrganizationConfig)
    (org_file_name : string) (w : World) : Outcome * World :=
  match get_credentials config org_config with
  | Raise ex =>
    if is_RuntimeError ex
    then (Return 1, print_error ("invalid credentials" +:+ newline +:+ str_of_exception ex) w)
    else (Raised ex, w)
  | Ok credentials =>
    match Github credentials with
    | Raise ex => (Raised ex, w)
    | Ok gh_client =>
      let w :=
        if no_web_ui config
        then print_warn ("The Web UI will not be queried as '--no-web-ui' has been specified, " +:+
                         "the resulting config will be incomplete") w
        else w in
      let '(organization, lines) :=
        load_from_github (github_id org_config) (jsonnet_config config) gh_client
          (no_web_ui config) in
      let w := reported lines w in
      match organization with
      | Raise ex => (Raised ex, w)
      | Ok organization =>
        let ignored_keys :=
          if no_web_ui config then web_org_settings gh_client else no_keys in
        match write_jsonnet_config organization (jsonnet_config config) ignored_keys with
        | Raise ex => (Raised ex, w)
        | Ok output =>
          let output_dir := orgs_dir (jsonnet_config config) in
          let '(failure, w) :=
            if negb (exists_ output_dir w) then makedirs output_dir w else (None, w) in
          match failure with
          | Some ex => (Raised ex, w)
          | None =>
            let '(failure, w) := write_file org_file_name output w in
            match failure with
            | Some ex => (Raised ex, w)
            | None =>
              (Return 0,
               print ("organization definition written to '" +:+ org_file_name +:+ "'") w)
            end
          end
        end
      end
    end
  end.

(** [ImportOperation.execute] *)
Definition execute (config : OtterdogConfig) (org_config : OrganizationConfig)
    (w : World) : Outcome * World :=
  let github_id := github_id org_config in
  let w := print ("Organization " +:+ BRIGHT +:+ name org_config +:+ RESET_ALL +:+
                  "[id=" +:+ github_id +:+ "]") w in
  let org_file_name := get_org_config_file (jsonnet_config config) github_id in
  let proceed (w : World) : Outcome * World :=
    let w := level_up w in
    let '(outcome, w) := import config org_config org_file_name w in
    (outcome, level_down w) in
  if exists_ org_file_name w && negb (force_processing config) then
    let w := print (overwrite_warning org_file_name) w in
    let w := print ("  " +:+ BRIGHT +:+ "Enter a value:" +:+ RESET_ALL +:+ " ") w in
    match input w with
    | None => (EOFError, w)
    | Some (answer, w) =>
      if negb (String.eqb answer "yes")
      then (Return 1, print (newline +:+ "Import cancelled.") w)
      else proceed w
    end
  else proceed w.

(** X22: an existing definition is overwritten only on consent.  When the
    file of the organization exists and processing is not forced,
    [execute] asks, and on any answer other than the exact text "yes" it
    returns 1 with the files and directories as they were, without asking
    for credentials or loading anything: all it does is print and read the
    answer. *)
Theorem execute_needs_consent (config : OtterdogConfig) (org_config : OrganizationConfig)
    (w : World) (answer : string) (rest : list string) :
  exists_ (get_org_config_file (jsonnet_config config) (github_id org_config)) w = true ->
  force_processing config = false ->
  stdin w = answer :: rest ->
  answer <> "yes" ->
  exists lines,
    execute config org_config w =
    (Return 1,
     {| files := files w; directories := directories w; stdin := rest;
        printed := printed w ++ lines; level := level w |}) /\
    last lines = Some (Print (newline +:+ "Import cancelled.")).
Proof.
  intros Hexists Hforce Hin Hno. unfold execute.
  assert (Hexists' : exists_ (get_org_config_file (jsonnet_config config)
                                (github_id org_config))
                       (print ("Organization " +:+ BRIGHT +:+ name org_config +:+
                               RESET_ALL +:+ "[id=" +:+ github_id org_config +:+ "]") w)
                     = true) by exact Hexists.
  rewrite Hexists', Hforce. cbn [negb andb].
  unfold input. cbn [print stdin files directories printed level]. rewrite Hin.
  apply String.eqb_neq in Hno. rewrite Hno. cbn [negb].
  eexists. split.
  - unfold print. cbn [files directories stdin printed level].
    rewrite <- !app_assoc. reflexivity.
  - reflexivity.
Qed.








End Operation.

(** *** The operation, run *)

Definition org_config_file (jsonnet_config : JsonnetConfig) (github_id : string) : string :=
  orgs_dir jsonnet_config +:+ "/" +:+ github_id +:+ ".jsonnet".

Definition loaded (github_id : string) (jsonnet_config : JsonnetConfig) (client : unit)
    (no_web_ui : bool) : Result string * list Output :=
  (Ok github_id, []).

Definition written (organization : string) (jsonnet_config : JsonnetConfig)
    (ignored_keys : list string) : Result string :=
  Ok organization.

(** A disk on which nothing fails, and one that is full: the file can be
    opened, and so is truncated, but nothing can be written to it. *)
Inductive Disk : Type := Sound | Full.

Definition no_space (disk : Disk) (path output : string) (w : World) :
    option (string * Exception) :=
  match disk with
  | Sound => None
  | Full => Some ("", OSError "No space left on device")
  end.

Definition run_on (disk : Disk) (config : OtterdogConfig)
    (org_config : OrganizationConfig) (w : World) : Outcome * World :=
  execute org_config_file unit (fun _ _ => Ok tt) unit (fun credentials => Ok credentials)
    (list string) (fun _ => ["two_factor_requirement"]) [] string loaded written
    rest.exception_name "" "" (fun _ _ => None) (fun _ _ => None) (no_space disk)
    config org_config w.

Definition run (config : OtterdogConfig) (org_config : OrganizationConfig) (w : World) :
    Outcome * World :=
  run_on Sound config org_config w.

Definition asked_config : OtterdogConfig :=
  {| config_file := "otterdog.json"; force_processing := false; no_web_ui := false;
     jsonnet_config := {| orgs_dir := "orgs" |} |}.

Definition eclipse : OrganizationConfig := {| name := "eclipse"; github_id := "o" |}.

Definition answering (answer : string) : World :=
  {| files := {[ "orgs/o.jsonnet" := "old" ]}; directories := {[ "orgs" ]};
     stdin := [answer]; printed := []; level := 0 |}.

Lemma execute_needs_consent_witness :
  exists lines,
    run asked_config eclipse (answering "y") =
    (Return 1,
     {| files := files (answering "y"); directories := directories (answering "y");
        stdin := []; printed := printed (answering "y") ++ lines;
        level := level (answering "y") |}) /\
    last lines = Some (Print (newline +:+ "Import cancelled.")).
Proof.
  apply (execute_needs_consent org_config_file unit (fun _ _ => Ok tt) unit
           (fun credentials => Ok credentials) (list string)
           (fun _ => ["two_factor_requirement"]) [] string loaded written
           rest.exception_name "" "" (fun _ _ => None) (fun _ _ => None) (no_space Sound)
           asked_config eclipse (answering "y") "y" []).
  - vm_compute. reflexivity.
  - reflexivity.
  - reflexivity.
  - discriminate.
Defined.

(** On consent the definition is replaced by the text rendered; on a full
    disk the run ends with the error and the old definition is lost. *)
Lemma consent_overwrites :
  fst (run asked_config eclipse (answering "yes")) = Return 0 /\
  files (snd (run asked_config eclipse (answering "yes")))
    = {[ "orgs/o.jsonnet" := "o" ]} /\
  level (snd (run asked_config eclipse (answering "yes"))) = 0%Z.
Proof. vm_compute. done. Qed.

Lemma full_disk_loses_the_definition :
  fst (run_on Full asked_config eclipse (answering "yes"))
    = Raised (OSError "No space left on device") /\
  files (snd (run_on Full asked_config eclipse (answering "yes")))
    = {[ "orgs/o.jsonnet" := "" ]} /\
  level (snd (run_on Full asked_config eclipse (answering "yes"))) = 0%Z.
Proof. vm_compute. done. Qed.

End import_operation.

(** ** otterdog/github_web.py: [GithubWeb._update_settings] *)

Module github_web.
Import Py.
Local Open Scope string_scope.
Local Open Scope list_scope.

(** A dictionary with string keys, kept as the list of its items in the
    order of insertion. *)
Fixpoint dict_get {V : Type} (key : string) (d : list (string * V)) : option V :=
  match d with
  | [] => None
  | (k, v) :: d => if String.eqb k key then Some v else dict_get key d
  end.

(** [d[key] = v] *)
Fixpoint dict_set {V : Type} (key : string) (v : V) (d : list (string * V)) :
    list (string * V) :=
  match d with
  | [] => [(key, v)]
  | (k, x) :: d => if String.eqb k key then (k, v) :: d else (k, x) :: dict_set key v d
  end.

(** The definition of a setting, as loaded from github-web-settings.jsonnet:
    the code reads its entries "selector", "save" and "valueSelector". *)
Definition SettingDef : Type := gmap string string.

(** What the code does with the page of the browser. *)
Inductive Action : Type :=
| Goto (url : string)
| SetChecked (selector : string) (checked : bool)
| Fill (selector : string) (value : string)
| Click (selector : string) (trial : bool).

(** How [_update_settings] ends: normally, by [utils.exit_with_message], or
    with an exception. *)
Inductive Outcome : Type :=
| Done
| Exit (message : string) (code : Z)
| Raised (ex : Exception).

Section Browser.

(** [responds url history] is what [page.goto(url)] answers after the
    actions of [history]: [response.ok] and [response.status].  [type_name]
    is the text of [type(new_value)]. *)
Variable responds : string -> list Action -> bool * Z.
Variable type_name : Value -> string.

Definition Page : Type := list Action.

Definition page_address (org_id page_url : string) : string :=
  "https://github.com/organizations/" +:+ org_id +:+ "/" +:+ page_url.

(** The body of the inner loop of the first part. *)
Definition add_setting (settings : gmap string Value) (page_url : string)
    (pages_to_load : list (string * list (string * SettingDef)))
    (item : string * SettingDef) : list (string * list (string * SettingDef)) :=
  let '(setting, setting_def) := item in
  if decide (is_Some (settings !! setting)) then
    let page_dict := default [] (dict_get page_url pages_to_load) in
    let page_dict := dict_set setting setting_def page_dict in
    dict_set page_url page_dict pages_to_load
  else pages_to_load.

(** The first part of [_update_settings]: the pages that need to be
    loaded. *)
Definition collect_pages (web_settings_definition : list (string * list (string * SettingDef)))
    (settings : gmap string Value) : list (string * list (string * SettingDef)) :=
  fold_left (fun pages_to_load '(page_url, page_def) =>
               fold_left (add_setting settings page_url) page_def pages_to_load)
            web_settings_definition [].

Definition setting_def_getitem (setting_def : SettingDef) (key : string) : Result string :=
  match setting_def !! key with
  | Some v => Ok v
  | None => Raise (KeyError key)
  end.

(** The body of the inner loop of the second part. *)
Definition update_setting (settings : gmap string Value) (item : string * SettingDef)
    (page : Page) : Outcome * Page :=
  let '(setting, setting_def) := item in
  match settings !! setting with
  | None => (Raised (KeyError setting), page)
  | Some new_value =>
    let clicks (page : Page) : Outcome * Page :=
      match setting_def_getitem setting_def "save" with
      | Raise ex => (Raised ex, page)
      | Ok save => (Done, page ++ [Click save true; Click save false])
      end in
    match new_value with
    | PyBool checked =>
      match setting_def_getitem setting_def "selector" with
      | Raise ex => (Raised ex, page)
      | Ok selector => clicks (page ++ [SetChecked selector checked])
      end
    | PyStr text =>
      match setting_def_getitem setting_def "selector" with
      | Raise ex => (Raised ex, page)
      | Ok selector => clicks (page ++ [Fill selector text])
      end
    | _ =>
      (Exit ("not yet supported value type '" +:+ type_name new_value +:+ "'") 1, page)
    end
  end.

Fixpoint update_page (settings : gmap string Value) (page_dict : list (string * SettingDef))
    (page : Page) : Outcome * Page :=
  match page_dict with
  | [] => (Done, page)
  | item :: page_dict =>
    match update_setting settings item page with
    | (Done, page) => update_page settings page_dict page
    | stopped => stopped
    end
  end.

(** The second part of [_update_settings]. *)
Fixpoint load_pages (org_id : string) (settings : gmap string Value)
    (pages_to_load : list (string * list (string * SettingDef))) (page : Page) :
    Outcome * Page :=
  match pages_to_load with
  | [] => (Done, page)
  | (page_url, page_dict) :: pages_to_load =>
    let address := page_address org_id page_url in
    let '(ok, status) := responds address page in
    let page := page ++ [Goto address] in
    if negb ok
    then (Exit ("unable to access github page '" +:+ page_url +:+ "': " +:+ pretty status) 1,
          page)
    else
      match update_page settings page_dict page with
      | (Done, page) => load_pages org_id settings pages_to_load page
      | stopped => stopped
      end
  end.

(** [GithubWeb._update_settings] *)
Definition _update_settings
    (web_settings_definition : list (string * list (string * SettingDef)))
    (org_id : string) (settings : gmap string Value) (page : Page) : Outcome * Page :=
  load_pages org_id settings (collect_pages web_settings_definition settings) page.











(** *** What the browser is made to do *)


















End Browser.

(** *** The update, run *)

Definition always_reachable (url : string) (history : list Action) : bool * Z :=
  (true, 200%Z).

Definition type_of (v : Value) : string :=
  match v with
  | UNSET => "<class 'otterdog.utils.Unset'>"
  | PyNone => "<class 'NoneType'>"
  | PyBool _ => "<class 'bool'>"
  | PyInt _ => "<class 'int'>"
  | PyStr _ => "<class 'str'>"
  | PyList _ => "<class 'list'>"
  end.

Definition field_def (selector save : string) : SettingDef :=
  {[ "selector" := selector; "save" := save ]}.

Definition definition : list (string * list (string * SettingDef)) :=
  [ ("settings/profile",
     [ ("description", field_def "#description" "#save-profile");
       ("blog", field_def "#blog" "#save-profile") ]);
    ("settings/member_privileges",
     [ ("members_can_fork", field_def "#fork" "#save-fork") ]) ].

Definition requested : gmap string Value :=
  {[ "blog" := PyStr "https://example.org";
     "members_can_fork" := PyBool false;
     "billing_email" := PyStr "a@example.org" ]}.


(** A page that cannot be reached ends the update after the attempt, and a
    value that is neither a boolean nor a text ends it before anything is
    entered. *)
Definition unreachable (url : string) (history : list Action) : bool * Z :=
  (false, 404%Z).

Lemma unreachable_page_exits :
  _update_settings unreachable type_of definition "o" requested [] =
  (Exit "unable to access github page 'settings/profile': 404" 1,
   [Goto "https://github.com/organizations/o/settings/profile"]).
Proof. vm_compute. reflexivity. Qed.

Lemma unsupported_value_exits :
  _update_settings always_reachable type_of definition "o" {[ "blog" := PyInt 1 ]} [] =
  (Exit "not yet supported value type '<class 'int'>'" 1,
   [Goto "https://github.com/organizations/o/settings/profile"]).
Proof. vm_compute. reflexivity. Qed.

End github_web.
